(** * EclipGuardX: telemetry collection, reconciliation and retention

    A shallow embedding of the metrics collector ([metrics-collector.mjs]),
    the container synchronisation of the containers route, the cleanup
    route, the two security-score computations and the foreign-key actions
    of the initial migration, together with the properties the
    specification states about them.

    Conventions of the embedding.
    - A JavaScript string is a [string]; a character stands for the code
      unit with the same number (U+0000 to U+00FF).
    - A JavaScript number is a [number]: [NaN], an infinity, or an exact
      rational.  Rounding to the nearest double, the overflow of a value
      beyond the range of doubles to an infinity and the sign of zero are
      not modelled, so a decimal literal denotes its exact value.
    - The time zone of the server is a [zone]: the offset of local time
      at an instant and the offset in force at a local time.
    - [undefined] and [null] are [None].
    - The store is a record of tables, each table a list of rows; a
      statement of the ORM is a function on the store, to an [option]
      where the statement can throw. *)

From Stdlib Require Import String Ascii ZArith QArith Qabs Qminmax Lqa Lia Bool List.
From stdpp Require Import base option list strings gmap.

Local Open Scope string_scope.

(** * JavaScript strings *)

Module Js.

Definition code (c : ascii) : N := N_of_ascii c.

(** [\d] *)
Definition isDigit (c : ascii) : bool :=
  ((48 <=? code c) && (code c <=? 57))%N.

(** White space and line terminators below U+0100: what [\s], [trim] and
    the leading-blank skipping of [parseFloat] and [parseInt] recognise. *)
Definition isWhiteSpace (c : ascii) : bool :=
  match code c with
  | 9 | 10 | 11 | 12 | 13 | 32 | 160 => true
  | _ => false
  end%N.

Definition isEmpty (s : string) : bool :=
  match s with EmptyString => true | _ => false end.

Fixpoint trimStart (s : string) : string :=
  match s with
  | String c r => if isWhiteSpace c then trimStart r else s
  | EmptyString => EmptyString
  end.

Fixpoint trimEnd (s : string) : string :=
  match s with
  | String c r =>
      let r' := trimEnd r in
      if isWhiteSpace c && isEmpty r' then EmptyString else String c r'
  | EmptyString => EmptyString
  end.

Definition trim (s : string) : string := trimEnd (trimStart s).

(** [s.split(sep)] for a one-character separator. *)
Fixpoint split (sep : ascii) (s : string) : list string :=
  match s with
  | EmptyString => [EmptyString]
  | String c r =>
      if Ascii.eqb c sep then EmptyString :: split sep r
      else match split sep r with
           | h :: t => String c h :: t
           | [] => [String c EmptyString]
           end
  end.

(** [s.split(/\s+/)]: the flag tells whether the previous character
    belonged to a separator run. *)
Fixpoint splitWs_from (inSep : bool) (s : string) : list string :=
  match s with
  | EmptyString => [EmptyString]
  | String c r =>
      if isWhiteSpace c then
        if inSep then splitWs_from true r
        else EmptyString :: splitWs_from true r
      else match splitWs_from false r with
           | h :: t => String c h :: t
           | [] => [String c EmptyString]
           end
  end.

Definition splitWs (s : string) : list string := splitWs_from false s.

(** [s.replace(c, '')] for a one-character pattern: the first occurrence
    only. *)
Fixpoint removeFirst (c : ascii) (s : string) : string :=
  match s with
  | EmptyString => EmptyString
  | String d r => if Ascii.eqb d c then r else String d (removeFirst c r)
  end.

Definition upperChar (c : ascii) : ascii :=
  if ((97 <=? code c) && (code c <=? 122))%N
  then ascii_of_N (code c - 32) else c.

(** [toUpperCase], on the letters a to z. *)
Fixpoint toUpperCase (s : string) : string :=
  match s with
  | EmptyString => EmptyString
  | String c r => String (upperChar c) (toUpperCase r)
  end.

Definition lowerChar (c : ascii) : ascii :=
  if ((65 <=? code c) && (code c <=? 90))%N
  then ascii_of_N (code c + 32) else c.

(** [toLowerCase], on the letters A to Z. *)
Fixpoint toLowerCase (s : string) : string :=
  match s with
  | EmptyString => EmptyString
  | String c r => String (lowerChar c) (toLowerCase r)
  end.

Fixpoint span (p : ascii -> bool) (s : string) : string * string :=
  match s with
  | String c r =>
      if p c then let '(a, b) := span p r in (String c a, b)
      else (EmptyString, s)
  | EmptyString => (EmptyString, EmptyString)
  end.

Fixpoint startsWith (pre s : string) : bool :=
  match pre, s with
  | EmptyString, _ => true
  | String a p, String b r => Ascii.eqb a b && startsWith p r
  | String _ _, EmptyString => false
  end.

(** [s.includes(sub)] *)
Fixpoint includes (sub s : string) : bool :=
  startsWith sub s ||
  match s with
  | String _ r => includes sub r
  | EmptyString => false
  end.

(** A template literal prints an [undefined] interpolation as the word. *)
Definition interpolate (o : option string) : string :=
  match o with Some s => s | None => "undefined" end.

End Js.

(** * JavaScript numbers *)

Inductive number : Type :=
| NaN
| Inf (negative : bool)
| Fin (q : Q).

Module Num.

Definition zero : number := Fin 0.
Definition ofZ (z : Z) : number := Fin (inject_Z z).

(** Equality of numbers: rationals up to [Qeq]. *)
Definition eq (a b : number) : Prop :=
  match a, b with
  | NaN, NaN => True
  | Inf s, Inf t => s = t
  | Fin p, Fin q => (p == q)%Q
  | _, _ => False
  end.

Definition isNaN (a : number) : bool :=
  match a with NaN => true | _ => false end.

(** [Number.isFinite(a)] *)
Definition isFinite (a : number) : bool :=
  match a with Fin _ => true | _ => false end.

Definition isNeg (q : Q) : bool :=
  match Qcompare q 0 with Lt => true | _ => false end.

Definition isZero (q : Q) : bool := Qeq_bool q 0.

Definition neg (a : number) : number :=
  match a with
  | NaN => NaN
  | Inf s => Inf (negb s)
  | Fin q => Fin (- q)
  end.

Definition add (a b : number) : number :=
  match a, b with
  | NaN, _ | _, NaN => NaN
  | Inf s, Inf t => if Bool.eqb s t then Inf s else NaN
  | Inf s, Fin _ | Fin _, Inf s => Inf s
  | Fin p, Fin q => Fin (p + q)
  end.

Definition sub (a b : number) : number := add a (neg b).

Definition mul (a b : number) : number :=
  match a, b with
  | NaN, _ | _, NaN => NaN
  | Inf s, Inf t => Inf (xorb s t)
  | Inf s, Fin q | Fin q, Inf s =>
      if isZero q then NaN else Inf (xorb s (isNeg q))
  | Fin p, Fin q => Fin (p * q)
  end.

Definition div (a b : number) : number :=
  match a, b with
  | NaN, _ | _, NaN => NaN
  | Inf _, Inf _ => NaN
  | Inf s, Fin q => Inf (xorb s (isNeg q))
  | Fin _, Inf _ => Fin 0
  | Fin p, Fin q =>
      if isZero q then (if isZero p then NaN else Inf (isNeg p))
      else Fin (p / q)
  end.

(** [a > b] *)
Definition gt (a b : number) : bool :=
  match a, b with
  | NaN, _ | _, NaN => false
  | Inf s, Inf t => negb s && t
  | Inf s, Fin _ => negb s
  | Fin _, Inf t => t
  | Fin p, Fin q => match Qcompare p q with Gt => true | _ => false end
  end.

(** [Math.min(a, b)] *)
Definition min (a b : number) : number :=
  match a, b with
  | NaN, _ | _, NaN => NaN
  | _, _ => if gt a b then b else a
  end.

End Num.

#[export] Instance number_equiv : Equiv number := Num.eq.

(** * Number parsing *)

Module Parse.

Definition digitVal (c : ascii) : Z := Z.of_N (Js.code c) - 48.

(** Value of a run of decimal digits, most significant first. *)
Definition digitsVal (s : string) : Z :=
  fold_left (fun acc c => 10 * acc + digitVal c)%Z (list_ascii_of_string s) 0%Z.

Definition hexVal (c : ascii) : option Z :=
  let n := Js.code c in
  if ((48 <=? n) && (n <=? 57))%N then Some (Z.of_N n - 48)%Z
  else if ((97 <=? n) && (n <=? 102))%N then Some (Z.of_N n - 87)%Z
  else if ((65 <=? n) && (n <=? 70))%N then Some (Z.of_N n - 55)%Z
  else None.

Definition isHex (c : ascii) : bool :=
  match hexVal c with Some _ => true | None => false end.

Definition hexDigitsVal (s : string) : Z :=
  fold_left (fun acc c => 16 * acc + default 0 (hexVal c))%Z
            (list_ascii_of_string s) 0%Z.

(** [10^e] for an integer exponent. *)
Definition pow10 (e : Z) : Q := Qpower 10 e.

(** Value of [intPart.fracPart]. *)
Definition decimalVal (ip fp : string) : Q :=
  inject_Z (digitsVal ip)
  + inject_Z (digitsVal fp) / pow10 (Z.of_nat (String.length fp)).

Definition takeSign (s : string) : bool * string :=
  match s with
  | String "+" r => (false, r)
  | String "-" r => (true, r)
  | _ => (false, s)
  end.

(** The exponent part [e[+-]digits], when one is present. *)
Definition exponentPart (s : string) : option Z :=
  match s with
  | String c r =>
      if Ascii.eqb c "e" || Ascii.eqb c "E" then
        let '(sg, r1) := takeSign r in
        let '(ds, _) := Js.span Js.isDigit r1 in
        if Js.isEmpty ds then None
        else Some (if sg then - digitsVal ds else digitsVal ds)%Z
      else None
  | EmptyString => None
  end.

(** [parseFloat(s)]: the longest prefix of the trimmed input that is a
    decimal literal, [NaN] when there is none. *)
Definition parseFloat (s : string) : number :=
  let '(sg, s1) := takeSign (Js.trimStart s) in
  if Js.startsWith "Infinity" s1 then Inf sg
  else
    let '(ip, r1) := Js.span Js.isDigit s1 in
    let '(fp, r2) :=
      match r1 with
      | String "." t => Js.span Js.isDigit t
      | _ => (EmptyString, r1)
      end in
    if Js.isEmpty ip && Js.isEmpty fp then NaN
    else
      let m := decimalVal ip fp in
      let v := match exponentPart r2 with
               | Some e => (m * pow10 e)%Q
               | None => m
               end in
      Fin (if sg then - v else v)%Q.

(** [parseInt(s)] without a radix: decimal, or hexadecimal after [0x].
    The digits are read exactly, as every number of this file is: a run
    beyond the range of doubles, which JavaScript reads as an infinity,
    is outside the embedding. *)
Definition parseInt (s : string) : number :=
  let '(sg, s1) := takeSign (Js.trimStart s) in
  let signed (z : Z) := Num.ofZ (if sg then - z else z)%Z in
  match s1 with
  | String "0" (String x r) =>
      if Ascii.eqb x "x" || Ascii.eqb x "X" then
        let '(ds, _) := Js.span isHex r in
        if Js.isEmpty ds then NaN else signed (hexDigitsVal ds)
      else
        let '(ds, _) := Js.span Js.isDigit s1 in signed (digitsVal ds)
  | _ =>
      let '(ds, _) := Js.span Js.isDigit s1 in
      if Js.isEmpty ds then NaN else signed (digitsVal ds)
  end.

End Parse.

(** * Regular expressions

    The patterns of the collector use character classes, greedy
    quantifiers on classes, optional groups and capturing groups.  The
    matcher is the usual backtracking one: a quantifier takes as much as
    it can and gives characters back when the rest of the pattern fails;
    [exec] tries the start positions from left to right. *)

Module Regex.

Inductive t : Type :=
| Chr (p : ascii -> bool)           (* one character of a class *)
| Star (p : ascii -> bool)          (* class* *)
| Plus (p : ascii -> bool)          (* class+ *)
| Opt (r : t)                       (* r? *)
| Cat (r1 r2 : t)                   (* r1 r2 *)
| Grp (i : nat) (r : t).            (* capturing group number i *)

Definition captures : Type := list (nat * string).

(** The part of [s] in front of its suffix [rest]. *)
Definition consumed (s rest : string) : string :=
  String.substring 0 (String.length s - String.length rest) s.

Fixpoint star {R} (p : ascii -> bool) (s : string)
    (k : string -> option R) : option R :=
  match s with
  | String c r =>
      if p c then
        match star p r k with
        | Some x => Some x
        | None => k s
        end
      else k s
  | EmptyString => k s
  end.

Fixpoint run {R} (r : t) (s : string) (cs : captures)
    (k : string -> captures -> option R) : option R :=
  match r with
  | Chr p =>
      match s with
      | String c s' => if p c then k s' cs else None
      | EmptyString => None
      end
  | Star p => star p s (fun s' => k s' cs)
  | Plus p =>
      match s with
      | String c s' => if p c then star p s' (fun s'' => k s'' cs) else None
      | EmptyString => None
      end
  | Opt r1 =>
      match run r1 s cs k with
      | Some x => Some x
      | None => k s cs
      end
  | Cat r1 r2 => run r1 s cs (fun s' cs' => run r2 s' cs' k)
  | Grp i r1 => run r1 s cs (fun s' cs' => k s' ((i, consumed s s') :: cs'))
  end.

(** [s.match(r)] for a pattern without the global flag: the captures of
    the leftmost match. *)
Fixpoint exec (r : t) (s : string) : option captures :=
  match run r s [] (fun _ cs => Some cs) with
  | Some cs => Some cs
  | None =>
      match s with
      | String _ s' => exec r s'
      | EmptyString => None
      end
  end.

(** [match[i]] *)
Fixpoint group (i : nat) (cs : captures) : option string :=
  match cs with
  | (j, v) :: cs' => if Nat.eqb i j then Some v else group i cs'
  | [] => None
  end.

(** A class of letters under the [i] flag. *)
Definition oneOfCi (letters : string) (c : ascii) : bool :=
  existsb (fun l => Ascii.eqb (Js.upperChar c) (Js.upperChar l))
          (list_ascii_of_string letters).

Definition lit (x : ascii) (c : ascii) : bool := Ascii.eqb c x.

Definition digitOrDot (c : ascii) : bool := Js.isDigit c || Ascii.eqb c ".".

End Regex.

(** * The collector: unit parsing *)

Import Regex.

(** [/(\d+(?:\.\d+)?)([KMGT]?)i?B?/i] *)
Definition bytesPattern : Regex.t :=
  Cat (Grp 1 (Cat (Plus Js.isDigit)
                  (Opt (Cat (Chr (Regex.lit ".")) (Plus Js.isDigit)))))
 (Cat (Grp 2 (Opt (Chr (oneOfCi "KMGT"))))
 (Cat (Opt (Chr (oneOfCi "i")))
      (Opt (Chr (oneOfCi "B"))))).

(** [/([\d.]+[KMGT]?)i?B?\s*\/\s*([\d.]+[KMGT]?)i?B?/i] *)
Definition ioPattern : Regex.t :=
  Cat (Grp 1 (Cat (Plus digitOrDot) (Opt (Chr (oneOfCi "KMGT")))))
 (Cat (Opt (Chr (oneOfCi "i")))
 (Cat (Opt (Chr (oneOfCi "B")))
 (Cat (Star Js.isWhiteSpace)
 (Cat (Chr (Regex.lit "/"))
 (Cat (Star Js.isWhiteSpace)
 (Cat (Grp 2 (Cat (Plus digitOrDot) (Opt (Chr (oneOfCi "KMGT")))))
 (Cat (Opt (Chr (oneOfCi "i")))
      (Opt (Chr (oneOfCi "B")))))))))).

Definition times (v : number) (k : Z) : number := Num.mul v (Num.ofZ k).

(** [parseBytes(str)] *)
Definition parseBytes (str : string) : number :=
  if Js.isEmpty str then Num.zero
  else
    match Regex.exec bytesPattern str with
    | None => Num.zero
    | Some m =>
        let value := Parse.parseFloat (default "" (Regex.group 1 m)) in
        let unit := Js.toUpperCase <$> Regex.group 2 m in
        if decide (unit = Some "K" \/ unit = Some "KB") then
          times value 1024
        else if decide (unit = Some "M" \/ unit = Some "MB") then
          times value (1024 * 1024)
        else if decide (unit = Some "G" \/ unit = Some "GB") then
          times value (1024 * 1024 * 1024)
        else if decide (unit = Some "T" \/ unit = Some "TB") then
          times value (1024 * 1024 * 1024 * 1024)
        else value
    end.

(** * The store

    Tables of the initial migration.  A row identifier is a natural number
    drawn from the counter [nextId] of the store (the ORM generates a
    unique text identifier); a time is a count of milliseconds. *)

Definition rowid : Type := nat.
Definition time : Type := Z.
Bind Scope Z_scope with time.

Module Container.
Record t : Type := mk {
  id : rowid;
  containerId : string;
  name : string;
  image : string;
  status : string;
  ports : option string;
  createdAt : time;
  updatedAt : time
}.
End Container.

Module ContainerMetric.
Record t : Type := mk {
  id : rowid;
  containerId : rowid;
  cpuUsage : number;
  memUsage : number;
  memLimit : option number;
  netIn : number;
  netOut : number;
  diskRead : option number;
  diskWrite : option number;
  timestamp : time
}.
End ContainerMetric.

Module Alert.
Record t : Type := mk {
  id : rowid;
  severity : string;
  message : string;
  source : string;
  containerId : option rowid;
  timestamp : time;
  resolved : bool
}.
End Alert.

Module Scan.
Record t : Type := mk {
  id : rowid;
  containerId : rowid;
  scanType : string;
  status : string;
  result : option string;
  summary : option string;
  timestamp : time;
  duration : option Z
}.
End Scan.

Module ContainerLog.
Record t : Type := mk {
  id : rowid;
  containerId : rowid;
  logLevel : string;
  message : string;
  timestamp : time;
  source : option string
}.
End ContainerLog.

Module SystemMetric.
Record t : Type := mk {
  id : rowid;
  cpuUsage : number;
  cpuLoad1 : number;
  cpuLoad5 : number;
  cpuLoad15 : number;
  ramUsed : number;
  ramFree : number;
  ramUsagePercent : number;
  ramTotal : number;
  diskUsed : number;
  diskFree : number;
  diskUsagePercent : number;
  diskTotal : number;
  networkIn : number;
  networkOut : number;
  timestamp : time
}.
End SystemMetric.

Record store : Type := mkStore {
  containers : list Container.t;
  containerMetrics : list ContainerMetric.t;
  alerts : list Alert.t;
  scans : list Scan.t;
  containerLogs : list ContainerLog.t;
  systemMetrics : list SystemMetric.t;
  nextId : rowid
}.

(** * The collector: container statistics *)

(** The object [metricData] handed to [prisma.containerMetric.create]. *)
Record metricData : Type := mkMetricData {
  md_containerId : rowid;
  md_cpuUsage : number;
  md_memUsage : number;
  md_memLimit : option number;
  md_netIn : number;
  md_netOut : number;
  md_diskRead : option number;
  md_diskWrite : option number
}.

(** [isNaN(x) ? 0 : x] *)
Definition orZero (x : number) : number :=
  if Num.isNaN x then Num.zero else x.

(** The conversion of the memory limit to megabytes (the [switch] on the
    unit of [memLimitMatch]); [None] is [null]. *)
Definition memLimitMB (memLimitValue : string) : option number :=
  if Js.isEmpty memLimitValue then None
  else
    match Regex.exec bytesPattern memLimitValue with
    | None => None
    | Some m =>
        let value := Parse.parseFloat (default "" (Regex.group 1 m)) in
        let unit := Js.toUpperCase <$> Regex.group 2 m in
        if decide (unit = Some "G" \/ unit = Some "GB") then
          Some (times value 1024)
        else if decide (unit = Some "K" \/ unit = Some "KB") then
          Some (Num.div value (Num.ofZ 1024))
        else if decide (unit = Some "T" \/ unit = Some "TB") then
          Some (times value (1024 * 1024))
        else Some value
    end.

(** The pair of byte counts read from an ["<a> / <b>"] string. *)
Definition ioBytes (io : string) : option (number * number) :=
  match Regex.exec ioPattern io with
  | None => None
  | Some m =>
      Some (parseBytes (default "" (Regex.group 1 m)),
            parseBytes (default "" (Regex.group 2 m)))
  end.

(** The body of [collectSingleContainerMetrics] between the [docker stats]
    call and the [create]: the sample built from the output, [None] when
    the function returns (or throws into its [catch]) before building
    one.  [dbId] is [container.id]. *)
Definition statsSample (dbId : rowid) (stdout : string) : option metricData :=
  if Js.isEmpty (Js.trim stdout) then None
  else
    line ← head (Js.split "010" (Js.trim stdout));
    if Js.isEmpty line then None
    else
      let parts := Js.splitWs line in
      if (length parts <? 9)%nat then None
      else
        cpuPerc ← parts !! 1%nat;
        memPerc ← parts !! 5%nat;
        let netIO :=
          Js.interpolate (parts !! 6%nat) ++ " / " ++ Js.interpolate (parts !! 8%nat) in
        let blockIO :=
          Js.interpolate (parts !! 9%nat) ++ " / " ++ Js.interpolate (parts !! 11%nat) in
        let cpuUsage := Parse.parseFloat (Js.removeFirst "%" cpuPerc) in
        let memUsagePercent := Parse.parseFloat (Js.removeFirst "%" memPerc) in
        let memUsageString :=
          Js.interpolate (parts !! 2%nat) ++ " / " ++ Js.interpolate (parts !! 4%nat) in
        let memParts := Js.split "/" memUsageString in
        let memLimitValue := Js.trim <$> (memParts !! 1%nat) in
        let memLimit := memLimitValue ≫= memLimitMB in
        let net := default (Num.zero, Num.zero) (ioBytes netIO) in
        let block := ioBytes blockIO in
        Some {| md_containerId := dbId;
                md_cpuUsage := orZero cpuUsage;
                md_memUsage := orZero memUsagePercent;
                md_memLimit := memLimit;
                md_netIn := net.1;
                md_netOut := net.2;
                md_diskRead := fst <$> block;
                md_diskWrite := snd <$> block |}.

(** What the ORM accepts for a nullable [Float] column: [null] or a
    finite number. *)
Definition finiteOrNull (o : option number) : bool :=
  match o with
  | Some x => Num.isFinite x
  | None => true
  end.

(** The data the ORM accepts for a sample: every [Float] is finite. *)
Definition storable (d : metricData) : bool :=
  Num.isFinite (md_cpuUsage d) && Num.isFinite (md_memUsage d)
  && finiteOrNull (md_memLimit d)
  && Num.isFinite (md_netIn d) && Num.isFinite (md_netOut d)
  && finiteOrNull (md_diskRead d) && finiteOrNull (md_diskWrite d).

(** [prisma.containerMetric.create({ data })]: the row gets a fresh
    identifier and the current time.  The ORM refuses [NaN] and the
    infinities in a [Float] column: the call then throws, which is
    [None], and writes nothing. *)
Definition createContainerMetric (now : time) (d : metricData) (st : store)
    : option store :=
  if storable d then
    let row :=
      ContainerMetric.mk (nextId st) (md_containerId d) (md_cpuUsage d)
        (md_memUsage d) (md_memLimit d) (md_netIn d) (md_netOut d)
        (md_diskRead d) (md_diskWrite d) now in
    Some (mkStore (containers st) (containerMetrics st ++ [row]) (alerts st) (scans st)
            (containerLogs st) (systemMetrics st) (S (nextId st)))
  else None.

(** [prisma.container.findUnique({ where: { containerId } })] *)
Definition findUniqueContainer (cid : string) (st : store) : option Container.t :=
  find (fun r => String.eqb (Container.containerId r) cid) (containers st).

(** [collectSingleContainerMetrics(containerId)].  [execResult] is the
    standard output of the [docker stats] command, [None] when the command
    fails; every exception, that of the [create] included, ends in the
    [catch] of the function, which only logs.  The broadcast that follows
    the [create] does not touch the store. *)
Definition collectSingleContainerMetrics (now : time) (execResult : option string)
    (containerId : string) (st : store) : store :=
  match findUniqueContainer containerId st with
  | None => st
  | Some container =>
      match execResult with
      | None => st
      | Some stdout =>
          match statsSample (Container.id container) stdout with
          | None => st
          | Some d => default st (createContainerMetric now d st)
          end
      end
  end.

(** * The collector: host statistics *)

(** An awaited promise either delivers a value or stays pending for
    ever. *)
Inductive promise (A : Type) : Type :=
| Fulfilled (a : A)
| Pending.
Arguments Fulfilled {A} a.
Arguments Pending {A}.

(** [await p; k] *)
Definition await {A B} (p : promise A) (k : A -> promise B) : promise B :=
  match p with
  | Fulfilled a => k a
  | Pending => Pending
  end.

(** [Promise.all([p, q])] *)
Definition promiseAll {A B} (p : promise A) (q : promise B) : promise (A * B) :=
  match p, q with
  | Fulfilled a, Fulfilled b => Fulfilled (a, b)
  | _, _ => Pending
  end.

(** [new Promise(resolve => setTimeout(() => fs.readFileSync(...), 1000))]:
    the timer callback reads the file and drops the text; the executor
    never calls [resolve]. *)
Definition delayedRead (secondRead : string) : promise string := Pending.

Record cpuTimes : Type := mkCpuTimes {
  user : number;
  nice : number;
  system : number;
  idle : number;
  iowait : number;
  irq : number;
  softirq : number
}.

(** [parseInt(parts[i])]; a missing element prints as [undefined]. *)
Definition parseIntAt (parts : list string) (i : nat) : number :=
  match parts !! i with
  | Some s => Parse.parseInt s
  | None => NaN
  end.

(** [parseCPU(line)] *)
Definition parseCPU (line : string) : option cpuTimes :=
  let parts := Js.splitWs line in
  if decide (parts !! 0%nat = Some "cpu") then
    Some (mkCpuTimes (parseIntAt parts 1) (parseIntAt parts 2)
            (parseIntAt parts 3) (parseIntAt parts 4) (parseIntAt parts 5)
            (parseIntAt parts 6) (parseIntAt parts 7))
  else None.

Definition totalTime (c : cpuTimes) : number :=
  Num.add (Num.add (Num.add (Num.add (Num.add (Num.add
    (user c) (nice c)) (system c)) (idle c)) (iowait c)) (irq c)) (softirq c).

Definition idleTime (c : cpuTimes) : number := Num.add (idle c) (iowait c).

(** The computation of [getCPUUsage] on two snapshots: lines
    [total1] to the [return] of the [try] block. *)
Definition cpuUsageOfTimes (first second : cpuTimes) : number :=
  let total1 := totalTime first in
  let total2 := totalTime second in
  let idle1 := idleTime first in
  let idle2 := idleTime second in
  let totalDiff := Num.sub total2 total1 in
  let idleDiff := Num.sub idle2 idle1 in
  if Num.gt totalDiff Num.zero
  then Num.mul (Num.div (Num.sub totalDiff idleDiff) totalDiff) (Num.ofZ 100)
  else Num.zero.

(** The part of [getCPUUsage] after the [await], on the two texts read
    from [/proc/stat]. *)
Definition cpuUsageOfReads (firstRead secondRead : string) : number :=
  let first := parseCPU (default "" (head (Js.split "010" firstRead))) in
  let second := parseCPU (default "" (head (Js.split "010" secondRead))) in
  match first, second with
  | Some a, Some b => cpuUsageOfTimes a b
  | _, _ => Num.zero
  end.

(** [getCPUUsage()].  [firstRead] is [None] when [/proc/stat] cannot be
    read: the exception reaches the [catch], which returns the estimate
    from the load average. *)
Definition getCPUUsage (firstRead : option string) (secondRead : string)
    (loadAvg1 : number) (cpuCount : nat) : promise number :=
  match firstRead with
  | None =>
      Fulfilled (Num.min (Num.mul (Num.div loadAvg1 (Num.ofZ (Z.of_nat cpuCount)))
                                  (Num.ofZ 100))
                         (Num.ofZ 100))
  | Some text =>
      await (promiseAll (Fulfilled text) (delayedRead secondRead))
        (fun reads => Fulfilled (cpuUsageOfReads reads.1 reads.2))
  end.

(** The object [systemMetricsData]. *)
Record systemMetricsData : Type := mkSystemMetricsData {
  sm_cpuUsage : number;
  sm_cpuLoad1 : number;
  sm_cpuLoad5 : number;
  sm_cpuLoad15 : number;
  sm_ramUsed : number;
  sm_ramFree : number;
  sm_ramUsagePercent : number;
  sm_ramTotal : number;
  sm_diskUsed : number;
  sm_diskFree : number;
  sm_diskUsagePercent : number;
  sm_diskTotal : number;
  sm_networkIn : number;
  sm_networkOut : number
}.

(** What the operating system answers during one [collectSystemMetrics]:
    the two reads of [/proc/stat], [os.loadavg()], the number of cores,
    [os.totalmem()], [os.freemem()], the output of [df -BM / | tail -1]
    ([None] when the command fails) and the two network totals as the
    [/proc/net/dev] block (or its random fallback) leaves them. *)
Record hostReading : Type := mkHostReading {
  procStat1 : option string;
  procStat2 : string;
  loadavg : number * number * number;
  cpus : nat;
  totalmem : number;
  freemem : number;
  dfOutput : option string;
  networkIn : number;
  networkOut : number
}.

Definition mega : number := Num.ofZ (1024 * 1024).

(** The body of [collectSystemMetrics] after the CPU usage is known, up
    to the object it stores; [None] when an exception reaches the
    [catch]. *)
Definition systemMetricsOf (cpuUsage : number) (h : hostReading) : option systemMetricsData :=
  let totalMemory := totalmem h in
  let freeMemory := freemem h in
  let usedMemory := Num.sub totalMemory freeMemory in
  let ramUsagePercent := Num.mul (Num.div usedMemory totalMemory) (Num.ofZ 100) in
  let ramTotal := Num.div totalMemory mega in
  let ramUsed := Num.div usedMemory mega in
  let ramFree := Num.div freeMemory mega in
  out ← dfOutput h;
  let diskInfo := Js.splitWs (Js.trim out) in
  used ← diskInfo !! 2%nat;
  free ← diskInfo !! 3%nat;
  let diskUsed := Parse.parseFloat (Js.removeFirst "M" used) in
  let diskFree := Parse.parseFloat (Js.removeFirst "M" free) in
  let diskTotal := Num.add diskUsed diskFree in
  let diskUsagePercent := Num.mul (Num.div diskUsed diskTotal) (Num.ofZ 100) in
  Some {| sm_cpuUsage := orZero cpuUsage;
          sm_cpuLoad1 := (loadavg h).1.1;
          sm_cpuLoad5 := (loadavg h).1.2;
          sm_cpuLoad15 := (loadavg h).2;
          sm_ramUsed := ramUsed;
          sm_ramFree := ramFree;
          sm_ramUsagePercent := orZero ramUsagePercent;
          sm_ramTotal := ramTotal;
          sm_diskUsed := diskUsed;
          sm_diskFree := diskFree;
          sm_diskUsagePercent := orZero diskUsagePercent;
          sm_diskTotal := diskTotal;
          sm_networkIn := networkIn h;
          sm_networkOut := networkOut h |}.

(** The data the ORM accepts for a host sample: every [Float] is
    finite. *)
Definition storableHost (d : systemMetricsData) : bool :=
  forallb Num.isFinite
    [sm_cpuUsage d; sm_cpuLoad1 d; sm_cpuLoad5 d; sm_cpuLoad15 d;
     sm_ramUsed d; sm_ramFree d; sm_ramUsagePercent d; sm_ramTotal d;
     sm_diskUsed d; sm_diskFree d; sm_diskUsagePercent d; sm_diskTotal d;
     sm_networkIn d; sm_networkOut d].

(** [prisma.systemMetric.create({ data })]; [None] when the call throws,
    as it does on a number that is not finite. *)
Definition createSystemMetric (now : time) (d : systemMetricsData) (st : store)
    : option store :=
  if storableHost d then
    let row :=
      SystemMetric.mk (nextId st) (sm_cpuUsage d) (sm_cpuLoad1 d) (sm_cpuLoad5 d)
        (sm_cpuLoad15 d) (sm_ramUsed d) (sm_ramFree d) (sm_ramUsagePercent d)
        (sm_ramTotal d) (sm_diskUsed d) (sm_diskFree d) (sm_diskUsagePercent d)
        (sm_diskTotal d) (sm_networkIn d) (sm_networkOut d) now in
    Some (mkStore (containers st) (containerMetrics st) (alerts st) (scans st)
            (containerLogs st) (systemMetrics st ++ [row]) (S (nextId st)))
  else None.

(** [collectSystemMetrics()]: the store it leaves, when it ever
    finishes.  An exception of the [create] ends in the [catch] of the
    method, which only logs. *)
Definition collectSystemMetrics (now : time) (h : hostReading) (st : store) : promise store :=
  await (getCPUUsage (procStat1 h) (procStat2 h) (loadavg h).1.1 (cpus h))
    (fun cpuUsage =>
       Fulfilled match systemMetricsOf cpuUsage h with
                 | Some d => default st (createSystemMetric now d st)
                 | None => st
                 end).

(** * The inventory: synchronisation with the container runtime *)

Module Docker.
(** An element of [allList]: one line of [docker ps -a], classified. *)
Record container : Type := mk {
  id : string;
  name : string;
  image : string;
  status : string;
  ports : option string
}.
End Docker.

(** [container.ports || null]: an absent or empty text becomes [null]. *)
Definition portsOrNull (p : option string) : option string :=
  match p with
  | Some s => if Js.isEmpty s then None else Some s
  | None => None
  end.

Definition setContainers (cs : list Container.t) (n : rowid) (st : store) : store :=
  mkStore cs (containerMetrics st) (alerts st) (scans st) (containerLogs st)
    (systemMetrics st) n.

(** [prisma.container.upsert({ where: { containerId }, update, create })] *)
Definition upsertContainer (now : time) (c : Docker.container) (st : store) : store :=
  let same (r : Container.t) := String.eqb (Container.containerId r) (Docker.id c) in
  if existsb same (containers st) then
    setContainers
      (map (fun r =>
              if same r then
                Container.mk (Container.id r) (Container.containerId r)
                  (Docker.name c) (Docker.image c) (Docker.status c)
                  (portsOrNull (Docker.ports c)) (Container.createdAt r) now
              else r)
           (containers st))
      (nextId st) st
  else
    setContainers
      (containers st ++
         [Container.mk (nextId st) (Docker.id c) (Docker.name c) (Docker.image c)
            (Docker.status c) (portsOrNull (Docker.ports c)) now now])
      (S (nextId st)) st.

Definition inb (x : string) (l : list string) : bool :=
  existsb (String.eqb x) l.

Definition memb (x : rowid) (l : list rowid) : bool :=
  existsb (Nat.eqb x) l.

(** [prisma.container.deleteMany({ where: { containerId: { notIn } } })],
    with the actions the migration attaches to the foreign keys on
    [Container.id]: ON DELETE CASCADE for [ContainerMetric], [Scan] and
    [ContainerLog], ON DELETE SET NULL for [Alert]. *)
Definition deleteContainersNotIn (ids : list string) (st : store) : store :=
  let kept (r : Container.t) := inb (Container.containerId r) ids in
  let deleted :=
    map Container.id (List.filter (fun r => negb (kept r)) (containers st)) in
  mkStore
    (List.filter kept (containers st))
    (List.filter (fun m => negb (memb (ContainerMetric.containerId m) deleted))
                 (containerMetrics st))
    (map (fun a =>
            match Alert.containerId a with
            | Some c =>
                if memb c deleted then
                  Alert.mk (Alert.id a) (Alert.severity a) (Alert.message a)
                    (Alert.source a) None (Alert.timestamp a) (Alert.resolved a)
                else a
            | None => a
            end)
         (alerts st))
    (List.filter (fun s => negb (memb (Scan.containerId s) deleted)) (scans st))
    (List.filter (fun l => negb (memb (ContainerLog.containerId l) deleted))
                 (containerLogs st))
    (systemMetrics st)
    (nextId st).

(** [syncContainersToDatabase(allContainers)]: upsert every observed
    container, then delete the rows of the containers that are no longer
    observed, unless nothing is observed. *)
Definition syncContainersToDatabase (now : time) (allContainers : list Docker.container)
    (st : store) : store :=
  let currentDockerIds := map Docker.id allContainers in
  let st1 := fold_left (fun acc c => upsertContainer now c acc) allContainers st in
  if (0 <? length currentDockerIds)%nat
  then deleteContainersNotIn currentDockerIds st1
  else st1.

Module Collector.

(** One line of [docker ps -a] with the tab-separated format of the
    collector; [None] when [status] is [undefined], on which
    [status.toLowerCase()] throws. *)
Definition parsePsLine (line : string) : option Docker.container :=
  let fields := Js.split "009" line in
  id ← fields !! 0%nat;
  name ← fields !! 1%nat;
  image ← fields !! 2%nat;
  status ← fields !! 3%nat;
  let isRunning := Js.includes "up" (Js.toLowerCase status) in
  Some (Docker.mk id name image (if isRunning then "running" else "stopped")
          (fields !! 4%nat)).

(** [allContainers.trim().split('\n').filter(line => line).map(...)];
    [None] when the mapping throws. *)
Definition parseAll (allContainers : string) : option (list Docker.container) :=
  mapM parsePsLine
    (List.filter (fun line => negb (Js.isEmpty line))
                 (Js.split "010" (Js.trim allContainers))).

(** [syncContainersToDatabase()] of the collector: the two [docker ps]
    commands, the parsing, then the upserts and the deletion.  An output
    is [None] when its command fails; every exception ends in the [catch]
    of the method. *)
Definition syncContainersToDatabase (now : time)
    (runningContainers allContainers : option string) (st : store) : store :=
  match runningContainers, allContainers with
  | Some _, Some out =>
      match parseAll out with
      | Some allList => syncContainersToDatabase now allList st
      | None => st
      end
  | _, _ => st
  end.

End Collector.

(** * Retention: the cleanup route *)

Record cleanupResults : Type := mkCleanupResults {
  metricsDeleted : nat;
  alertsDeleted : nat;
  scansDeleted : nat;
  errors : list string
}.

Definition msPerDay : Z := 24 * 60 * 60 * 1000.

(** The time zone of the server, as the [Date] methods use it:
    [offsetAt t] is the offset of local time from UTC, in milliseconds, at
    the instant [t], and [offsetOfLocal l] the offset in force at the
    local time [l]. *)
Record zone : Type := mkZone {
  offsetAt : time -> Z;
  offsetOfLocal : Z -> Z
}.

(** [LocalTime(t)] *)
Definition LocalTime (z : zone) (t : time) : Z := (t + offsetAt z t)%Z.

(** [UTC(l)] *)
Definition UTC (z : zone) (l : Z) : time := (l - offsetOfLocal z l)%Z.

(** [cutoffDate.setDate(cutoffDate.getDate() - days)] on the [Date] of
    [now]: the day of the month is set in local time, which moves the
    local time back by [days] calendar days and keeps the time of day; the
    result is taken back to UTC. *)
Definition cutoffDate (z : zone) (now : time) (days : Z) : time :=
  UTC z (LocalTime z now - days * msPerDay).

Definition oldMetric (cutoff : time) (m : ContainerMetric.t) : bool :=
  (ContainerMetric.timestamp m <? cutoff)%Z.

Definition oldResolvedAlert (cutoff : time) (a : Alert.t) : bool :=
  (Alert.timestamp a <? cutoff)%Z && Alert.resolved a.

Definition oldCompletedScan (cutoff : time) (s : Scan.t) : bool :=
  (Scan.timestamp s <? cutoff)%Z && String.eqb (Scan.status s) "completed".

Definition count {A} (p : A -> bool) (l : list A) : nat :=
  length (List.filter p l).

(** [POST] of the cleanup route; the request body is [{ days, dryRun }],
    either of which may be absent. *)
Definition POST (z : zone) (now : time) (days : option Z) (dryRun : option bool)
    (st : store) : store * cleanupResults :=
  let days := default 30%Z days in
  let dryRun := default false dryRun in
  let cutoff := cutoffDate z now days in
  if negb dryRun then
    (mkStore (containers st)
       (List.filter (fun m => negb (oldMetric cutoff m)) (containerMetrics st))
       (List.filter (fun a => negb (oldResolvedAlert cutoff a)) (alerts st))
       (List.filter (fun s => negb (oldCompletedScan cutoff s)) (scans st))
       (containerLogs st) (systemMetrics st) (nextId st),
     mkCleanupResults
       (count (oldMetric cutoff) (containerMetrics st))
       (count (oldResolvedAlert cutoff) (alerts st))
       (count (oldCompletedScan cutoff) (scans st))
       [])
  else
    (st,
     mkCleanupResults
       (count (oldMetric cutoff) (containerMetrics st))
       (count (oldResolvedAlert cutoff) (alerts st))
       (count (oldCompletedScan cutoff) (scans st))
       []).

(** * Security scores *)

(** [Math.max(0, Math.min(100, x))] *)
Definition clamp100 (x : Z) : Z := Z.max 0 (Z.min 100 x).

Definition unresolvedOf (sev : string) (a : Alert.t) : bool :=
  String.eqb (Alert.severity a) sev && negb (Alert.resolved a).

Module Report.
(** The score of the security report, on the alerts its query returned. *)
Definition securityScore (alerts : list Alert.t) : Z :=
  clamp100
    (100 - Z.of_nat (length (List.filter (unresolvedOf "CRITICAL") alerts)) * 10
         - Z.of_nat (length (List.filter (unresolvedOf "HIGH") alerts)) * 5).
End Report.

Module Dashboard.
(** [GET] of the dashboard route, the score only: the unresolved critical
    alerts of the whole table and the failed scans of the last [hours]
    hours. *)
Definition securityScore (now : time) (hours : Z) (st : store) : Z :=
  let since := (now - hours * 60 * 60 * 1000)%Z in
  let criticalAlerts := count (unresolvedOf "CRITICAL") (alerts st) in
  let failedScans :=
    count (fun s => String.eqb (Scan.status s) "failed" && (since <=? Scan.timestamp s)%Z)
          (scans st) in
  clamp100 (100 - Z.of_nat criticalAlerts * 10 - Z.of_nat failedScans * 5).
End Dashboard.

(** * The collector: the collection cycle *)

(** [where: { status: 'running' }] *)
Definition isRunning (c : Container.t) : bool :=
  String.eqb (Container.status c) "running".

(** [collectContainerMetrics()]: the reconciliation, then one
    [collectSingleContainerMetrics] for every row with status running, in
    the order of the table.  [stats] gives the output of [docker stats]
    for a runtime identifier ([None] when the command fails) and
    [sampleTime] the time at which the sample of that container is
    written. *)
Definition collectContainerMetrics (now : time)
    (runningContainers allContainers : option string)
    (stats : string -> option string) (sampleTime : string -> time)
    (st : store) : store :=
  let st1 := Collector.syncContainersToDatabase now runningContainers allContainers st in
  fold_left
    (fun acc c =>
       collectSingleContainerMetrics (sampleTime (Container.containerId c))
         (stats (Container.containerId c)) (Container.containerId c) acc)
    (List.filter isRunning (containers st1)) st1.

(** [collectOnce()], and the first two steps of [start()]: the host
    sample, then the container cycle. *)
Definition collectOnce (now : time) (h : hostReading)
    (runningContainers allContainers : option string)
    (stats : string -> option string) (sampleTime : string -> time)
    (st : store) : promise store :=
  await (collectSystemMetrics now h st)
    (fun st1 =>
       Fulfilled (collectContainerMetrics now runningContainers allContainers
                    stats sampleTime st1)).

(** * The collector: retention *)

(** [cleanupOldMetrics(days = 7)] of the collector. *)
Definition cleanupOldMetrics (z : zone) (now : time) (days : option Z) (st : store)
    : store :=
  let cutoff := cutoffDate z now (default 7%Z days) in
  mkStore (containers st)
    (List.filter (fun m => negb (oldMetric cutoff m)) (containerMetrics st))
    (alerts st) (scans st) (containerLogs st) (systemMetrics st) (nextId st).

(** The period of the weekly cleanup, in milliseconds. *)
Definition msPerWeek : Z := 7 * 24 * 60 * 60 * 1000.

(** [Date.now() % (7 * 24 * 60 * 60 * 1000) < this.collectionInterval] *)
Definition cleanupDue (now collectionInterval : Z) : bool :=
  (now mod msPerWeek <? collectionInterval)%Z.

(** [this.collectionInterval] *)
Definition collectionInterval : Z := 30 * 1000.

(** * The collector: network totals *)

(** [x || 0] on numbers: [NaN] and 0 are the falsy ones. *)
Definition orFalsy (x : number) : number :=
  match x with
  | NaN => Num.zero
  | Fin q => if Num.isZero q then Num.zero else x
  | Inf _ => x
  end.

(** One turn of the loop over the lines of [/proc/net/dev], on the pair
    [(totalIn, totalOut)]; [None] when the turn throws. *)
Definition netDevLine (totals : number * number) (raw : string) : option (number * number) :=
  let line := Js.trim raw in
  if Js.isEmpty line then Some totals
  else
    let cols := Js.splitWs line in
    if (16 <? length cols)%nat then
      name ← cols !! 0%nat;
      if Js.includes "lo:" name then Some totals
      else Some (Num.add totals.1 (orFalsy (parseIntAt cols 1)),
                 Num.add totals.2 (orFalsy (parseIntAt cols 9)))
    else Some totals.

(** The loop of [collectSystemMetrics] over the text of [/proc/net/dev],
    from the third line on. *)
Definition netDevTotals (netDev : string) : option (number * number) :=
  fold_left (fun acc raw => acc ≫= fun totals => netDevLine totals raw)
            (drop 2 (Js.split "010" netDev)) (Some (Num.zero, Num.zero)).

(** The network block of [collectSystemMetrics]: the totals of the text,
    or the estimate of the [catch] when the file cannot be read
    ([netDev] is [None]) or the loop throws. *)
Definition networkTotals (netDev : option string) (estimate : number * number) :
    number * number :=
  default estimate (netDev ≫= netDevTotals).

(** * Retention: the statistics of the cleanup route *)

Module Cleanup.

(** The object [stats]: the counts of [database], the counts of
    [cleanupEstimate] and the two dates. *)
Record stats : Type := mkStats {
  totalMetrics : nat;
  oldMetrics : nat;
  totalAlerts : nat;
  oldAlerts : nat;
  totalScans : nat;
  oldScans : nat;
  metricsToDelete : nat;
  alertsToDelete : nat;
  scansToDelete : nat;
  totalToDelete : nat;
  lastCleanup : time;
  nextCleanup : time
}.

(** [GET] of the cleanup route. *)
Definition GET (now : time) (st : store) : stats :=
  let thirtyDaysAgo := (now - 30 * 24 * 60 * 60 * 1000)%Z in
  let totalMetrics := length (containerMetrics st) in
  let oldMetrics := count (oldMetric thirtyDaysAgo) (containerMetrics st) in
  let totalAlerts := length (alerts st) in
  let oldAlerts := count (oldResolvedAlert thirtyDaysAgo) (alerts st) in
  let totalScans := length (scans st) in
  let oldScans := count (oldCompletedScan thirtyDaysAgo) (scans st) in
  mkStats totalMetrics oldMetrics totalAlerts oldAlerts totalScans oldScans
    oldMetrics oldAlerts oldScans (oldMetrics + oldAlerts + oldScans)
    thirtyDaysAgo (now + 24 * 60 * 60 * 1000)%Z.

End Cleanup.

(** * Alerts: resolving and reopening *)

Module Alerts.

Definition withResolved (v : bool) (a : Alert.t) : Alert.t :=
  Alert.mk (Alert.id a) (Alert.severity a) (Alert.message a) (Alert.source a)
    (Alert.containerId a) (Alert.timestamp a) v.

(** [db.alert.update({ where: { id }, data: { resolved } })]; [None] when
    no alert has the identifier, on which the call throws. *)
Definition update (alertId : rowid) (v : bool) (st : store) : option store :=
  if existsb (fun a => Nat.eqb (Alert.id a) alertId) (alerts st) then
    Some (mkStore (containers st) (containerMetrics st)
            (map (fun a => if Nat.eqb (Alert.id a) alertId then withResolved v a else a)
                 (alerts st))
            (scans st) (containerLogs st) (systemMetrics st) (nextId st))
  else None.

(** [PATCH] of the alerts route: the store it leaves and the status of
    the response.  An argument is [None] when the body has no such field
    or a falsy one. *)
Definition PATCH (alertId : option rowid) (action : option string) (st : store)
    : store * Z :=
  match alertId, action with
  | Some i, Some act =>
      if Js.isEmpty act then (st, 400%Z)
      else if String.eqb act "resolve" then
        match update i true st with
        | Some st' => (st', 200%Z)
        | None => (st, 500%Z)
        end
      else if String.eqb act "reopen" then
        match update i false st with
        | Some st' => (st', 200%Z)
        | None => (st, 500%Z)
        end
      else (st, 400%Z)
  | _, _ => (st, 400%Z)
  end.

End Alerts.

(** * Reports: compliance *)

Module Compliance.

(** An element of [complianceIssues]. *)
Record issue : Type := mkIssue {
  container : string;
  issues : list string
}.

(** [timestamp: { gte: from, lte: to }] *)
Definition inPeriod (from to t : time) : bool := ((from <=? t) && (t <=? to))%Z.

(** [container.alerts] of the query: the alerts of the container in the
    period. *)
Definition alertsOf (from to : time) (st : store) (c : Container.t) : list Alert.t :=
  List.filter
    (fun a =>
       match Alert.containerId a with
       | Some i => Nat.eqb i (Container.id c)
       | None => false
       end && inPeriod from to (Alert.timestamp a))
    (alerts st).

(** [container.scans] of the query. *)
Definition scansOf (from to : time) (st : store) (c : Container.t) : list Scan.t :=
  List.filter
    (fun s => Nat.eqb (Scan.containerId s) (Container.id c)
              && inPeriod from to (Scan.timestamp s))
    (scans st).

Definition hasCriticalAlerts (as_ : list Alert.t) : bool :=
  existsb (unresolvedOf "CRITICAL") as_.

Definition hasRecentScan (ss : list Scan.t) : bool := (0 <? length ss)%nat.

Definition scanPassed (ss : list Scan.t) : bool :=
  existsb (fun s => String.eqb (Scan.status s) "completed") ss.

(** One turn of the loop over [allContainers], on the pair
    [(complianceIssues, compliantContainers)]. *)
Definition classify (from to : time) (st : store)
    (acc : list issue * list string) (c : Container.t) : list issue * list string :=
  let critical := hasCriticalAlerts (alertsOf from to st c) in
  let recent := hasRecentScan (scansOf from to st c) in
  let passed := scanPassed (scansOf from to st c) in
  if critical || negb recent || negb passed then
    (acc.1 ++ [mkIssue (Container.name c)
                 ((if critical then ["Has unresolved critical alerts"] else [])
                  ++ (if negb recent then ["No recent security scans"] else [])
                  ++ (if negb passed then ["Recent scans failed"] else []))],
     acc.2)%list
  else (acc.1, acc.2 ++ [Container.name c])%list.

(** The two lists of the compliance report. *)
Definition report (from to : time) (st : store) : list issue * list string :=
  fold_left (classify from to st) (containers st) ([], []).

(** The number that [complianceRate] prints with two decimals. *)
Definition complianceRate (from to : time) (st : store) : number :=
  Num.mul (Num.div (Num.ofZ (Z.of_nat (length (report from to st).2)))
                   (Num.ofZ (Z.of_nat (length (containers st)))))
          (Num.ofZ 100).

End Compliance.

(** * Reports: performance *)

Module Performance.

(** A value of the map [containerPerformance]. *)
Record perf : Type := mkPerf {
  name : string;
  cpuMetrics : list number;
  memoryMetrics : list number;
  networkInMetrics : list number;
  networkOutMetrics : list number
}.

(** [metric.container?.name || 'Unknown'] *)
Definition containerName (st : store) (m : ContainerMetric.t) : string :=
  match find (fun c => Nat.eqb (Container.id c) (ContainerMetric.containerId m))
             (containers st) with
  | Some c => if Js.isEmpty (Container.name c) then "Unknown" else Container.name c
  | None => "Unknown"
  end.

(** The four [push] calls. *)
Definition push (m : ContainerMetric.t) (p : perf) : perf :=
  mkPerf (name p)
    (cpuMetrics p ++ [ContainerMetric.cpuUsage m])
    (memoryMetrics p ++ [ContainerMetric.memUsage m])
    (networkInMetrics p ++ [ContainerMetric.netIn m])
    (networkOutMetrics p ++ [ContainerMetric.netOut m]).

(** One turn of the loop over [metrics] on the map, whose entries are
    kept in the order of their insertion: the entry of the name is
    created when the map has none, then the values are pushed to it. *)
Fixpoint record (n : string) (m : ContainerMetric.t) (groups : list perf) : list perf :=
  match groups with
  | [] => [push m (mkPerf n [] [] [] [])]
  | p :: rest =>
      if String.eqb (name p) n then push m p :: rest
      else p :: record n m rest
  end.

(** The map [containerPerformance] after the loop, on the metrics the
    query returned. *)
Definition containerPerformance (st : store) (metrics : list ContainerMetric.t) : list perf :=
  fold_left (fun groups m => record (containerName st m) m groups) metrics [].

(** [dataPoints] of an entry of [performanceSummary]. *)
Definition dataPoints (p : perf) : nat := length (cpuMetrics p).

End Performance.

(** * Container logs: reading a line *)

Module Logs.

(** The object [parseDockerLog] returns. *)
Record entry : Type := mkEntry {
  timestamp : time;
  message : string;
  logLevel : string;
  source : string
}.

(** [s.indexOf(c)] for a one-character pattern; [None] is -1. *)
Fixpoint indexOf (c : ascii) (s : string) : option nat :=
  match s with
  | EmptyString => None
  | String d r => if Ascii.eqb d c then Some 0%nat else S <$> indexOf c r
  end.

(** The level read from the words of the message. *)
Definition levelOf (message : string) : string :=
  if Js.includes "error" (Js.toLowerCase message) then "ERROR"
  else if Js.includes "warn" (Js.toLowerCase message) then "WARN"
  else if Js.includes "debug" (Js.toLowerCase message) then "DEBUG"
  else "INFO".

(** [parseDockerLog(line)].  [dateOf text] is the time of
    [new Date(text)], [None] when that time is [NaN]; [now] is the time of
    [new Date()]. *)
Definition parseDockerLog (dateOf : string -> option time) (now : time)
    (line : string) : option entry :=
  if Js.isEmpty (Js.trim line) then None
  else
    let '(timestamp, message) :=
      match indexOf " " line with
      | Some firstSpaceIndex =>
          let potentialTimestamp := String.substring 0 firstSpaceIndex line in
          match dateOf potentialTimestamp with
          | Some tempDate =>
              (tempDate,
               String.substring (firstSpaceIndex + 1)
                 (String.length line - (firstSpaceIndex + 1)) line)
          | None => (now, line)
          end
      | None => (now, line)
      end in
    Some (mkEntry timestamp message (levelOf message) "stdout").

End Logs.

(** * Notions used by the properties *)

(** ** Security scores *)

(** The number of unresolved alerts of a severity, counted row by row. *)
Fixpoint unresolvedCount (sev : string) (l : list Alert.t) : nat :=
  match l with
  | [] => 0
  | a :: l' =>
      if String.eqb (Alert.severity a) sev
      then (if Alert.resolved a then unresolvedCount sev l'
            else S (unresolvedCount sev l'))
      else unresolvedCount sev l'
  end.

(** The number of failed scans not older than [since]. *)
Fixpoint failedSince (since : time) (l : list Scan.t) : nat :=
  match l with
  | [] => 0
  | s :: l' =>
      if String.eqb (Scan.status s) "failed"
      then (if (Scan.timestamp s <? since)%Z then failedSince since l'
            else S (failedSince since l'))
      else failedSince since l'
  end.

(** [clamp(x, lo, hi)] *)
Definition clamp (x lo hi : Z) : Z :=
  if (x <? lo)%Z then lo else if (hi <? x)%Z then hi else x.

(** The score the specification states for given numbers of unresolved
    CRITICAL and unresolved HIGH alerts. *)
Definition statedScore (critical high : nat) : Z :=
  clamp (100 - 10 * Z.of_nat critical - 5 * Z.of_nat high) 0 100.

(** ** Retention *)

Definition sampleAlerts : list Alert.t :=
  [Alert.mk 1 "HIGH" "open issue" "trivy" None 0 false;
   Alert.mk 2 "LOW" "closed issue" "trivy" None 0 true].

Definition sampleStore : store :=
  mkStore [] [] sampleAlerts [] [] [] 3.

(** The zone without offset. *)
Definition utc : zone := mkZone (fun _ => 0%Z) (fun _ => 0%Z).

(** The offset in force [days] calendar days before [now], at the same
    local time of day, is the offset at [now]: no change of the clocks
    lies in between. *)
Definition steadyOffset (z : zone) (now : time) (days : Z) : Prop :=
  offsetOfLocal z (LocalTime z now - days * msPerDay) = offsetAt z now.

(** A zone that leaves daylight saving time at the instant 0: four hours
    behind UTC before it, five hours behind from then on. *)
Definition autumnZone : zone :=
  mkZone (fun t => if (t <? 0)%Z then -14400000 else -18000000)%Z
         (fun l => if (l <? -14400000)%Z then -14400000 else -18000000)%Z.

(** Ten days after the change of the clocks. *)
Definition autumnNow : time := 10 * msPerDay.

(** A resolved alert that is 30 days and 30 minutes old at [autumnNow]. *)
Definition agedAlert : Alert.t :=
  Alert.mk 1 "LOW" "closed issue" "trivy" None
    (autumnNow - 30 * msPerDay - 30 * 60 * 1000) true.

Definition agedStore : store := mkStore [] [] [agedAlert] [] [] [] 2.

(** ** Reconciliation: convergence *)

(** The runtime identifiers of the persisted inventory. *)
Definition runtimeIds (st : store) : list string :=
  map Container.containerId (containers st).

Definition observedIds (obs : list Docker.container) : list string :=
  map Docker.id obs.

(** Reconciling against a sequence of observations, oldest first. *)
Definition reconcileAll (runs : list (time * list Docker.container)) (st : store) : store :=
  fold_left (fun acc run => syncContainersToDatabase run.1 run.2 acc) runs st.

Definition web : Docker.container :=
  Docker.mk "abc123" "web" "nginx" "running" (Some "80/tcp").

Definition cache : Docker.container :=
  Docker.mk "def456" "cache" "redis" "stopped" None.

(** ** Deletion of containers and their dependent rows *)

Definition hasContainer (st : store) (i : rowid) : Prop :=
  In i (map Container.id (containers st)).

(** Every reference to a container that is not null names a row of the
    container table. *)
Definition referencesExist (st : store) : Prop :=
  (forall m, In m (containerMetrics st) ->
     hasContainer st (ContainerMetric.containerId m)) /\
  (forall a c, In a (alerts st) -> Alert.containerId a = Some c ->
     hasContainer st c) /\
  (forall s, In s (scans st) -> hasContainer st (Scan.containerId s)) /\
  (forall l, In l (containerLogs st) ->
     hasContainer st (ContainerLog.containerId l)).

(** The alert with its reference to a container set to null. *)
Definition detached (a : Alert.t) : Alert.t :=
  Alert.mk (Alert.id a) (Alert.severity a) (Alert.message a) (Alert.source a)
    None (Alert.timestamp a) (Alert.resolved a).

(** The rows of the container table a [deleteMany] with [notIn: ids]
    removes. *)
Definition removedBy (ids : list string) (st : store) (r : Container.t) : Prop :=
  In r (containers st) /\ ~ In (Container.containerId r) ids.

Definition staleStore : store :=
  mkStore [Container.mk 0 "abc123" "web" "nginx" "running" None 0 0]
    [ContainerMetric.mk 1 0 (Fin 1) (Fin 2) None (Fin 0) (Fin 0) None None 5]
    [Alert.mk 2 "HIGH" "CVE" "trivy" (Some 0%nat) 5 false]
    [] [] [] 3.

(** ** The statistics line of the specification *)

Definition exampleLine : string :=
  "abc123 0.50% 2.1MiB / 512MiB 0.41% 1.2kB / 800B 3MB / 1MB".

(** [x] is [target] up to one part in a hundred. *)
Definition near (x : number) (target : Q) : Prop :=
  match x with
  | Fin q => (Qabs (q - target) <= target / 100)%Q
  | _ => False
  end.

(** The sample the specification expects for [exampleLine]. *)
Definition expectedSample (d : metricData) : Prop :=
  md_cpuUsage d ≡ Fin 0.50 /\
  md_memUsage d ≡ Fin 0.41 /\
  (exists l, md_memLimit d = Some l /\ near l (512 * 1024 * 1024)) /\
  near (md_netIn d) 1200 /\
  md_netOut d ≡ Fin 800.

(** ** Host CPU usage from two snapshots *)

(** Seven tick counters. *)
Record ticks : Type := mkTicks {
  t_user : Q; t_nice : Q; t_system : Q; t_idle : Q;
  t_iowait : Q; t_irq : Q; t_softirq : Q
}.

Definition timesOf (t : ticks) : cpuTimes :=
  mkCpuTimes (Fin (t_user t)) (Fin (t_nice t)) (Fin (t_system t))
    (Fin (t_idle t)) (Fin (t_iowait t)) (Fin (t_irq t)) (Fin (t_softirq t)).

Definition ticksTotal (t : ticks) : Q :=
  t_user t + t_nice t + t_system t + t_idle t + t_iowait t + t_irq t + t_softirq t.

Definition deltaTotal (a b : ticks) : Q := ticksTotal b - ticksTotal a.

(** [Δidle + Δiowait] *)
Definition deltaIdle (a b : ticks) : Q :=
  (t_idle b - t_idle a) + (t_iowait b - t_iowait a).

(** The usage the specification states, with its cut to 0..100. *)
Definition statedCpuUsage (a b : ticks) : Q :=
  if Qeq_bool (deltaTotal a b) 0 then 0
  else Qmax 0 (Qmin 100 ((1 - deltaIdle a b / deltaTotal a b) * 100)).

(** Two reads of [/proc/stat], one second apart, and the counters of
    their [cpu] lines. *)
Definition statRead1 : string :=
  "cpu  100 0 50 800 50 0 0 0 0 0" ++ String "010" "cpu0 100 0 50 800 50 0 0 0 0 0".

Definition statRead2 : string :=
  "cpu  160 0 70 900 70 0 0 0 0 0" ++ String "010" "cpu0 160 0 70 900 70 0 0 0 0 0".

Definition statTicks1 : ticks := mkTicks 100 0 50 800 50 0 0.

Definition statTicks2 : ticks := mkTicks 160 0 70 900 70 0 0.

(** A host on which [/proc/stat] reads as above. *)
Definition readableHost : hostReading :=
  mkHostReading (Some statRead1) statRead2 (Fin 1, Fin 1, Fin 1) 4
    (Num.ofZ 8589934592) (Num.ofZ 6442450944)
    (Some "/dev/root 100M 40M 60M 40% /") (Fin 0) (Fin 0).

(** ** Stored usage fields are numbers *)

Definition numericMetric (m : ContainerMetric.t) : Prop :=
  Num.isNaN (ContainerMetric.cpuUsage m) = false /\
  Num.isNaN (ContainerMetric.memUsage m) = false.

Definition numericSystemMetric (r : SystemMetric.t) : Prop :=
  Num.isNaN (SystemMetric.cpuUsage r) = false /\
  Num.isNaN (SystemMetric.ramUsagePercent r) = false /\
  Num.isNaN (SystemMetric.diskUsagePercent r) = false.

(** No telemetry row of the store has [NaN] in a usage field. *)
Definition numericUsage (st : store) : Prop :=
  Forall numericMetric (containerMetrics st) /\
  Forall numericSystemMetric (systemMetrics st).

(** A store with one running container and no telemetry yet. *)
Definition freshStore : store :=
  mkStore [Container.mk 0 "abc123" "web" "nginx" "running" None 0 0]
    [] [] [] [] [] 1.

(** The answer of [docker stats] for a container that has just stopped. *)
Definition stoppedStats : string :=
  "abc123 -- -- / -- -- -- / -- -- / --".

(** A host whose [/proc/stat] cannot be read, which reports no processor
    and whose memory total reads as zero. *)
Definition degradedHost : hostReading :=
  mkHostReading None "" (Fin 0, Fin 0, Fin 0) 0 (Fin 0) (Fin 0)
    (Some "/dev/root 0M 0M 0M 0% /") (Fin 0) (Fin 0).

(** ** Short and empty statistics output *)

(** The number of white-space separated tokens of a text: the characters
    that are not white space and follow white space or the start. *)
Fixpoint countTokens (afterSpace : bool) (s : string) : nat :=
  match s with
  | EmptyString => 0
  | String c r =>
      if Js.isWhiteSpace c then countTokens true r
      else (if afterSpace then 1 else 0) + countTokens false r
  end.

Definition tokenCount (s : string) : nat := countTokens true s.

(** The line the collector parses: [stdout.trim().split('\n')[0]]. *)
Definition firstLine (stdout : string) : string :=
  default "" (head (Js.split "010" (Js.trim stdout))).

(** The output, without the blanks around it, is one line. *)
Definition singleLine (stdout : string) : Prop :=
  forall c, In c (list_ascii_of_string (Js.trim stdout)) -> c <> "010"%char.

Fixpoint lastIsWs (s : string) : bool :=
  match s with
  | EmptyString => false
  | String c r => if Js.isEmpty r then Js.isWhiteSpace c else lastIsWs r
  end.

(** Eight tokens: the block I/O pair is missing. *)
Definition shortStats : string :=
  "abc123 0.50% 2.1MiB / 512MiB 0.41% 1.2kB /
".

(** A first line of eight tokens that ends in a blank, and a second
    line. *)
Definition trailingBlankStats : string :=
  "abc123 0.50% 2.1MiB / 512MiB 0.41% 1.2kB / "
  ++ String "010" "def456 0.10% 1MiB / 512MiB 0.20% 1kB / 2kB 0B / 0B".

(** ** Unit parsing *)

(** Every character of [s] satisfies [p]. *)
Fixpoint allChars (p : ascii -> bool) (s : string) : bool :=
  match s with
  | EmptyString => true
  | String c r => p c && allChars p r
  end.

(** A run of decimal digits that is not empty. *)
Definition digitRun (s : string) : Prop :=
  Js.isEmpty s = false /\ allChars Js.isDigit s = true.

(** The decimal literal [ip] or [ip.fp]. *)
Definition literal (ip fp : string) : string :=
  if Js.isEmpty fp then ip else ip ++ "." ++ fp.

(** The unit letters the parser knows and the number of 1024-steps each
    stands for. *)
Definition unitSteps : list (string * Z) :=
  [("", 0); ("K", 1); ("k", 1); ("M", 2); ("m", 2);
   ("G", 3); ("g", 3); ("T", 4); ("t", 4)]%Z.

(** No character of [s] is a digit. *)
Definition digitFree (s : string) : Prop := allChars (fun c => negb (Js.isDigit c)) s = true.

Definition stopsAt (p : ascii -> bool) (rest : string) : Prop :=
  match rest with
  | String c _ => p c = false
  | EmptyString => True
  end.

(** The part of [bytesPattern] behind the number. *)
Definition unitTail : Regex.t :=
  Cat (Grp 2 (Opt (Chr (oneOfCi "KMGT"))))
 (Cat (Opt (Chr (oneOfCi "i"))) (Opt (Chr (oneOfCi "B")))).


(** ** Reconciliation: the rows after the upserts *)

(** The row [r] after an update from the observed container [c]: the
    [update] branch of the upsert. *)
Definition refreshed (now : time) (c : Docker.container) (r : Container.t) : Container.t :=
  Container.mk (Container.id r) (Container.containerId r) (Docker.name c)
    (Docker.image c) (Docker.status c) (portsOrNull (Docker.ports c))
    (Container.createdAt r) now.

(** The last observed container with the runtime identifier [cid]. *)
Fixpoint lastMatch (cid : string) (obs : list Docker.container) : option Docker.container :=
  match obs with
  | [] => None
  | c :: obs' =>
      match lastMatch cid obs' with
      | Some c' => Some c'
      | None => if String.eqb cid (Docker.id c) then Some c else None
      end
  end.

(** The row [r] once every observed container has been upserted. *)
Definition resolveRow (now : time) (obs : list Docker.container) (r : Container.t) : Container.t :=
  match lastMatch (Container.containerId r) obs with
  | Some c => refreshed now c r
  | None => r
  end.

(** The upserts of one reconciliation. *)
Definition upsertAll (now : time) (obs : list Docker.container) (st : store) : store :=
  fold_left (fun acc c => upsertContainer now c acc) obs st.

(** The row with its [updatedAt] set. *)
Definition touch (now : time) (r : Container.t) : Container.t :=
  Container.mk (Container.id r) (Container.containerId r) (Container.name r)
    (Container.image r) (Container.status r) (Container.ports r)
    (Container.createdAt r) now.

(** What a created row looks like once the fold is over. *)
Definition settledNew (now : time) (obs : list Docker.container) (st : store)
    (r : Container.t) : Prop :=
  resolveRow now obs r = r /\
  In (Container.containerId r) (observedIds obs) /\
  ~ In (Container.containerId r) (runtimeIds st).

(** The row the [create] branch of the upsert inserts. *)
Definition createdRow (now : time) (c : Docker.container) (st : store) : Container.t :=
  Container.mk (nextId st) (Docker.id c) (Docker.name c) (Docker.image c)
    (Docker.status c) (portsOrNull (Docker.ports c)) now now.

(** ** The collection cycle *)




(** ** The weekly trigger of the cleanup *)

(** The number of collection intervals in a week. *)
Definition ticksPerWeek : Z := 20160.

(** ** Texts built from tokens *)

(** A token: not empty and without white space. *)
Definition isToken (s : string) : Prop :=
  Js.isEmpty s = false /\ allChars (fun c => negb (Js.isWhiteSpace c)) s = true.

(** A run of space characters that is not empty. *)
Definition isSpaces (s : string) : Prop :=
  Js.isEmpty s = false /\ allChars (fun c => Ascii.eqb c " ") s = true.

(** The token [t0] followed by separators and tokens. *)
Fixpoint interleave (t0 : string) (rest : list (string * string)) : string :=
  match rest with
  | [] => t0
  | (sep, tok) :: rest' => t0 ++ sep ++ interleave tok rest'
  end.

(** The fields joined by the separator [sep]. *)
Fixpoint joinWith (sep : ascii) (fields : list string) : string :=
  match fields with
  | [] => ""
  | [f] => f
  | f :: fields' => f ++ String sep (joinWith sep fields')
  end.

(** ** Memory limits *)

(** The unit letters and the factor that takes a value with that unit to
    megabytes in the conversion of the memory limit. *)
Definition limitFactors : list (string * Q) :=
  [("", 1); ("K", 1 / 1024); ("k", 1 / 1024); ("M", 1); ("m", 1);
   ("G", 1024); ("g", 1024); ("T", 1024 * 1024); ("t", 1024 * 1024)]%Q.

(** ** The [cpu] line of [/proc/stat] *)

(** Counters with the blanks in front of each. *)
Definition counters (fields : list (string * string)) : Prop :=
  Forall (fun p => isSpaces p.1 /\ digitRun p.2) fields.

(** The value of counter [i], 0 when the line has no such counter. *)
Definition counterAt (fields : list (string * string)) (i : nat) : Q :=
  match fields !! i with
  | Some p => inject_Z (Parse.digitsVal p.2)
  | None => 0
  end.

Definition ticksOf (fields : list (string * string)) : ticks :=
  mkTicks (counterAt fields 0) (counterAt fields 1) (counterAt fields 2)
    (counterAt fields 3) (counterAt fields 4) (counterAt fields 5)
    (counterAt fields 6).

(** A text whose first line is the [cpu] line with the given counters. *)
Definition procStatText (fields : list (string * string)) (more : string) : string :=
  interleave "cpu" fields ++ String "010" more.

Definition statLine1 : list (string * string) :=
  [("  ", "100"); (" ", "0"); (" ", "50"); (" ", "800"); (" ", "50");
   (" ", "0"); (" ", "0"); (" ", "0"); (" ", "0"); (" ", "0")].

Definition statLine2 : list (string * string) :=
  [("  ", "160"); (" ", "0"); (" ", "70"); (" ", "900"); (" ", "70");
   (" ", "0"); (" ", "0"); (" ", "0"); (" ", "0"); (" ", "0")].

(** ** Lines of [docker ps] *)

(** The five texts the format of the [docker ps] commands prints for one
    container. *)
Record psRow : Type := mkPsRow {
  ps_id : string;
  ps_name : string;
  ps_image : string;
  ps_status : string;
  ps_ports : string
}.

(** The line printed for a row: the fields with tabs between them. *)
Definition psLine (r : psRow) : string :=
  joinWith "009" [ps_id r; ps_name r; ps_image r; ps_status r; ps_ports r].

(** A text without tab and without line feed. *)
Definition plainField (s : string) : Prop :=
  allChars (fun c => negb (Ascii.eqb c "009") && negb (Ascii.eqb c "010")) s = true.

Definition plainRow (r : psRow) : Prop :=
  plainField (ps_id r) /\ plainField (ps_name r) /\ plainField (ps_image r) /\
  plainField (ps_status r) /\ plainField (ps_ports r).

(** The container a row stands for. *)
Definition listed (r : psRow) : Docker.container :=
  Docker.mk (ps_id r) (ps_name r) (ps_image r)
    (if Js.includes "up" (Js.toLowerCase (ps_status r)) then "running" else "stopped")
    (Some (ps_ports r)).

Definition webRow : psRow :=
  mkPsRow "abc123" "web" "nginx:latest" "Up 2 hours" "0.0.0.0:80->80/tcp".

Definition jobRow : psRow :=
  mkPsRow "def456" "job" "alpine" "Exited (0) 3 days ago" "".

(** ** The line of [df] *)

(** A text made of white space only. *)
Definition blank (w : string) : Prop := allChars Js.isWhiteSpace w = true.

(** The output of [df -BM / | tail -1]: a line of tokens with blanks
    around it. *)
Definition dfText (w1 fs : string) (rest : list (string * string)) (w2 : string) : string :=
  w1 ++ interleave fs rest ++ w2.

(** A percentage of the store: a number between 0 and 100. *)
Definition percentage (x : number) : Prop :=
  exists q, x ≡ Fin q /\ (0 <= q <= 100)%Q.

(** A host with 8 GiB of memory, 6 GiB of it free. *)
Definition sampleHost : hostReading :=
  mkHostReading None "" (Fin 1, Fin 1, Fin 1) 4
    (Num.ofZ 8589934592) (Num.ofZ 6442450944)
    (Some "/dev/sda1        50000M 20000M  30000M  40% /
")
    (Fin 0) (Fin 0).

(** ** Network totals *)

(** No token of the lines the loop reads has more than 15 characters:
    every number read from the text is then below 2^53, which a double
    holds exactly. *)
Definition shortTokens (netDev : string) : Prop :=
  Forall (fun raw =>
            Forall (fun tok => (String.length tok <= 15)%nat)
                   (Js.splitWs (Js.trim raw)))
         (drop 2 (Js.split "010" netDev)).

(** The integers of absolute value at most [n] times 2^53. *)
Definition within (n : nat) (z : Z) : Prop :=
  (Z.abs z <= Z.of_nat n * 2 ^ 53)%Z.

(** A line of the interface table: the padding, the interface name with
    its colon, and the sixteen counters with the blanks in front of
    each. *)
Record netRow : Type := mkNetRow {
  nr_pad : string;
  nr_name : string;
  nr_fields : list (string * string)
}.

Definition netRowLine (r : netRow) : string :=
  nr_pad r ++ interleave (nr_name r) (nr_fields r).

Definition tableRow (r : netRow) : Prop :=
  allChars (fun c => Ascii.eqb c " ") (nr_pad r) = true /\
  isToken (nr_name r) /\ counters (nr_fields r) /\
  (16 <= length (nr_fields r))%nat.

(** The text of the file: two header lines, the interface lines, and the
    line feed that ends the last of them. *)
Definition netDevText (h1 h2 : string) (rows : list netRow) : string :=
  joinWith "010" (h1 :: h2 :: map netRowLine rows ++ [""])%list.

Definition counterZ (fields : list (string * string)) (i : nat) : Z :=
  match fields !! i with
  | Some p => Parse.digitsVal p.2
  | None => 0
  end.

(** The sum of counter [i] over the interfaces the loop counts. *)
Fixpoint counted (i : nat) (rows : list netRow) : Z :=
  match rows with
  | [] => 0
  | r :: rows' =>
      (if Js.includes "lo:" (nr_name r) then 0 else counterZ (nr_fields r) i)
      + counted i rows'
  end.

Definition oneLine (s : string) : Prop :=
  allChars (fun c => negb (Ascii.eqb c "010")) s = true.

Definition sixteen (rx tx : string) : list (string * string) :=
  [(" ", rx); (" ", "10"); (" ", "0"); (" ", "0"); (" ", "0"); (" ", "0");
   (" ", "0"); (" ", "0"); (" ", tx); (" ", "10"); (" ", "0"); (" ", "0");
   (" ", "0"); (" ", "0"); (" ", "0"); (" ", "0")].

Definition sampleTable : list netRow :=
  [mkNetRow "    " "lo:" (sixteen "5000" "5000");
   mkNetRow "  " "eth0:" (sixteen "1200" "340");
   mkNetRow "" "docker0:" (sixteen "800" "60")].

(** ** Compliance *)

(** A container passes when it has no unresolved critical alert and a
    completed scan in the period. *)
Definition compliant (from to : time) (st : store) (c : Container.t) : bool :=
  negb (Compliance.hasCriticalAlerts (Compliance.alertsOf from to st c))
  && Compliance.scanPassed (Compliance.scansOf from to st c).

Definition issueOk (i : Compliance.issue) : Prop :=
  Compliance.issues i <> [] /\
  (In "No recent security scans" (Compliance.issues i) ->
   In "Recent scans failed" (Compliance.issues i)).

(** ** Performance *)

(** The metrics of the container called [n], in the order of the
    query. *)
Definition metricsNamed (st : store) (n : string) (metrics : list ContainerMetric.t)
    : list ContainerMetric.t :=
  List.filter (fun m => String.eqb (Performance.containerName st m) n) metrics.

(** The entry holds the values of the metrics of its container. *)
Definition holds (st : store) (metrics : list ContainerMetric.t) (p : Performance.perf) : Prop :=
  let own := metricsNamed st (Performance.name p) metrics in
  own <> [] /\
  Performance.cpuMetrics p = map ContainerMetric.cpuUsage own /\
  Performance.memoryMetrics p = map ContainerMetric.memUsage own /\
  Performance.networkInMetrics p = map ContainerMetric.netIn own /\
  Performance.networkOutMetrics p = map ContainerMetric.netOut own.

Definition totalPoints (groups : list Performance.perf) : nat :=
  fold_right Nat.add 0%nat (map Performance.dataPoints groups).

(** What the loop keeps true, on the metrics it has read. *)
Definition grouped (st : store) (metrics : list ContainerMetric.t)
    (groups : list Performance.perf) : Prop :=
  List.NoDup (map Performance.name groups) /\
  Forall (holds st metrics) groups /\
  (forall x, In x metrics ->
     In (Performance.containerName st x) (map Performance.name groups)) /\
  totalPoints groups = length metrics.

(** ** Container logs *)

(** A clock that reads one time stamp only. *)
Definition stampOf (s : string) : option time :=
  if String.eqb s "2024-01-01T00:00:00Z" then Some 1704067200000%Z else None.

Definition sampleLogLine : string := "2024-01-01T00:00:00Z Connection Error: timeout".

Definition sampleEntry : Logs.entry :=
  Logs.mkEntry 1704067200000 "Connection Error: timeout" "ERROR" "stdout".

(** ** Proof steps *)

(** Evaluates the integer constants of a goal over the rationals. *)
Ltac constants :=
  repeat match goal with
         | |- context [inject_Z ?z] =>
             let e := eval vm_compute in (inject_Z z) in
             progress change (inject_Z z) with e
         end.

(** * Properties *)

(** ** Strings *)

Lemma trimStart_head s c r :
  Js.trimStart s = String c r -> Js.isWhiteSpace c = false.
Proof.
  induction s as [|d s IH]; simpl; [discriminate|].
  destruct (Js.isWhiteSpace d) eqn:Ed; [exact IH|].
  intros H. injection H as <- _. exact Ed.
Qed.

Lemma trim_head s c r :
  Js.trim s = String c r -> Js.isWhiteSpace c = false.
Proof.
  unfold Js.trim. destruct (Js.trimStart s) as [|d t] eqn:Et; simpl; [discriminate|].
  apply trimStart_head in Et.
  rewrite Et. simpl. intros H. injection H as <- _. exact Et.
Qed.

Lemma split_head_cons sep c r :
  Ascii.eqb c sep = false ->
  head (Js.split sep (String c r))
  = Some (String c (default "" (head (Js.split sep r)))).
Proof.
  intros Hc. simpl. rewrite Hc.
  destruct (Js.split sep r); reflexivity.
Qed.

Lemma whitespace_newline c : Js.isWhiteSpace c = false -> Ascii.eqb c "010" = false.
Proof.
  intros H. destruct (Ascii.eqb_spec c "010") as [->|]; [discriminate | reflexivity].
Qed.

(** ** Security scores *)

Lemma filter_unresolved_length sev l :
  length (List.filter (unresolvedOf sev) l) = unresolvedCount sev l.
Proof.
  induction l as [|a l IH]; simpl; [reflexivity|].
  unfold unresolvedOf at 1.
  destruct (String.eqb (Alert.severity a) sev), (Alert.resolved a); simpl; lia.
Qed.

Lemma filter_failed_length since l :
  count (fun s => String.eqb (Scan.status s) "failed" && (since <=? Scan.timestamp s)%Z) l
  = failedSince since l.
Proof.
  unfold count.
  induction l as [|s l IH]; simpl; [reflexivity|].
  destruct (String.eqb (Scan.status s) "failed"); simpl; [|exact IH].
  destruct (Z.ltb_spec (Scan.timestamp s) since), (Z.leb_spec since (Scan.timestamp s));
    simpl; lia.
Qed.

Lemma clamp100_stated (c h : nat) :
  clamp100 (100 - Z.of_nat c * 10 - Z.of_nat h * 5) = statedScore c h.
Proof.
  unfold clamp100, statedScore, clamp.
  destruct (Z.ltb_spec (100 - 10 * Z.of_nat c - 5 * Z.of_nat h) 0),
           (Z.ltb_spec 100 (100 - 10 * Z.of_nat c - 5 * Z.of_nat h)); lia.
Qed.

Lemma statedScore_range (c h : nat) : (0 <= statedScore c h <= 100)%Z.
Proof.
  unfold statedScore, clamp.
  destruct (Z.ltb_spec (100 - 10 * Z.of_nat c - 5 * Z.of_nat h) 0),
           (Z.ltb_spec 100 (100 - 10 * Z.of_nat c - 5 * Z.of_nat h)); lia.
Qed.

(** C2, as stated, fails on the dashboard: one unresolved HIGH alert and
    no failed scan leave the dashboard score at 100, where the stated
    formula gives 95. *)
Lemma dashboard_score_ignores_high_alerts :
  let st := mkStore [] [] [Alert.mk 1 "HIGH" "CVE" "trivy" None 0 false] [] [] [] 2 in
  Dashboard.securityScore 0 24 st = 100%Z /\
  statedScore (unresolvedCount "CRITICAL" (alerts st))
              (unresolvedCount "HIGH" (alerts st)) = 95%Z /\
  Dashboard.securityScore 0 24 st
    <> statedScore (unresolvedCount "CRITICAL" (alerts st))
                   (unresolvedCount "HIGH" (alerts st)).
Proof. split; [reflexivity|]. split; [reflexivity|]. discriminate. Qed.

(** C2, amended: the score of the security report is the stated one on
    the alerts of the report, clamp(100 - 10 x unresolved CRITICAL - 5 x
    unresolved HIGH, 0, 100); the score of the dashboard is the same
    clamp with 10 per unresolved CRITICAL alert and 5 per scan that failed
    within the window; both lie between 0 and 100. *)
Theorem security_scores (now : time) (hours : Z) (st : store) (reported : list Alert.t) :
  Report.securityScore reported
    = statedScore (unresolvedCount "CRITICAL" reported)
                  (unresolvedCount "HIGH" reported) /\
  Dashboard.securityScore now hours st
    = statedScore (unresolvedCount "CRITICAL" (alerts st))
                  (failedSince (now - hours * 60 * 60 * 1000) (scans st)) /\
  (0 <= Report.securityScore reported <= 100)%Z /\
  (0 <= Dashboard.securityScore now hours st <= 100)%Z.
Proof.
  assert (Hr : Report.securityScore reported
               = statedScore (unresolvedCount "CRITICAL" reported)
                             (unresolvedCount "HIGH" reported)).
  { unfold Report.securityScore.
    rewrite !filter_unresolved_length. apply clamp100_stated. }
  assert (Hd : Dashboard.securityScore now hours st
               = statedScore (unresolvedCount "CRITICAL" (alerts st))
                   (failedSince (now - hours * 60 * 60 * 1000) (scans st))).
  { unfold Dashboard.securityScore.
    rewrite filter_failed_length. unfold count.
    rewrite filter_unresolved_length. apply clamp100_stated. }
  split; [exact Hr|]. split; [exact Hd|].
  rewrite Hr, Hd. split; apply statedScore_range.
Qed.

(** ** Retention *)

Lemma count_filter_negb {A} (p : A -> bool) (l : list A) :
  (count p l + length (List.filter (fun x => negb (p x)) l) = length l)%nat.
Proof.
  unfold count. induction l as [|x l IH]; simpl; [reflexivity|].
  destruct (p x); simpl; lia.
Qed.

Lemma cutoffDate_steady z now days :
  steadyOffset z now days -> cutoffDate z now days = (now - days * msPerDay)%Z.
Proof.
  unfold steadyOffset, cutoffDate, UTC, LocalTime. intros ->. lia.
Qed.




(** ** Reconciliation on an empty observation *)

Lemma parseAll_blank out : Js.trim out = "" -> Collector.parseAll out = Some [].
Proof. intros H. unfold Collector.parseAll. rewrite H. reflexivity. Qed.

(** The runtime names no container exactly when its answer is blank. *)
Lemma parseAll_empty_iff out :
  Collector.parseAll out = Some [] <-> Js.trim out = "".
Proof.
  split; [|apply parseAll_blank].
  unfold Collector.parseAll.
  destruct (Js.trim out) as [|c r] eqn:Et; [reflexivity|].
  pose proof (trim_head out c r Et) as Hc.
  pose proof (split_head_cons "010" c r (whitespace_newline c Hc)) as Hh.
  destruct (Js.split "010" (String c r)) as [|l ls]; [discriminate|].
  simpl in Hh. injection Hh as ->. simpl.
  destruct (Collector.parsePsLine _); simpl; [|discriminate].
  destruct (mapM Collector.parsePsLine _); simpl; discriminate.
Qed.

(** C5: given an empty observed set the reconciler deletes nothing; it
    leaves the whole store as it was.  This holds for the reconciler
    called on an empty list and for the collector's reconciler when the
    runtime answers with a blank list or does not answer. *)
Theorem sync_empty_is_identity (now : time) (st : store)
    (runningContainers : option string) (out : string)
    (Hblank : Js.trim out = "") :
  syncContainersToDatabase now [] st = st /\
  Collector.parseAll out = Some [] /\
  Collector.syncContainersToDatabase now runningContainers (Some out) st = st /\
  Collector.syncContainersToDatabase now runningContainers None st = st.
Proof.
  split; [reflexivity|]. split; [apply parseAll_blank, Hblank|].
  unfold Collector.syncContainersToDatabase.
  rewrite (parseAll_blank out Hblank).
  destruct runningContainers; split; reflexivity.
Qed.

Lemma sync_empty_is_identity_witness :
  Collector.syncContainersToDatabase 9 (Some "") (Some "
") staleStore = staleStore.
Proof.
  refine (proj1 (proj2 (proj2
            (sync_empty_is_identity 9 staleStore (Some "") "
" _)))).
  reflexivity.
Defined.

(** ** Reconciliation: convergence *)

Lemma inb_In x l : inb x l = true <-> In x l.
Proof.
  unfold inb. rewrite existsb_exists. split.
  - intros (y & Hy & He). apply String.eqb_eq in He. subst. exact Hy.
  - intros H. exists x. split; [exact H | apply String.eqb_refl].
Qed.

Lemma memb_In x l : memb x l = true <-> In x l.
Proof.
  unfold memb. rewrite existsb_exists. split.
  - intros (y & Hy & He). apply Nat.eqb_eq in He. subst. exact Hy.
  - intros H. exists x. split; [exact H | apply Nat.eqb_refl].
Qed.

Lemma upsert_runtimeIds now c st x :
  In x (runtimeIds (upsertContainer now c st)) <->
  In x (runtimeIds st) \/ x = Docker.id c.
Proof.
  unfold upsertContainer, runtimeIds.
  destruct (existsb _ (containers st)) eqn:Hex; simpl.
  - rewrite map_map.
    assert (Hsame : map (fun r : Container.t =>
                Container.containerId
                  (if String.eqb (Container.containerId r) (Docker.id c)
                   then Container.mk (Container.id r) (Container.containerId r)
                          (Docker.name c) (Docker.image c) (Docker.status c)
                          (portsOrNull (Docker.ports c)) (Container.createdAt r) now
                   else r)) (containers st)
              = map Container.containerId (containers st)).
    { apply map_ext. intros r.
      destruct (String.eqb (Container.containerId r) (Docker.id c)); reflexivity. }
    rewrite Hsame. split; [tauto|].
    intros [H | ->]; [exact H|].
    apply existsb_exists in Hex as (r & Hr & He).
    apply String.eqb_eq in He. rewrite <- He. apply in_map. exact Hr.
  - rewrite map_app, in_app_iff. simpl. split.
    + intros [H | [H | []]]; [left; exact H | right; symmetry; exact H].
    + intros [H | ->]; [left; exact H | right; left; reflexivity].
Qed.

Lemma fold_upsert_runtimeIds now obs st x :
  In x (runtimeIds (fold_left (fun acc c => upsertContainer now c acc) obs st)) <->
  In x (runtimeIds st) \/ In x (observedIds obs).
Proof.
  revert st. induction obs as [|c obs IH]; intros st; simpl.
  - tauto.
  - rewrite IH, upsert_runtimeIds. intuition auto.
Qed.

Lemma delete_runtimeIds ids st x :
  In x (runtimeIds (deleteContainersNotIn ids st)) <->
  In x (runtimeIds st) /\ In x ids.
Proof.
  unfold deleteContainersNotIn, runtimeIds. simpl.
  rewrite !in_map_iff. split.
  - intros (r & <- & Hr). apply filter_In in Hr as [Hr Hk].
    split; [exists r; auto | apply inb_In; exact Hk].
  - intros [(r & <- & Hr) Hx]. exists r. split; [reflexivity|].
    apply filter_In. split; [exact Hr | apply inb_In; exact Hx].
Qed.

Lemma sync_runtimeIds now obs st x :
  obs <> [] ->
  In x (runtimeIds (syncContainersToDatabase now obs st)) <-> In x (observedIds obs).
Proof.
  intros Hne. unfold syncContainersToDatabase.
  destruct obs as [|c obs]; [congruence|].
  change (0 <? length (map Docker.id (c :: obs)))%nat with true. cbv iota.
  rewrite delete_runtimeIds, fold_upsert_runtimeIds.
  unfold observedIds. tauto.
Qed.

(** C3, as stated, fails on an empty snapshot: the inventory keeps the
    container it had although the snapshot names none. *)
Lemma empty_snapshot_keeps_inventory :
  let st := mkStore [Container.mk 0 "abc123" "web" "nginx" "running" None 0 0]
                    [] [] [] [] [] 1 in
  let st' := reconcileAll [(1%Z, [])] st in
  (list_to_set (runtimeIds st') : gset string) = {["abc123"]} /\
  (list_to_set (observedIds []) : gset string) = ∅ /\
  (list_to_set (runtimeIds st') : gset string)
    <> list_to_set (observedIds []).
Proof.
  simpl. split; [set_solver|]. split; [reflexivity|].
  intros H. assert (Hin : "abc123" ∈ (∅ : gset string)).
  { rewrite <- H. set_solver. }
  set_solver.
Qed.

(** C3, amended: for every sequence of snapshots, after reconciling
    against the last one the set of runtime identifiers of the inventory
    is exactly the set of identifiers of that snapshot when the snapshot
    is not empty; when it is empty the store is the one the earlier
    snapshots left.  The same holds for the collector's reconciler on the
    containers it parses from the answer of the runtime. *)
Theorem reconcile_converges (runs : list (time * list Docker.container))
    (now : time) (last : list Docker.container) (st : store) :
  (last <> [] ->
   (list_to_set (runtimeIds (reconcileAll (runs ++ [(now, last)]) st)) : gset string)
     = list_to_set (observedIds last)) /\
  (last = [] ->
   reconcileAll (runs ++ [(now, last)]) st = reconcileAll runs st) /\
  (forall running out,
     Collector.parseAll out = Some last -> last <> [] ->
     (list_to_set (runtimeIds
        (Collector.syncContainersToDatabase now (Some running) (Some out) st))
        : gset string)
     = list_to_set (observedIds last)).
Proof.
  unfold reconcileAll. rewrite fold_left_app. simpl. split_and!.
  - intros Hne. apply set_eq. intros x.
    rewrite !elem_of_list_to_set, !list_elem_of_In.
    apply sync_runtimeIds. exact Hne.
  - intros ->. reflexivity.
  - intros running out Hparse Hne. unfold Collector.syncContainersToDatabase.
    rewrite Hparse. apply set_eq. intros x.
    rewrite !elem_of_list_to_set, !list_elem_of_In.
    apply sync_runtimeIds. exact Hne.
Qed.

Lemma reconcile_converges_witness :
  (list_to_set (runtimeIds
     (reconcileAll ([(1%Z, [web; cache]); (2%Z, [])] ++ [(3%Z, [cache])])
        (mkStore [] [] [] [] [] [] 0))) : gset string)
  = list_to_set (observedIds [cache]).
Proof.
  refine (proj1 (reconcile_converges [(1%Z, [web; cache]); (2%Z, [])] 3 [cache]
                   (mkStore [] [] [] [] [] [] 0)) _).
  discriminate.
Defined.

(** ** Deletion of containers and their dependent rows *)

Lemma removed_id_deleted ids st r :
  removedBy ids st r ->
  memb (Container.id r)
    (map Container.id
       (List.filter (fun r => negb (inb (Container.containerId r) ids))
          (containers st))) = true.
Proof.
  intros [Hin Hout]. apply memb_In, in_map, filter_In.
  split; [exact Hin|].
  destruct (inb (Container.containerId r) ids) eqn:E; [|reflexivity].
  apply inb_In in E. contradiction.
Qed.

Lemma kept_or_deleted ids st i :
  hasContainer st i ->
  memb i (map Container.id
            (List.filter (fun r => negb (inb (Container.containerId r) ids))
               (containers st))) = false ->
  hasContainer (deleteContainersNotIn ids st) i.
Proof.
  unfold hasContainer. simpl. rewrite !in_map_iff.
  intros (r & <- & Hr) Hm. exists r. split; [reflexivity|].
  apply filter_In. split; [exact Hr|].
  destruct (inb (Container.containerId r) ids) eqn:E; [reflexivity|].
  exfalso. apply not_true_iff_false in Hm. apply Hm.
  apply memb_In, in_map, filter_In. rewrite E. auto.
Qed.

Lemma delete_preserves_references ids st :
  referencesExist st -> referencesExist (deleteContainersNotIn ids st).
Proof.
  intros (Hm & Ha & Hs & Hl). repeat split.
  - intros m Hin. simpl in Hin. apply filter_In in Hin as [Hin Hk].
    apply kept_or_deleted; [auto|]. apply negb_true_iff. exact Hk.
  - intros a c Hin Hc. simpl in Hin. apply in_map_iff in Hin as (a0 & Heq & Hin).
    destruct (Alert.containerId a0) as [c0|] eqn:E0.
    + destruct (memb c0 _) eqn:Em.
      * subst a. simpl in Hc. discriminate.
      * subst a. rewrite E0 in Hc. injection Hc as <-.
        apply kept_or_deleted; [eauto | exact Em].
    + subst a. congruence.
  - intros s Hin. simpl in Hin. apply filter_In in Hin as [Hin Hk].
    apply kept_or_deleted; [auto|]. apply negb_true_iff. exact Hk.
  - intros l Hin. simpl in Hin. apply filter_In in Hin as [Hin Hk].
    apply kept_or_deleted; [auto|]. apply negb_true_iff. exact Hk.
Qed.

Lemma upsert_keeps_container_ids now c st i :
  hasContainer st i -> hasContainer (upsertContainer now c st) i.
Proof.
  unfold hasContainer, upsertContainer.
  destruct (existsb _ (containers st)); simpl.
  - rewrite map_map. rewrite !in_map_iff. intros (r & <- & Hr).
    exists r. split; [|exact Hr].
    destruct (String.eqb (Container.containerId r) (Docker.id c)); reflexivity.
  - rewrite map_app, in_app_iff. auto.
Qed.

Lemma upsert_preserves_references now c st :
  referencesExist st -> referencesExist (upsertContainer now c st).
Proof.
  intros (Hm & Ha & Hs & Hl).
  assert (Hsame : containerMetrics (upsertContainer now c st) = containerMetrics st
                  /\ alerts (upsertContainer now c st) = alerts st
                  /\ scans (upsertContainer now c st) = scans st
                  /\ containerLogs (upsertContainer now c st) = containerLogs st).
  { unfold upsertContainer. destruct (existsb _ (containers st)); simpl; auto. }
  destruct Hsame as (E1 & E2 & E3 & E4).
  unfold referencesExist. rewrite E1, E2, E3, E4.
  repeat split; intros; apply upsert_keeps_container_ids; eauto.
Qed.

Lemma sync_preserves_references now obs st :
  referencesExist st -> referencesExist (syncContainersToDatabase now obs st).
Proof.
  intros H. unfold syncContainersToDatabase.
  assert (Hfold : referencesExist
                    (fold_left (fun acc c => upsertContainer now c acc) obs st)).
  { revert st H. induction obs as [|c obs IH]; intros st H; simpl; [exact H|].
    apply IH, upsert_preserves_references, H. }
  destruct (0 <? length (map Docker.id obs))%nat;
    [apply delete_preserves_references|]; exact Hfold.
Qed.

(** C1, as stated, fails for alerts: deleting the container a HIGH alert
    refers to leaves the alert in its table, with a null reference, while
    the sample that refers to the same container goes. *)
Lemma alert_outlives_its_container :
  let st' := syncContainersToDatabase 9 [cache] staleStore in
  runtimeIds staleStore = ["abc123"] /\
  runtimeIds st' = ["def456"] /\
  containerMetrics st' = [] /\
  alerts staleStore = [Alert.mk 2 "HIGH" "CVE" "trivy" (Some 0%nat) 5 false] /\
  alerts st' = [Alert.mk 2 "HIGH" "CVE" "trivy" None 5 false] /\
  ~ (forall a, In a (alerts staleStore) -> Alert.containerId a = Some 0%nat ->
       ~ In (Alert.id a) (map Alert.id (alerts st'))).
Proof.
  split_and!; try reflexivity.
  intros H. apply (H (Alert.mk 2 "HIGH" "CVE" "trivy" (Some 0%nat) 5 false)).
  - left. reflexivity.
  - reflexivity.
  - left. reflexivity.
Qed.

(** C1, amended: a deletion of container rows removes, in the same
    operation, every sample, scan and log row that refers to a removed
    container; an alert that refers to one is kept with its reference set
    to null, and no alert row is removed; after the deletion, and after a
    whole reconciliation, every reference that is not null names an
    existing container, provided that held before. *)
Theorem container_deletion_cascades (now : time) (obs : list Docker.container)
    (ids : list string) (st : store) (r : Container.t)
    (Hr : removedBy ids st r) :
  let st' := deleteContainersNotIn ids st in
  (forall m, ContainerMetric.containerId m = Container.id r ->
     ~ In m (containerMetrics st')) /\
  (forall s, Scan.containerId s = Container.id r -> ~ In s (scans st')) /\
  (forall l, ContainerLog.containerId l = Container.id r ->
     ~ In l (containerLogs st')) /\
  (forall a, In a (alerts st) -> Alert.containerId a = Some (Container.id r) ->
     In (detached a) (alerts st')) /\
  map Alert.id (alerts st') = map Alert.id (alerts st) /\
  (referencesExist st -> referencesExist st') /\
  (referencesExist st -> referencesExist (syncContainersToDatabase now obs st)).
Proof.
  pose proof (removed_id_deleted ids st r Hr) as Hdel.
  simpl. split_and!.
  - intros m Hm Hin. apply filter_In in Hin as [_ Hk].
    rewrite Hm, Hdel in Hk. discriminate.
  - intros s Hs Hin. apply filter_In in Hin as [_ Hk].
    rewrite Hs, Hdel in Hk. discriminate.
  - intros l Hl Hin. apply filter_In in Hin as [_ Hk].
    rewrite Hl, Hdel in Hk. discriminate.
  - intros a Hin Ha. apply in_map_iff. exists a. split; [|exact Hin].
    rewrite Ha, Hdel. reflexivity.
  - rewrite map_map. apply map_ext. intros a.
    destruct (Alert.containerId a) as [c|]; [|reflexivity].
    match goal with |- context [if ?b then _ else _] => destruct b end;
      reflexivity.
  - apply delete_preserves_references.
  - apply sync_preserves_references.
Qed.

Lemma container_deletion_cascades_witness :
  In (detached (Alert.mk 2 "HIGH" "CVE" "trivy" (Some 0%nat) 5 false))
     (alerts (deleteContainersNotIn ["def456"] staleStore)).
Proof.
  refine (proj1 (proj2 (proj2 (proj2
    (container_deletion_cascades 0 [] ["def456"] staleStore
       (Container.mk 0 "abc123" "web" "nginx" "running" None 0 0) _))))
    (Alert.mk 2 "HIGH" "CVE" "trivy" (Some 0%nat) 5 false) _ _).
  - split; [left; reflexivity|].
    simpl. intros [H | []]. discriminate.
  - left. reflexivity.
  - reflexivity.
Defined.

(** ** The statistics line of the specification *)

(** C4, as stated, fails: the sample built from the line carries the
    memory limit in megabytes, 512, and the received bytes as
    1.2 x 1024 = 1228.8. *)
Lemma example_line_limit_is_megabytes :
  exists d, statsSample 7 exampleLine = Some d /\
            md_memLimit d = Some (Fin 512) /\
            md_netIn d ≡ Fin 1228.8 /\
            ~ expectedSample d.
Proof.
  eexists. split; [vm_compute; reflexivity|].
  split; [reflexivity|]. split; [vm_compute; reflexivity|].
  intros (_ & _ & (l & Hl & Hnear) & _).
  injection Hl as <-. vm_compute in Hnear. apply Hnear. reflexivity.
Qed.

(** C4, amended: the line yields a sample with cpuUsage 0.50, memUsage
    0.41, the memory limit 512 (a count of megabytes), netIn
    1.2 x 1024 = 1228.8, netOut 800, diskRead 3 x 1024 x 1024 and
    diskWrite 1024 x 1024. *)
Theorem example_line_sample (dbId : rowid) :
  exists d, statsSample dbId exampleLine = Some d /\
    md_containerId d = dbId /\
    md_cpuUsage d ≡ Fin 0.50 /\
    md_memUsage d ≡ Fin 0.41 /\
    md_memLimit d = Some (Fin 512) /\
    md_netIn d ≡ Fin (1.2 * 1024) /\
    md_netOut d ≡ Fin 800 /\
    (exists r, md_diskRead d = Some r /\ r ≡ Fin (3 * 1024 * 1024)) /\
    (exists w, md_diskWrite d = Some w /\ w ≡ Fin (1024 * 1024)).
Proof.
  eexists. split; [vm_compute; reflexivity|].
  split_and!; try (vm_compute; reflexivity);
    eexists; (split; [reflexivity | vm_compute; reflexivity]).
Qed.

(** ** Host CPU usage from two snapshots *)

Lemma cpuUsageOfTimes_fin a b :
  cpuUsageOfTimes (timesOf a) (timesOf b) =
  if Num.gt (Fin (ticksTotal b + - ticksTotal a)) Num.zero then
    Num.mul (Num.div
      (Fin (ticksTotal b + - ticksTotal a
            + - (t_idle b + t_iowait b + - (t_idle a + t_iowait a))))
      (Fin (ticksTotal b + - ticksTotal a))) (Num.ofZ 100)
  else Num.zero.
Proof. reflexivity. Qed.

Lemma gt_zero_iff q : Num.gt (Fin q) Num.zero = true <-> (0 < q)%Q.
Proof.
  unfold Num.gt, Num.zero.
  destruct (Qcompare_spec q 0) as [E | E | E].
  - split; [discriminate | intros H; lra].
  - split; [discriminate | intros H; lra].
  - split; [intros _; exact E | reflexivity].
Qed.

(** The computation behind the await has no cut: when the iowait counter
    goes down between the snapshots it gives 200, beyond the stated 100. *)
Lemma cpu_usage_is_not_clamped :
  let a := mkTicks 100 0 0 100 50 0 0 in
  let b := mkTicks 120 0 0 100 40 0 0 in
  cpuUsageOfReads "cpu  100 0 0 100 50 0 0 0 0 0" "cpu  120 0 0 100 40 0 0 0 0 0"
    ≡ Fin 200 /\
  cpuUsageOfTimes (timesOf a) (timesOf b) ≡ Fin 200 /\
  (statedCpuUsage a b == 100)%Q /\
  ~ cpuUsageOfTimes (timesOf a) (timesOf b) ≡ Fin (statedCpuUsage a b).
Proof.
  split_and!; try (vm_compute; reflexivity).
  vm_compute. discriminate.
Qed.

Lemma cpuUsage_positive a b :
  (0 < deltaTotal a b)%Q ->
  cpuUsageOfTimes (timesOf a) (timesOf b)
    ≡ Fin ((1 - deltaIdle a b / deltaTotal a b) * 100).
Proof.
  intros Hpos. rewrite cpuUsageOfTimes_fin.
  assert (Hgt : Num.gt (Fin (ticksTotal b + - ticksTotal a)) Num.zero = true)
    by (apply gt_zero_iff; exact Hpos).
  rewrite Hgt. unfold Num.div, Num.isZero.
  destruct (Qeq_bool (ticksTotal b + - ticksTotal a) 0) eqn:Ez.
  - apply Qeq_bool_eq in Ez. unfold deltaTotal in Hpos. lra.
  - unfold Num.mul, equiv, number_equiv, Num.eq, deltaIdle, deltaTotal in *.
    change (Num.ofZ 100) with (Fin 100). cbv iota. field. lra.
Qed.

Lemma cpuUsage_nonpositive a b :
  (deltaTotal a b <= 0)%Q ->
  cpuUsageOfTimes (timesOf a) (timesOf b) = Num.zero.
Proof.
  intros Hle. rewrite cpuUsageOfTimes_fin.
  destruct (Num.gt (Fin (ticksTotal b + - ticksTotal a)) Num.zero) eqn:Hgt;
    [|reflexivity].
  apply gt_zero_iff in Hgt. unfold deltaTotal in Hle. lra.
Qed.

(** The computation inside [getCPUUsage]: on two snapshots of the seven
    buckets it gives ((1 - (Δidle + Δiowait) / Δtotal) x 100) when Δtotal
    is positive, without any cut, and 0 when Δtotal is zero or negative;
    it agrees with the stated, cut value whenever Δtotal is zero or
    0 <= Δidle + Δiowait <= Δtotal. *)
Theorem cpu_usage_of_snapshots (a b : ticks) :
  ((0 < deltaTotal a b)%Q ->
     cpuUsageOfTimes (timesOf a) (timesOf b)
       ≡ Fin ((1 - deltaIdle a b / deltaTotal a b) * 100)) /\
  ((deltaTotal a b <= 0)%Q ->
     cpuUsageOfTimes (timesOf a) (timesOf b) = Num.zero) /\
  ((deltaTotal a b == 0)%Q \/
   (0 < deltaTotal a b /\ 0 <= deltaIdle a b <= deltaTotal a b)%Q ->
     cpuUsageOfTimes (timesOf a) (timesOf b) ≡ Fin (statedCpuUsage a b)).
Proof.
  split; [apply cpuUsage_positive|]. split; [apply cpuUsage_nonpositive|].
  intros [Hz | (Hpos & Hlo & Hhi)].
  - rewrite cpuUsage_nonpositive by lra.
    unfold statedCpuUsage. rewrite (proj2 (Qeq_bool_iff _ _) Hz). reflexivity.
  - pose proof (cpuUsage_positive a b Hpos) as H.
    unfold statedCpuUsage.
    destruct (Qeq_bool (deltaTotal a b) 0) eqn:Ez;
      [apply Qeq_bool_eq in Ez; lra|].
    destruct (cpuUsageOfTimes (timesOf a) (timesOf b)) as [| |q];
      try contradiction.
    change (q == (1 - deltaIdle a b / deltaTotal a b) * 100)%Q in H.
    change (q == Qmax 0 (Qmin 100 ((1 - deltaIdle a b / deltaTotal a b) * 100)))%Q.
    rewrite H.
    assert (Hr : (0 <= deltaIdle a b / deltaTotal a b <= 1)%Q).
    { split.
      - apply Qle_shift_div_l; [exact Hpos | lra].
      - apply Qle_shift_div_r; [exact Hpos | lra]. }
    rewrite Q.min_r by lra. rewrite Q.max_r by lra. reflexivity.
Qed.

Lemma cpu_usage_of_snapshots_witness :
  cpuUsageOfTimes (timesOf (mkTicks 100 0 0 100 50 0 0))
                  (timesOf (mkTicks 150 0 0 150 50 0 0))
    ≡ Fin (statedCpuUsage (mkTicks 100 0 0 100 50 0 0) (mkTicks 150 0 0 150 50 0 0)).
Proof.
  refine (proj2 (proj2 (cpu_usage_of_snapshots
            (mkTicks 100 0 0 100 50 0 0) (mkTicks 150 0 0 150 50 0 0))) _).
  right. vm_compute. intuition discriminate.
Defined.

(** When [/proc/stat] can be read the promise [getCPUUsage] awaits is never
    settled, so the function delivers no usage; it delivers the load
    average estimate when the file cannot be read. *)
Lemma getCPUUsage_settles_only_on_fallback firstRead secondRead loadAvg1 cpuCount :
  getCPUUsage firstRead secondRead loadAvg1 cpuCount =
  match firstRead with
  | Some _ => Pending
  | None =>
      Fulfilled (Num.min (Num.mul (Num.div loadAvg1 (Num.ofZ (Z.of_nat cpuCount)))
                                  (Num.ofZ 100)) (Num.ofZ 100))
  end.
Proof. destruct firstRead; reflexivity. Qed.

(** C8: the Host Sampler does not deliver the stated usage.  Whenever
    [/proc/stat] can be read, [getCPUUsage] awaits a promise that is never
    resolved, so it returns nothing and [collectSystemMetrics] stores no
    host sample; when the file cannot be read it returns the estimate from
    the load average.  On the two reads [statRead1] and [statRead2] the
    stated usage is 40, which is also what the computation behind the
    await would give, and the function stays pending. *)
Theorem cpu_usage_is_never_delivered (first second : string) (loadAvg1 : number)
    (cpuCount : nat) (now : time) (st : store) :
  getCPUUsage (Some first) second loadAvg1 cpuCount = Pending /\
  getCPUUsage None second loadAvg1 cpuCount
  = Fulfilled (Num.min (Num.mul (Num.div loadAvg1 (Num.ofZ (Z.of_nat cpuCount)))
                                (Num.ofZ 100)) (Num.ofZ 100)) /\
  (statedCpuUsage statTicks1 statTicks2 == 40)%Q /\
  cpuUsageOfReads statRead1 statRead2 ≡ Fin 40 /\
  getCPUUsage (Some statRead1) statRead2 (Fin 1) 4 = Pending /\
  collectSystemMetrics now readableHost st = Pending.
Proof.
  split_and!; try reflexivity; vm_compute; reflexivity.
Qed.

(** ** Stored usage fields are numbers *)

Lemma orZero_numeric x : Num.isNaN (orZero x) = false.
Proof. destruct x; reflexivity. Qed.

Lemma statsSample_numeric dbId stdout d :
  statsSample dbId stdout = Some d ->
  Num.isNaN (md_cpuUsage d) = false /\ Num.isNaN (md_memUsage d) = false.
Proof.
  unfold statsSample. intros H.
  destruct (Js.isEmpty (Js.trim stdout)); [discriminate|].
  destruct (head _) as [line|]; [|discriminate]. simpl in H.
  destruct (Js.isEmpty line); [discriminate|].
  destruct (length (Js.splitWs line) <? 9)%nat; [discriminate|].
  destruct (Js.splitWs line !! 1%nat) as [cpuPerc|]; [|discriminate]. simpl in H.
  destruct (Js.splitWs line !! 5%nat) as [memPerc|]; [|discriminate]. simpl in H.
  injection H as <-. simpl. split; apply orZero_numeric.
Qed.

Lemma systemMetricsOf_numeric cpuUsage h d :
  systemMetricsOf cpuUsage h = Some d ->
  Num.isNaN (sm_cpuUsage d) = false /\
  Num.isNaN (sm_ramUsagePercent d) = false /\
  Num.isNaN (sm_diskUsagePercent d) = false.
Proof.
  unfold systemMetricsOf. intros H.
  destruct (dfOutput h) as [out|]; [|discriminate]. simpl in H.
  destruct (Js.splitWs (Js.trim out) !! 2%nat) as [used|]; [|discriminate].
  simpl in H.
  destruct (Js.splitWs (Js.trim out) !! 3%nat) as [free|]; [|discriminate].
  simpl in H.
  injection H as <-. simpl. split_and!; apply orZero_numeric.
Qed.

Lemma collectSingle_numeric now execResult containerId st :
  numericUsage st ->
  numericUsage (collectSingleContainerMetrics now execResult containerId st).
Proof.
  intros [Hm Hs]. unfold collectSingleContainerMetrics.
  destruct (findUniqueContainer containerId st) as [c|]; [|split; assumption].
  destruct execResult as [stdout|]; [|split; assumption].
  destruct (statsSample (Container.id c) stdout) as [d|] eqn:Hd; [|split; assumption].
  apply statsSample_numeric in Hd.
  unfold createContainerMetric. destruct (storable d); [|split; assumption].
  split; simpl; [|exact Hs].
  apply Forall_app. split; [exact Hm|].
  constructor; [exact Hd | constructor].
Qed.

Lemma collectSystem_numeric now h st st' :
  numericUsage st ->
  collectSystemMetrics now h st = Fulfilled st' ->
  numericUsage st'.
Proof.
  intros [Hm Hs]. unfold collectSystemMetrics.
  destruct (getCPUUsage _ _ _ _) as [cpuUsage|]; [|discriminate]. simpl.
  intros H. injection H as <-.
  destruct (systemMetricsOf cpuUsage h) as [d|] eqn:Hd; [|split; assumption].
  apply systemMetricsOf_numeric in Hd.
  unfold createSystemMetric. destruct (storableHost d); [|split; assumption].
  split; simpl; [exact Hm|].
  apply Forall_app. split; [exact Hs|].
  constructor; [exact Hd | constructor].
Qed.

(** C10: the collector never stores [NaN] in a usage field.  The sample
    of a container has numeric cpuUsage and memUsage and the sample of the
    host numeric cpuUsage, ramUsagePercent and diskUsagePercent, whatever
    the texts the runtime and the operating system return, a [NaN] being
    replaced by 0; so a store without [NaN] in these fields stays so
    through both collections. *)
Theorem collector_stores_numeric_usage (now : time) (execResult : option string)
    (containerId : string) (h : hostReading) (st : store)
    (Hst : numericUsage st) :
  numericUsage (collectSingleContainerMetrics now execResult containerId st) /\
  (forall st', collectSystemMetrics now h st = Fulfilled st' -> numericUsage st') /\
  (forall dbId stdout d, statsSample dbId stdout = Some d ->
     Num.isNaN (md_cpuUsage d) = false /\ Num.isNaN (md_memUsage d) = false) /\
  (forall cpuUsage d, systemMetricsOf cpuUsage h = Some d ->
     Num.isNaN (sm_cpuUsage d) = false /\
     Num.isNaN (sm_ramUsagePercent d) = false /\
     Num.isNaN (sm_diskUsagePercent d) = false) /\
  (forall x, orZero x = if Num.isNaN x then Fin 0 else x).
Proof.
  split_and!.
  - apply collectSingle_numeric. exact Hst.
  - intros st'. apply collectSystem_numeric. exact Hst.
  - apply statsSample_numeric.
  - intros cpuUsage d. apply systemMetricsOf_numeric.
  - reflexivity.
Qed.

Lemma collector_stores_numeric_usage_witness :
  numericUsage
    (collectSingleContainerMetrics 5 (Some stoppedStats) "abc123" freshStore) /\
  map ContainerMetric.cpuUsage
    (containerMetrics
       (collectSingleContainerMetrics 5 (Some stoppedStats) "abc123" freshStore))
    = [Fin 0] /\
  (exists st', collectSystemMetrics 5 degradedHost freshStore = Fulfilled st' /\
     map SystemMetric.ramUsagePercent (systemMetrics st') = [Fin 0]).
Proof.
  split; [|split].
  - refine (proj1 (collector_stores_numeric_usage 5 (Some stoppedStats) "abc123"
                     degradedHost freshStore _)).
    split; constructor.
  - vm_compute. reflexivity.
  - eexists. split; vm_compute; reflexivity.
Defined.

(** ** Short and empty statistics output *)

Lemma split_without_separator sep s :
  (forall c, In c (list_ascii_of_string s) -> c <> sep) ->
  Js.split sep s = [s].
Proof.
  induction s as [|c r IH]; intros H; simpl; [reflexivity|].
  destruct (Ascii.eqb_spec c sep) as [->|Hne].
  - exfalso. apply (H sep); [left; reflexivity | reflexivity].
  - rewrite IH; [reflexivity|]. intros d Hd. apply H. right. exact Hd.
Qed.

Lemma splitWs_from_nonempty b s : Js.splitWs_from b s <> [].
Proof.
  revert b. induction s as [|c r IH]; intros b; simpl; [discriminate|].
  destruct (Js.isWhiteSpace c).
  - destruct b; [apply IH | discriminate].
  - destruct (Js.splitWs_from false r); discriminate.
Qed.

Lemma splitWs_from_length s :
  length (Js.splitWs_from false s)
    = (countTokens false s + 1 + (if lastIsWs s then 1 else 0))%nat /\
  length (Js.splitWs_from true s)
    = (countTokens true s + (if lastIsWs s || Js.isEmpty s then 1 else 0))%nat.
Proof.
  induction s as [|c r [IHf IHt]]; [split; reflexivity|].
  simpl. destruct (Js.isWhiteSpace c) eqn:Ec.
  - simpl. rewrite IHt.
    destruct r as [|d r']; [split; reflexivity|].
    simpl Js.isEmpty. rewrite ?orb_false_r.
    destruct (lastIsWs (String d r')); split; lia.
  - assert (Hl : length match Js.splitWs_from false r with
                        | [] => [String c ""]
                        | h :: t => String c h :: t
                        end = length (Js.splitWs_from false r)).
    { pose proof (splitWs_from_nonempty false r).
      destruct (Js.splitWs_from false r); [contradiction | reflexivity]. }
    rewrite Hl, IHf.
    destruct r as [|d r']; [split; reflexivity|].
    simpl Js.isEmpty. rewrite ?orb_false_r.
    destruct (lastIsWs (String d r')); split; lia.
Qed.

Lemma countTokens_trimStart s :
  countTokens true (Js.trimStart s) = countTokens true s.
Proof.
  induction s as [|c r IH]; simpl; [reflexivity|].
  destruct (Js.isWhiteSpace c) eqn:Ec; [exact IH|].
  simpl. rewrite Ec. reflexivity.
Qed.

Lemma countTokens_trimEnd b s :
  countTokens b (Js.trimEnd s) = countTokens b s.
Proof.
  revert b. induction s as [|c r IH]; intros b; simpl; [reflexivity|].
  destruct (Js.isWhiteSpace c) eqn:Ec; simpl.
  - destruct (Js.isEmpty (Js.trimEnd r)) eqn:Ee; simpl.
    + rewrite <- IH. destruct (Js.trimEnd r); [reflexivity | discriminate].
    + rewrite Ec. apply IH.
  - rewrite Ec. rewrite IH. reflexivity.
Qed.

Lemma lastIsWs_trimEnd s : lastIsWs (Js.trimEnd s) = false.
Proof.
  induction s as [|c r IH]; simpl; [reflexivity|].
  destruct (Js.isWhiteSpace c) eqn:Ec; simpl.
  - destruct (Js.isEmpty (Js.trimEnd r)) eqn:Ee; simpl; [reflexivity|].
    rewrite Ee. exact IH.
  - destruct (Js.isEmpty (Js.trimEnd r)) eqn:Ee; [exact Ec | exact IH].
Qed.

Lemma tokenCount_trim s : tokenCount (Js.trim s) = tokenCount s.
Proof.
  unfold tokenCount, Js.trim.
  rewrite countTokens_trimEnd. apply countTokens_trimStart.
Qed.

(** On a trimmed text that is not empty, [split(/\s+/)] yields exactly the
    tokens. *)
Lemma splitWs_trim_length s :
  Js.isEmpty (Js.trim s) = false ->
  length (Js.splitWs (Js.trim s)) = tokenCount s.
Proof.
  intros Hne. rewrite <- tokenCount_trim.
  pose proof (lastIsWs_trimEnd (Js.trimStart s)) as Hlast.
  fold (Js.trim s) in Hlast.
  destruct (Js.trim s) as [|c r] eqn:Et; [discriminate|].
  pose proof (trim_head s c r Et) as Hc.
  unfold Js.splitWs. rewrite (proj1 (splitWs_from_length (String c r))).
  rewrite Hlast. unfold tokenCount. simpl. rewrite Hc. lia.
Qed.

Lemma firstLine_head stdout :
  Js.isEmpty (Js.trim stdout) = false ->
  exists c l, firstLine stdout = String c l /\ Js.isWhiteSpace c = false /\
              head (Js.split "010" (Js.trim stdout)) = Some (String c l).
Proof.
  intros Hne. unfold firstLine.
  destruct (Js.trim stdout) as [|c r] eqn:Et; [discriminate|].
  pose proof (trim_head stdout c r Et) as Hc.
  rewrite (split_head_cons _ _ _ (whitespace_newline c Hc)).
  eexists _, _. split; [reflexivity | split; [exact Hc | reflexivity]].
Qed.

(** On a line that starts with a token, [split(/\s+/)] yields the tokens
    and one more, empty, element when the line ends in white space. *)
Lemma splitWs_line_length c l :
  Js.isWhiteSpace c = false ->
  length (Js.splitWs (String c l))
  = (tokenCount (String c l) + (if lastIsWs (String c l) then 1 else 0))%nat.
Proof.
  intros Hc. unfold Js.splitWs.
  rewrite (proj1 (splitWs_from_length (String c l))).
  unfold tokenCount. simpl countTokens. rewrite Hc. lia.
Qed.

(** Which outputs yield a sample. *)
Lemma statsSample_none_iff dbId stdout :
  Js.isEmpty (Js.trim stdout) = false ->
  statsSample dbId stdout = None <->
  (tokenCount (firstLine stdout)
     + (if lastIsWs (firstLine stdout) then 1 else 0) < 9)%nat.
Proof.
  intros Hne.
  destruct (firstLine_head stdout Hne) as (c & l & Hfl & Hc & Hhead).
  rewrite Hfl, <- (splitWs_line_length c l Hc).
  unfold statsSample. rewrite Hne, Hhead. simpl.
  destruct (length (Js.splitWs (String c l)) <? 9)%nat eqn:Hlt.
  - apply Nat.ltb_lt in Hlt. tauto.
  - apply Nat.ltb_ge in Hlt. split; [|lia].
    destruct (lookup_lt_is_Some_2 (Js.splitWs (String c l)) 1) as [x1 H1]; [lia|].
    destruct (lookup_lt_is_Some_2 (Js.splitWs (String c l)) 5) as [x5 H5]; [lia|].
    rewrite H1, H5. simpl. discriminate.
Qed.

Lemma statsSample_short dbId stdout :
  singleLine stdout -> (tokenCount stdout < 9)%nat ->
  statsSample dbId stdout = None.
Proof.
  intros Hline Hfew. unfold statsSample.
  destruct (Js.isEmpty (Js.trim stdout)) eqn:Ee; [reflexivity|].
  rewrite (split_without_separator _ _ Hline). simpl.
  rewrite Ee. rewrite (splitWs_trim_length _ Ee).
  apply Nat.ltb_lt in Hfew. rewrite Hfew. reflexivity.
Qed.

Lemma collect_without_sample now stdout containerId st :
  (forall dbId, statsSample dbId stdout = None) ->
  collectSingleContainerMetrics now (Some stdout) containerId st = st.
Proof.
  intros H. unfold collectSingleContainerMetrics.
  destruct (findUniqueContainer containerId st); [|reflexivity].
  rewrite H. reflexivity.
Qed.

(** Where the check of the parser does what the specification says: an
    output of one line with fewer than 9 white-space separated tokens
    yields no sample and the store is left as it was; so does an output
    that is empty or blank.  In general an output that is not blank is
    rejected exactly when the tokens of its first line, counting one more
    if that line ends in white space, are fewer than 9. *)
Theorem short_or_empty_stats_rejected (now : time) (stdout : string)
    (containerId : string) (st : store) :
  (singleLine stdout -> (tokenCount stdout < 9)%nat ->
     (forall dbId, statsSample dbId stdout = None) /\
     collectSingleContainerMetrics now (Some stdout) containerId st = st) /\
  (Js.trim stdout = "" ->
     (forall dbId, statsSample dbId stdout = None) /\
     collectSingleContainerMetrics now (Some stdout) containerId st = st) /\
  (Js.isEmpty (Js.trim stdout) = false ->
     forall dbId,
       statsSample dbId stdout = None <->
       (tokenCount (firstLine stdout)
          + (if lastIsWs (firstLine stdout) then 1 else 0) < 9)%nat).
Proof.
  split; [|split].
  - intros Hline Hfew.
    assert (H : forall dbId, statsSample dbId stdout = None)
      by (intros dbId; apply statsSample_short; assumption).
    split; [exact H | apply collect_without_sample, H].
  - intros Hempty.
    assert (H : forall dbId, statsSample dbId stdout = None)
      by (intros dbId; unfold statsSample; rewrite Hempty; reflexivity).
    split; [exact H | apply collect_without_sample, H].
  - intros Hne dbId. apply statsSample_none_iff. exact Hne.
Qed.

Lemma short_or_empty_stats_rejected_witness :
  collectSingleContainerMetrics 5 (Some shortStats) "abc123" freshStore = freshStore.
Proof.
  refine (proj2 (proj1 (short_or_empty_stats_rejected 5 shortStats "abc123" freshStore)
                   _ _)).
  - intros c Hc. vm_compute in Hc.
    repeat (destruct Hc as [<- | Hc]; [discriminate|]). destruct Hc.
  - vm_compute. lia.
Defined.

(** C9: the check of the parser counts the parts of the first line, not
    its tokens.  The first line of [trailingBlankStats] has 8 tokens and
    ends in a blank, so it splits into 9 parts, the last of them empty:
    the line is not rejected, and a sample with both network counters at
    zero and without block I/O is stored. *)
Theorem trailing_blank_passes_token_check :
  tokenCount (firstLine trailingBlankStats) = 8%nat /\
  length (Js.splitWs (firstLine trailingBlankStats)) = 9%nat /\
  (exists d, statsSample 0 trailingBlankStats = Some d /\
             md_netIn d = Num.zero /\ md_netOut d = Num.zero /\
             md_diskRead d = None /\ md_diskWrite d = None) /\
  map (fun m => (ContainerMetric.netIn m, ContainerMetric.netOut m,
                 ContainerMetric.diskRead m))
      (containerMetrics
         (collectSingleContainerMetrics 5 (Some trailingBlankStats) "abc123" freshStore))
  = [(Num.zero, Num.zero, None)].
Proof.
  split_and!; try (vm_compute; reflexivity).
  eexists. split; [vm_compute; reflexivity|]. split_and!; reflexivity.
Qed.

(** ** Unit parsing *)

Lemma append_assoc3 (a b c : string) : ((a ++ b) ++ c = a ++ b ++ c)%string.
Proof.
  induction a as [|x a IH]; [reflexivity|].
  change (String x ((a ++ b) ++ c) = String x (a ++ b ++ c)).
  f_equal. exact IH.
Qed.

Lemma append_empty_r (a : string) : (a ++ "" = a)%string.
Proof.
  induction a as [|x a IH]; [reflexivity|].
  change (String x (a ++ "") = String x a). f_equal. exact IH.
Qed.

Lemma length_append (a b : string) :
  String.length (a ++ b) = (String.length a + String.length b)%nat.
Proof.
  induction a as [|x a IH]; [reflexivity|].
  change (S (String.length (a ++ b)) = S (String.length a + String.length b)).
  f_equal. exact IH.
Qed.

Lemma substring_prefix (a b : string) :
  String.substring 0 (String.length a) (a ++ b) = a.
Proof.
  induction a as [|x a IH]; [destruct b; reflexivity|].
  change (String x (String.substring 0 (String.length a) (a ++ b)) = String x a).
  f_equal. exact IH.
Qed.

Lemma consumed_append (a b : string) : Regex.consumed (a ++ b) b = a.
Proof.
  unfold Regex.consumed. rewrite length_append.
  replace (String.length a + String.length b - String.length b)%nat
    with (String.length a) by lia.
  apply substring_prefix.
Qed.

Lemma star_run {R} p ds rest (k : string -> option R) x :
  allChars p ds = true -> stopsAt p rest -> k rest = Some x ->
  Regex.star p (ds ++ rest) k = Some x.
Proof.
  intros Hds Hstop Hk. induction ds as [|c ds IH].
  - change (EmptyString ++ rest) with rest.
    destruct rest as [|c r]; simpl; [exact Hk|].
    simpl in Hstop. rewrite Hstop. exact Hk.
  - change (String c ds ++ rest) with (String c (ds ++ rest)).
    simpl in Hds. apply andb_true_iff in Hds as [Hc Hds].
    simpl. rewrite Hc, (IH Hds). reflexivity.
Qed.

Lemma run_plus_run {R} p ds rest cs (k : string -> Regex.captures -> option R) x :
  Js.isEmpty ds = false -> allChars p ds = true -> stopsAt p rest ->
  k rest cs = Some x ->
  Regex.run (Plus p) (ds ++ rest) cs k = Some x.
Proof.
  intros Hne Hds Hstop Hk. destruct ds as [|c ds]; [discriminate|].
  change (String c ds ++ rest) with (String c (ds ++ rest)).
  simpl in Hds. apply andb_true_iff in Hds as [Hc Hds].
  simpl. rewrite Hc.
  apply (star_run p ds rest (fun s'' => k s'' cs)); assumption.
Qed.

Lemma span_run p ds rest :
  allChars p ds = true -> stopsAt p rest -> Js.span p (ds ++ rest) = (ds, rest).
Proof.
  intros Hds Hstop. induction ds as [|c ds IH].
  - change (EmptyString ++ rest) with rest.
    destruct rest as [|c r]; simpl; [reflexivity|].
    simpl in Hstop. rewrite Hstop. reflexivity.
  - change (String c ds ++ rest) with (String c (ds ++ rest)).
    simpl in Hds. apply andb_true_iff in Hds as [Hc Hds].
    simpl. rewrite Hc, (IH Hds). reflexivity.
Qed.

Lemma run_cat {R} a b s cs (k : string -> Regex.captures -> option R) :
  Regex.run (Cat a b) s cs k = Regex.run a s cs (fun s' cs' => Regex.run b s' cs' k).
Proof. reflexivity. Qed.

Lemma run_grp {R} i a s cs (k : string -> Regex.captures -> option R) :
  Regex.run (Grp i a) s cs k
  = Regex.run a s cs (fun s' cs' => k s' ((i, Regex.consumed s s') :: cs')).
Proof. reflexivity. Qed.

Lemma run_opt {R} a s cs (k : string -> Regex.captures -> option R) :
  Regex.run (Opt a) s cs k
  = match Regex.run a s cs k with Some x => Some x | None => k s cs end.
Proof. reflexivity. Qed.

Lemma run_chr_stops {R} p s cs (k : string -> Regex.captures -> option R) :
  stopsAt p s -> Regex.run (Chr p) s cs k = None.
Proof. destruct s as [|c r]; simpl; [reflexivity|]. intros ->. reflexivity. Qed.

Lemma exec_of_run r s cs :
  Regex.run r s [] (fun _ cs' => Some cs') = Some cs -> Regex.exec r s = Some cs.
Proof. intros H. destruct s; simpl; rewrite H; reflexivity. Qed.

Lemma unit_suffix u n i b :
  In (u, n) unitSteps -> In i [""; "i"] -> In b [""; "B"] ->
  stopsAt Js.isDigit (u ++ i ++ b) /\
  stopsAt (Regex.lit ".") (u ++ i ++ b) /\
  (forall cs, Regex.run unitTail (u ++ i ++ b) cs (fun _ cs' => Some cs')
              = Some ((2%nat, u) :: cs)).
Proof.
  intros Hu Hi Hb. simpl in Hu, Hi, Hb.
  repeat (destruct Hu as [Hu | Hu]; [injection Hu as <- <-|]); [..|destruct Hu];
  (destruct Hi as [<- | [<- | []]]); (destruct Hb as [<- | [<- | []]]);
  (split; [reflexivity | split; [reflexivity | intros cs; reflexivity]]).
Qed.

Lemma exec_literal ip fp u n i b :
  digitRun ip -> fp = "" \/ digitRun fp ->
  In (u, n) unitSteps -> In i [""; "i"] -> In b [""; "B"] ->
  Regex.exec bytesPattern (literal ip fp ++ u ++ i ++ b)
  = Some [(2%nat, u); (1%nat, literal ip fp)].
Proof.
  intros [Hipne Hip] Hfp Hu Hi Hb.
  destruct (unit_suffix u n i b Hu Hi Hb) as (Hsd & Hsdot & Htail).
  set (sfx := u ++ i ++ b) in *.
  apply exec_of_run.
  change bytesPattern with
    (Cat (Grp 1 (Cat (Plus Js.isDigit)
                     (Opt (Cat (Chr (Regex.lit ".")) (Plus Js.isDigit))))) unitTail).
  rewrite run_cat, run_grp, run_cat.
  destruct Hfp as [-> | [Hfpne Hfp]].
  - unfold literal. simpl Js.isEmpty. cbv iota.
    apply run_plus_run; [exact Hipne | exact Hip | exact Hsd |].
    rewrite run_opt, run_cat, (run_chr_stops _ _ _ _ Hsdot).
    rewrite Htail, consumed_append. reflexivity.
  - unfold literal. rewrite Hfpne.
    rewrite !append_assoc3.
    apply run_plus_run; [exact Hipne | exact Hip | reflexivity |].
    rewrite run_opt, run_cat.
    change ("." ++ fp ++ sfx) with (String "." (fp ++ sfx)).
    assert (Hin : Regex.run (Plus Js.isDigit) (fp ++ sfx) []
              (fun s' cs' =>
                 Regex.run unitTail s'
                   ((1%nat, Regex.consumed (ip ++ String "." (fp ++ sfx)) s') :: cs')
                   (fun _ cs'' => Some cs''))
            = Some [(2%nat, u); (1%nat, ip ++ "." ++ fp)]).
    { apply run_plus_run; [exact Hfpne | exact Hfp | exact Hsd |].
      rewrite Htail.
      change (ip ++ String "." (fp ++ sfx)) with (ip ++ "." ++ fp ++ sfx).
      rewrite <- (append_assoc3 "." fp sfx), <- (append_assoc3 ip ("." ++ fp) sfx).
      rewrite consumed_append. reflexivity. }
    simpl Regex.run at 1. simpl in Hin. rewrite Hin. reflexivity.
Qed.

Lemma parseFloat_literal ip fp :
  digitRun ip -> fp = "" \/ digitRun fp ->
  Parse.parseFloat (literal ip fp) = Fin (Parse.decimalVal ip fp).
Proof.
  intros [Hipne Hip] Hfp.
  destruct ip as [|c ip']; [discriminate|].
  simpl in Hip. apply andb_true_iff in Hip as [Hc Hip'].
  assert (Hspan : forall rest, stopsAt Js.isDigit rest ->
            Js.span Js.isDigit (String c ip' ++ rest) = (String c ip', rest)).
  { intros rest Hrest. apply span_run; [|exact Hrest].
    simpl. rewrite Hc, Hip'. reflexivity. }
  assert (Hplain : forall rest,
            Parse.parseFloat (String c ip' ++ rest)
            = let '(ip, r1) := Js.span Js.isDigit (String c ip' ++ rest) in
              let '(fp, r2) :=
                match r1 with
                | String "." t => Js.span Js.isDigit t
                | _ => (EmptyString, r1)
                end in
              if Js.isEmpty ip && Js.isEmpty fp then NaN
              else
                let m := Parse.decimalVal ip fp in
                let v := match Parse.exponentPart r2 with
                         | Some e => (m * Parse.pow10 e)%Q
                         | None => m
                         end in
                Fin v).
  { intros rest. clear Hspan Hip' Hipne.
    destruct c as [[] [] [] [] [] [] [] []]; try discriminate Hc; reflexivity. }
  destruct Hfp as [-> | [Hfpne Hfp]].
  - unfold literal. simpl Js.isEmpty. cbv iota.
    transitivity (Parse.parseFloat (String c ip' ++ ""));
      [rewrite append_empty_r; reflexivity|].
    rewrite Hplain, (Hspan "" I). reflexivity.
  - unfold literal. rewrite Hfpne.
    rewrite Hplain, (Hspan ("." ++ fp) eq_refl).
    change ("." ++ fp) with (String "." fp). cbv iota beta.
    pose proof (span_run Js.isDigit fp "" Hfp I) as Hs.
    rewrite append_empty_r in Hs. rewrite Hs.
    simpl Js.isEmpty. cbv iota. simpl andb. cbv iota. reflexivity.
Qed.

Lemma star_succeeds {R} p s (k : string -> option R) :
  (forall s', is_Some (k s')) -> is_Some (Regex.star p s k).
Proof.
  intros Hk. induction s as [|c r IH]; simpl; [apply Hk|].
  destruct (p c); [|apply Hk].
  destruct (Regex.star p r k); [eauto | apply Hk].
Qed.

Lemma opt_succeeds {R} a s cs (k : string -> Regex.captures -> option R) :
  is_Some (k s cs) -> is_Some (Regex.run (Opt a) s cs k).
Proof.
  intros Hk. rewrite run_opt. destruct (Regex.run a s cs k); [eauto | exact Hk].
Qed.

Lemma run_plus_cons {R} p c r cs (k : string -> Regex.captures -> option R) :
  Regex.run (Plus p) (String c r) cs k
  = if p c then Regex.star p r (fun s'' => k s'' cs) else None.
Proof. reflexivity. Qed.

(** At a digit the pattern matches, whatever follows. *)
Lemma bytesPattern_matches_at_digit c r :
  Js.isDigit c = true ->
  is_Some (Regex.run bytesPattern (String c r) [] (fun _ cs => Some cs)).
Proof.
  intros Hc.
  change bytesPattern with
    (Cat (Grp 1 (Cat (Plus Js.isDigit)
                     (Opt (Cat (Chr (Regex.lit ".")) (Plus Js.isDigit))))) unitTail).
  rewrite run_cat, run_grp, run_cat, run_plus_cons, Hc.
  apply star_succeeds. intros s'. apply opt_succeeds.
  unfold unitTail. rewrite run_cat, run_grp. apply opt_succeeds.
  rewrite run_cat. apply opt_succeeds, opt_succeeds. eauto.
Qed.

(** The texts the pattern does not recognise are those without a digit. *)
Lemma unrecognised_iff_digitFree s :
  Regex.exec bytesPattern s = None <-> digitFree s.
Proof.
  unfold digitFree. induction s as [|c r IH]; [split; reflexivity|].
  destruct (Js.isDigit c) eqn:Hc.
  - split.
    + intros H. simpl in H.
      destruct (bytesPattern_matches_at_digit c r Hc) as [x Hx].
      simpl in Hx. rewrite Hx in H. discriminate.
    + simpl. rewrite Hc. discriminate.
  - simpl Regex.exec. simpl allChars. rewrite Hc. simpl. exact IH.
Qed.




(** ** Reconciliation: the rows after the upserts *)

Lemma upsert_frame now c st :
  containerMetrics (upsertContainer now c st) = containerMetrics st /\
  alerts (upsertContainer now c st) = alerts st /\
  scans (upsertContainer now c st) = scans st /\
  containerLogs (upsertContainer now c st) = containerLogs st /\
  systemMetrics (upsertContainer now c st) = systemMetrics st.
Proof.
  unfold upsertContainer. destruct (existsb _ (containers st)); simpl; auto.
Qed.

Lemma upsertAll_frame now obs st :
  containerMetrics (upsertAll now obs st) = containerMetrics st /\
  alerts (upsertAll now obs st) = alerts st /\
  scans (upsertAll now obs st) = scans st /\
  containerLogs (upsertAll now obs st) = containerLogs st /\
  systemMetrics (upsertAll now obs st) = systemMetrics st.
Proof.
  unfold upsertAll. revert st. induction obs as [|c obs IH]; intros st; simpl; [auto|].
  destruct (IH (upsertContainer now c st)) as (E1 & E2 & E3 & E4 & E5).
  destruct (upsert_frame now c st) as (F1 & F2 & F3 & F4 & F5).
  rewrite E1, E2, E3, E4, E5. auto.
Qed.

Lemma existsb_same_iff cid (l : list Container.t) :
  existsb (fun r => String.eqb (Container.containerId r) cid) l = true
  <-> In cid (map Container.containerId l).
Proof.
  rewrite existsb_exists, in_map_iff. split.
  - intros (r & Hr & He). apply String.eqb_eq in He. eauto.
  - intros (r & He & Hr). exists r. split; [exact Hr|]. apply String.eqb_eq, He.
Qed.

Lemma refreshed_refreshed now c c' r :
  refreshed now c' (refreshed now c r) = refreshed now c' r.
Proof. reflexivity. Qed.

Lemma resolveRow_containerId now obs r :
  Container.containerId (resolveRow now obs r) = Container.containerId r.
Proof. unfold resolveRow. destruct (lastMatch _ obs); reflexivity. Qed.

Lemma resolveRow_id now obs r :
  Container.id (resolveRow now obs r) = Container.id r /\
  Container.createdAt (resolveRow now obs r) = Container.createdAt r.
Proof. unfold resolveRow. destruct (lastMatch _ obs); split; reflexivity. Qed.

Lemma lastMatch_id cid obs c : lastMatch cid obs = Some c -> Docker.id c = cid.
Proof.
  induction obs as [|c0 obs IH]; simpl; [discriminate|].
  destruct (lastMatch cid obs) as [c'|].
  - intros H. injection H as <-. apply IH. reflexivity.
  - destruct (String.eqb_spec cid (Docker.id c0)); [|discriminate].
    intros H. injection H as <-. congruence.
Qed.

Lemma lastMatch_some_iff cid obs :
  is_Some (lastMatch cid obs) <-> In cid (observedIds obs).
Proof.
  induction obs as [|c0 obs IH]; simpl.
  - split; [intros [x Hx]; discriminate | tauto].
  - destruct (lastMatch cid obs) as [c'|] eqn:E.
    + split; [|eauto]. intros _. right. apply IH. eauto.
    + destruct (String.eqb_spec cid (Docker.id c0)) as [->|Hne].
      * split; [auto | eauto].
      * split; [intros [x Hx]; discriminate|].
        intros [H | H]; [congruence|]. apply IH in H as [x Hx]. discriminate.
Qed.

(** One upsert followed by the resolution against the remaining
    observations is the resolution against all of them. *)
Lemma resolveRow_cons now c obs r :
  resolveRow now obs
    (if String.eqb (Container.containerId r) (Docker.id c) then refreshed now c r else r)
  = resolveRow now (c :: obs) r.
Proof.
  unfold resolveRow. simpl.
  destruct (String.eqb (Container.containerId r) (Docker.id c)) eqn:E; simpl;
    destruct (lastMatch (Container.containerId r) obs); reflexivity.
Qed.

Lemma resolveRow_idem now obs r :
  resolveRow now obs (resolveRow now obs r) = resolveRow now obs r.
Proof.
  unfold resolveRow at 1. rewrite resolveRow_containerId.
  unfold resolveRow. destruct (lastMatch (Container.containerId r) obs); reflexivity.
Qed.

Lemma upsert_runtimeIds_incl now c st x :
  In x (runtimeIds st) -> In x (runtimeIds (upsertContainer now c st)).
Proof. intros H. apply upsert_runtimeIds. left. exact H. Qed.

Lemma upsert_cases now c st :
  (In (Docker.id c) (runtimeIds st) /\
   containers (upsertContainer now c st)
     = map (fun r => if String.eqb (Container.containerId r) (Docker.id c)
                     then refreshed now c r else r) (containers st) /\
   nextId (upsertContainer now c st) = nextId st /\
   runtimeIds (upsertContainer now c st) = runtimeIds st) \/
  (~ In (Docker.id c) (runtimeIds st) /\
   containers (upsertContainer now c st)
     = (containers st ++ [createdRow now c st])%list /\
   nextId (upsertContainer now c st) = S (nextId st)).
Proof.
  unfold upsertContainer.
  destruct (existsb (fun r => String.eqb (Container.containerId r) (Docker.id c))
              (containers st)) eqn:Hex.
  - left. split; [apply existsb_same_iff, Hex|].
    split; [reflexivity|]. split; [reflexivity|].
    unfold runtimeIds. simpl. rewrite map_map. apply map_ext. intros r.
    destruct (String.eqb _ _); reflexivity.
  - right. split; [|split; reflexivity].
    intros Hin. apply existsb_same_iff in Hin. congruence.
Qed.

(** The container table after the upserts: every old row resolved against
    the observations, followed by the rows created for the runtime
    identifiers that were not there; the identifier counter advances by
    the number of created rows. *)
Lemma upsertAll_containers now obs st :
  exists created,
    containers (upsertAll now obs st)
      = (map (resolveRow now obs) (containers st) ++ created)%list /\
    nextId (upsertAll now obs st) = (nextId st + length created)%nat /\
    Forall (settledNew now obs st) created.
Proof.
  revert st. induction obs as [|c obs IH]; intros st.
  - exists []. simpl. rewrite app_nil_r. split; [|split; [lia | constructor]].
    symmetry. rewrite <- (map_id (containers st)) at 2.
    apply map_ext. intros r. reflexivity.
  - change (upsertAll now (c :: obs) st)
      with (upsertAll now obs (upsertContainer now c st)).
    destruct (IH (upsertContainer now c st)) as (created & Hc & Hn & Hs).
    assert (Hlift : forall r, settledNew now obs (upsertContainer now c st) r ->
                              settledNew now (c :: obs) st r).
    { intros r (Hr & Hin & Hnot). split; [|split; [right; exact Hin |]].
      - unfold resolveRow in *. simpl.
        apply lastMatch_some_iff in Hin as [c' Hc']. rewrite Hc' in *. exact Hr.
      - intros Hin'. apply Hnot, upsert_runtimeIds_incl, Hin'. }
    destruct (upsert_cases now c st) as [(Hin & Hcs & Hnx & Hids) | (Hfresh & Hcs & Hnx)].
    + exists created. split; [|split].
      * rewrite Hc, Hcs, map_map. f_equal. apply map_ext. intros r.
        apply (resolveRow_cons now c obs r).
      * rewrite Hn, Hnx. reflexivity.
      * eapply Forall_impl; [exact Hs | exact Hlift].
    + exists (resolveRow now obs (createdRow now c st) :: created).
      split; [|split].
      * rewrite Hc, Hcs, map_app. simpl. rewrite <- app_assoc. simpl. f_equal.
        apply map_ext_in. intros r Hr. rewrite <- resolveRow_cons.
        destruct (String.eqb_spec (Container.containerId r) (Docker.id c)) as [E|];
          [|reflexivity].
        exfalso. apply Hfresh. rewrite <- E. apply in_map. exact Hr.
      * rewrite Hn, Hnx. simpl. lia.
      * constructor.
        -- split; [|split].
           ++ unfold resolveRow at 1. rewrite resolveRow_containerId. simpl.
              unfold resolveRow. simpl. rewrite String.eqb_refl.
              destruct (lastMatch (Docker.id c) obs); reflexivity.
           ++ rewrite resolveRow_containerId. simpl. left. reflexivity.
           ++ rewrite resolveRow_containerId. simpl. exact Hfresh.
        -- eapply Forall_impl; [exact Hs | exact Hlift].
Qed.

Lemma filter_all {A} (p : A -> bool) (l : list A) :
  (forall x, In x l -> p x = true) -> List.filter p l = l.
Proof.
  induction l as [|x l IH]; intros H; simpl; [reflexivity|].
  rewrite (H x (or_introl eq_refl)). f_equal. apply IH.
  intros y Hy. apply H. right. exact Hy.
Qed.

Lemma filter_none {A} (p : A -> bool) (l : list A) :
  (forall x, In x l -> p x = false) -> List.filter p l = [].
Proof.
  induction l as [|x l IH]; intros H; simpl; [reflexivity|].
  rewrite (H x (or_introl eq_refl)). apply IH.
  intros y Hy. apply H. right. exact Hy.
Qed.

(** A deletion that finds every row among the observed identifiers changes
    nothing. *)
Lemma delete_noop ids st :
  (forall r, In r (containers st) -> In (Container.containerId r) ids) ->
  deleteContainersNotIn ids st = st.
Proof.
  intros H. unfold deleteContainersNotIn.
  assert (Hnone : List.filter (fun r => negb (inb (Container.containerId r) ids))
                    (containers st) = []).
  { apply filter_none. intros r Hr. apply negb_false_iff, inb_In, H, Hr. }
  rewrite Hnone. simpl.
  rewrite (filter_all _ (containers st))
    by (intros r Hr; apply inb_In, H, Hr).
  rewrite !filter_all by reflexivity.
  assert (Ha : map (fun a : Alert.t =>
                      match Alert.containerId a with
                      | Some _ => a
                      | None => a
                      end) (alerts st) = alerts st).
  { rewrite <- (map_id (alerts st)) at 2. apply map_ext. intros a.
    destruct (Alert.containerId a); reflexivity. }
  rewrite Ha. destruct st; reflexivity.
Qed.

Lemma delete_containers ids st :
  containers (deleteContainersNotIn ids st)
  = List.filter (fun r => inb (Container.containerId r) ids) (containers st).
Proof. reflexivity. Qed.

Lemma sync_nonempty now c obs st :
  syncContainersToDatabase now (c :: obs) st
  = deleteContainersNotIn (observedIds (c :: obs)) (upsertAll now (c :: obs) st).
Proof. reflexivity. Qed.

(** After a reconciliation against observations that are not empty every
    row of the inventory carries the fields of the last observation of its
    runtime identifier. *)
Lemma sync_rows_settled now obs st r :
  obs <> [] ->
  In r (containers (syncContainersToDatabase now obs st)) ->
  resolveRow now obs r = r /\ In (Container.containerId r) (observedIds obs).
Proof.
  intros Hne Hin. destruct obs as [|c obs]; [congruence|].
  rewrite sync_nonempty, delete_containers in Hin.
  apply filter_In in Hin as [Hin Hk]. apply inb_In in Hk.
  split; [|exact Hk].
  destruct (upsertAll_containers now (c :: obs) st) as (created & Hc & _ & Hs).
  rewrite Hc in Hin. apply in_app_or in Hin as [Hin | Hin].
  - apply in_map_iff in Hin as (r0 & <- & _). apply resolveRow_idem.
  - rewrite Forall_forall in Hs. apply Hs. apply list_elem_of_In. exact Hin.
Qed.

Lemma settled_touch now1 now2 obs r :
  resolveRow now1 obs r = r -> In (Container.containerId r) (observedIds obs) ->
  resolveRow now2 obs r = touch now2 r /\ Container.updatedAt r = now1.
Proof.
  intros Hr Hin. unfold resolveRow in *.
  apply lastMatch_some_iff in Hin as [c Hc]. rewrite Hc in *.
  rewrite <- Hr. split; reflexivity.
Qed.

Lemma store_eq st st' :
  containers st = containers st' -> containerMetrics st = containerMetrics st' ->
  alerts st = alerts st' -> scans st = scans st' ->
  containerLogs st = containerLogs st' -> systemMetrics st = systemMetrics st' ->
  nextId st = nextId st' -> st = st'.
Proof. destruct st, st'; simpl; intros; subst; reflexivity. Qed.

Lemma touch_frame now l :
  map Container.id (map (touch now) l) = map Container.id l /\
  map Container.containerId (map (touch now) l) = map Container.containerId l.
Proof. rewrite !map_map. split; apply map_ext; reflexivity. Qed.

(** The second of two reconciliations against the same observations. *)
Lemma sync_again now1 now2 obs st :
  obs <> [] ->
  let st1 := syncContainersToDatabase now1 obs st in
  let st2 := syncContainersToDatabase now2 obs st1 in
  containers st2 = map (touch now2) (containers st1) /\
  containerMetrics st2 = containerMetrics st1 /\ alerts st2 = alerts st1 /\
  scans st2 = scans st1 /\ containerLogs st2 = containerLogs st1 /\
  systemMetrics st2 = systemMetrics st1 /\ nextId st2 = nextId st1.
Proof.
  intros Hne st1 st2.
  pose proof (sync_rows_settled now1 obs st) as Hset. fold st1 in Hset.
  destruct obs as [|c obs]; [congruence|].
  set (o := c :: obs) in *.
  destruct (upsertAll_containers now2 o st1) as (created & Hc & Hn & Hs).
  assert (Hnil : created = []).
  { destruct created as [|r created]; [reflexivity|]. exfalso.
    apply Forall_cons in Hs as [(_ & Hin & Hnot) _].
    apply Hnot. apply (sync_runtimeIds now1 o st); [exact Hne | exact Hin]. }
  subst created. rewrite app_nil_r in Hc.
  change (length (@nil Container.t)) with 0%nat in Hn. rewrite Nat.add_0_r in Hn.
  assert (Hc' : containers (upsertAll now2 o st1) = map (touch now2) (containers st1)).
  { rewrite Hc. apply map_ext_in. intros r Hr.
    destruct (Hset r Hne Hr) as [H1 H2].
    apply (settled_touch now1 now2 o r H1 H2). }
  assert (Hnoop : deleteContainersNotIn (observedIds o) (upsertAll now2 o st1)
                  = upsertAll now2 o st1).
  { apply delete_noop. intros r Hr. rewrite Hc' in Hr.
    apply in_map_iff in Hr as (r0 & <- & Hr0). simpl.
    apply (Hset r0 Hne Hr0). }
  assert (Hst2 : st2 = upsertAll now2 o st1).
  { unfold st2, o. rewrite sync_nonempty. exact Hnoop. }
  rewrite Hst2.
  destruct (upsertAll_frame now2 o st1) as (F1 & F2 & F3 & F4 & F5).
  split; [exact Hc'|]. split_and!; assumption.
Qed.

(** X1: reconciling twice in a row against the same observations creates
    no row and deletes none: the second run only sets [updatedAt] on the
    rows of the inventory, leaves every other table and the identifier
    counter as they are, and at the same instant changes nothing at
    all. *)
Theorem sync_twice (now1 now2 : time) (obs : list Docker.container) (st : store) :
  let st1 := syncContainersToDatabase now1 obs st in
  let st2 := syncContainersToDatabase now2 obs st1 in
  containers st2 = (if obs is [] then containers st1
                    else map (touch now2) (containers st1)) /\
  map Container.id (containers st2) = map Container.id (containers st1) /\
  runtimeIds st2 = runtimeIds st1 /\
  containerMetrics st2 = containerMetrics st1 /\ alerts st2 = alerts st1 /\
  scans st2 = scans st1 /\ containerLogs st2 = containerLogs st1 /\
  systemMetrics st2 = systemMetrics st1 /\ nextId st2 = nextId st1 /\
  (now2 = now1 -> st2 = st1).
Proof.
  intros st1 st2. destruct obs as [|c obs].
  - unfold st2, st1. split_and!; reflexivity.
  - assert (Hne : c :: obs <> []) by discriminate.
    destruct (sync_again now1 now2 (c :: obs) st Hne)
      as (Hc & Hm & Ha & Hs & Hl & Hy & Hn).
    fold st1 in Hc, Hm, Ha, Hs, Hl, Hy, Hn. fold st2 in Hc, Hm, Ha, Hs, Hl, Hy, Hn.
    destruct (touch_frame now2 (containers st1)) as [Hi Hr].
    split_and!; try assumption.
    + rewrite Hc. exact Hi.
    + unfold runtimeIds. rewrite Hc. exact Hr.
    + intros ->. apply store_eq; try assumption.
      rewrite Hc. rewrite <- (map_id (containers st1)) at 2.
      apply map_ext_in. intros r Hr'.
      destruct (sync_rows_settled now1 (c :: obs) st r Hne Hr') as [H1 H2].
      destruct (settled_touch now1 now1 (c :: obs) r H1 H2) as [Ht _].
      rewrite <- Ht. exact H1.
Qed.

(** ** Reconciliation: one row per runtime identifier *)

Lemma NoDup_map_filter {A B} (f : A -> B) (p : A -> bool) (l : list A) :
  List.NoDup (map f l) -> List.NoDup (map f (List.filter p l)).
Proof.
  induction l as [|x l IH]; simpl; intros H; [constructor|].
  inversion H as [|? ? Hx Hl]; subst.
  destruct (p x); simpl; [|apply IH, Hl].
  constructor; [|apply IH, Hl].
  intros Hin. apply Hx. apply in_map_iff in Hin as (y & Hy & Hin).
  apply filter_In in Hin as [Hin _]. rewrite <- Hy. apply in_map. exact Hin.
Qed.

Lemma NoDup_snoc_In {A} (l : list A) (x : A) :
  List.NoDup l -> ~ In x l -> List.NoDup (l ++ [x]).
Proof.
  induction l as [|y l IH]; simpl; intros Hl Hx.
  - constructor; [tauto | constructor].
  - inversion Hl as [|? ? Hy Hl']; subst. constructor.
    + rewrite in_app_iff. simpl. intros [H | [H | []]]; [tauto|]. subst. tauto.
    + apply IH; tauto.
Qed.

Lemma upsert_unique now c st :
  List.NoDup (runtimeIds st) -> List.NoDup (runtimeIds (upsertContainer now c st)).
Proof.
  intros H.
  destruct (upsert_cases now c st) as [(_ & _ & _ & Hids) | (Hfresh & Hcs & _)].
  - rewrite Hids. exact H.
  - unfold runtimeIds in *. rewrite Hcs, map_app. simpl.
    apply NoDup_snoc_In; assumption.
Qed.

Lemma upsertAll_unique now obs st :
  List.NoDup (runtimeIds st) -> List.NoDup (runtimeIds (upsertAll now obs st)).
Proof.
  revert st. induction obs as [|c obs IH]; intros st H; [exact H|].
  apply (IH (upsertContainer now c st)), upsert_unique, H.
Qed.

Lemma sync_unique now obs st :
  List.NoDup (runtimeIds st) ->
  List.NoDup (runtimeIds (syncContainersToDatabase now obs st)).
Proof.
  intros Huniq. destruct obs as [|c obs]; [exact Huniq|].
  rewrite sync_nonempty. unfold runtimeIds. rewrite delete_containers.
  apply NoDup_map_filter. apply (upsertAll_unique now (c :: obs) st Huniq).
Qed.

Lemma collector_sync_unique now rc ac st :
  List.NoDup (runtimeIds st) ->
  List.NoDup (runtimeIds (Collector.syncContainersToDatabase now rc ac st)).
Proof.
  intros Huniq. unfold Collector.syncContainersToDatabase.
  destruct rc; [|exact Huniq]. destruct ac as [out|]; [|exact Huniq].
  destruct (Collector.parseAll out); [apply sync_unique, Huniq | exact Huniq].
Qed.

(** X2: the reconciliation keeps the runtime identifiers of the inventory
    pairwise distinct: it never records a container twice.  This holds
    after the upserts, after the whole reconciliation and for the
    collector's method on any answer of the runtime. *)
Theorem sync_keeps_runtimeIds_unique (now : time) (obs : list Docker.container)
    (runningContainers allContainers : option string)
    (st : store) (Huniq : List.NoDup (runtimeIds st)) :
  List.NoDup (runtimeIds (syncContainersToDatabase now obs st)) /\
  List.NoDup (runtimeIds (upsertAll now obs st)) /\
  List.NoDup (runtimeIds
    (Collector.syncContainersToDatabase now runningContainers allContainers st)).
Proof.
  split; [apply sync_unique, Huniq|].
  split; [apply upsertAll_unique, Huniq | apply collector_sync_unique, Huniq].
Qed.

Lemma sync_keeps_runtimeIds_unique_witness :
  List.NoDup (runtimeIds (syncContainersToDatabase 9 [web; cache; web] staleStore)).
Proof.
  refine (proj1 (sync_keeps_runtimeIds_unique 9 [web; cache; web] None None staleStore _)).
  repeat constructor. simpl. tauto.
Defined.

(** ** Reconciliation: what is recorded for an observed container *)

Lemma lastMatch_unique obs c :
  In c obs -> List.NoDup (observedIds obs) -> lastMatch (Docker.id c) obs = Some c.
Proof.
  induction obs as [|c0 obs IH]; simpl; [tauto|].
  intros Hin Hnd. inversion Hnd as [|? ? Hc0 Hnd']; subst.
  destruct Hin as [-> | Hin].
  - destruct (lastMatch (Docker.id c) obs) as [c'|] eqn:E.
    + exfalso. apply Hc0. apply lastMatch_some_iff. eauto.
    + rewrite String.eqb_refl. reflexivity.
  - rewrite (IH Hin Hnd'). reflexivity.
Qed.

Lemma find_runtimeId cid (l : list Container.t) :
  In cid (map Container.containerId l) ->
  exists r, find (fun r => String.eqb (Container.containerId r) cid) l = Some r /\
            In r l /\ Container.containerId r = cid.
Proof.
  intros Hin. apply existsb_same_iff in Hin.
  destruct (find (fun r => String.eqb (Container.containerId r) cid) l) as [r|] eqn:E.
  - exists r. apply find_some in E as [H1 H2]. apply String.eqb_eq in H2. auto.
  - apply existsb_exists in Hin as (r & Hr & He).
    pose proof (find_none _ _ E r Hr) as Hn. simpl in Hn. congruence.
Qed.

(** X3: after a reconciliation every observed container is found under its
    runtime identifier with the observed name, image and status, its ports
    (null when absent or empty) and the time of the run as [updatedAt],
    provided the observation names no container twice. *)
Theorem sync_records_observed (now : time) (obs : list Docker.container)
    (st : store) (c : Docker.container)
    (Hin : In c obs) (Huniq : List.NoDup (observedIds obs)) :
  exists r,
    findUniqueContainer (Docker.id c) (syncContainersToDatabase now obs st) = Some r /\
    Container.containerId r = Docker.id c /\
    Container.name r = Docker.name c /\
    Container.image r = Docker.image c /\
    Container.status r = Docker.status c /\
    Container.ports r = portsOrNull (Docker.ports c) /\
    Container.updatedAt r = now.
Proof.
  assert (Hne : obs <> []) by (intros ->; destruct Hin).
  assert (Hid : In (Docker.id c) (runtimeIds (syncContainersToDatabase now obs st))).
  { apply sync_runtimeIds; [exact Hne | apply in_map, Hin]. }
  destruct (find_runtimeId _ _ Hid) as (r & Hfind & Hr & Hcid).
  exists r. split; [exact Hfind|]. split; [exact Hcid|].
  destruct (sync_rows_settled now obs st r Hne Hr) as [Hset _].
  unfold resolveRow in Hset. rewrite Hcid, (lastMatch_unique obs c Hin Huniq) in Hset.
  rewrite <- Hset. repeat split.
Qed.

Lemma sync_records_observed_witness :
  exists r,
    findUniqueContainer "abc123" (syncContainersToDatabase 9 [web; cache] staleStore)
      = Some r /\
    Container.status r = "running" /\ Container.ports r = Some "80/tcp".
Proof.
  destruct (sync_records_observed 9 [web; cache] staleStore web) as (r & H1 & _ & _ & _ & H5 & H6 & _).
  - left. reflexivity.
  - repeat constructor; simpl; intuition discriminate.
  - exists r. auto.
Defined.

(** ** Reconciliation: what stays *)

Lemma delete_tables ids st :
  let deleted :=
    map Container.id
      (List.filter (fun r => negb (inb (Container.containerId r) ids)) (containers st)) in
  containerMetrics (deleteContainersNotIn ids st)
    = List.filter (fun m => negb (memb (ContainerMetric.containerId m) deleted))
        (containerMetrics st) /\
  scans (deleteContainersNotIn ids st)
    = List.filter (fun s => negb (memb (Scan.containerId s) deleted)) (scans st) /\
  containerLogs (deleteContainersNotIn ids st)
    = List.filter (fun l => negb (memb (ContainerLog.containerId l) deleted))
        (containerLogs st) /\
  alerts (deleteContainersNotIn ids st)
    = map (fun a =>
             match Alert.containerId a with
             | Some c => if memb c deleted then detached a else a
             | None => a
             end) (alerts st).
Proof. repeat split. Qed.

Lemma sync_deleted_ids now c obs st i :
  In i (map Container.id
          (List.filter (fun r => negb (inb (Container.containerId r) (observedIds (c :: obs))))
             (containers (upsertAll now (c :: obs) st)))) ->
  exists r, In r (containers st) /\ Container.id r = i /\
            ~ In (Container.containerId r) (observedIds (c :: obs)).
Proof.
  intros Hin. apply in_map_iff in Hin as (r & Hi & Hr).
  apply filter_In in Hr as [Hr Hk]. apply negb_true_iff in Hk.
  assert (Hnot : ~ In (Container.containerId r) (observedIds (c :: obs))).
  { intros H. apply inb_In in H. congruence. }
  destruct (upsertAll_containers now (c :: obs) st) as (created & Hc & _ & Hs).
  rewrite Hc in Hr. apply in_app_or in Hr as [Hr | Hr].
  - apply in_map_iff in Hr as (r0 & <- & Hr0). exists r0.
    rewrite resolveRow_containerId in Hnot.
    destruct (resolveRow_id now (c :: obs) r0) as [Hid _].
    split; [exact Hr0|]. split; [congruence | exact Hnot].
  - rewrite Forall_forall in Hs. apply list_elem_of_In, Hs in Hr.
    destruct Hr as (_ & Hobs & _). contradiction.
Qed.

(** X4: a reconciliation keeps what belongs to a container that is still
    observed: its row keeps its identifier, its runtime identifier and its
    creation time, and every sample, scan, log and alert that refers only
    to observed containers stays as it is. *)
Theorem sync_keeps_observed (now : time) (obs : list Docker.container) (st : store) :
  let st' := syncContainersToDatabase now obs st in
  let observed (i : rowid) :=
    forall r, In r (containers st) -> Container.id r = i ->
              In (Container.containerId r) (observedIds obs) in
  (forall r, In r (containers st) -> In (Container.containerId r) (observedIds obs) ->
     exists r', In r' (containers st') /\
       Container.id r' = Container.id r /\
       Container.containerId r' = Container.containerId r /\
       Container.createdAt r' = Container.createdAt r) /\
  (forall m, In m (containerMetrics st) -> observed (ContainerMetric.containerId m) ->
     In m (containerMetrics st')) /\
  (forall s, In s (scans st) -> observed (Scan.containerId s) -> In s (scans st')) /\
  (forall l, In l (containerLogs st) -> observed (ContainerLog.containerId l) ->
     In l (containerLogs st')) /\
  (forall a, In a (alerts st) ->
     (forall i, Alert.containerId a = Some i -> observed i) -> In a (alerts st')).
Proof.
  intros st' observed. destruct obs as [|c obs].
  - unfold st'. split_and!; auto.
    intros r _ [].
  - assert (Hdel : forall i, observed i ->
              memb i (map Container.id
                (List.filter
                   (fun r => negb (inb (Container.containerId r) (observedIds (c :: obs))))
                   (containers (upsertAll now (c :: obs) st)))) = false).
    { intros i Hobs. apply not_true_iff_false. intros Hm. apply memb_In in Hm.
      destruct (sync_deleted_ids now c obs st i Hm) as (r & Hr & Hi & Hnot).
      apply Hnot, (Hobs r Hr Hi). }
    destruct (upsertAll_frame now (c :: obs) st) as (F1 & F2 & F3 & F4 & _).
    unfold st'. rewrite sync_nonempty.
    destruct (delete_tables (observedIds (c :: obs)) (upsertAll now (c :: obs) st))
      as (D1 & D2 & D3 & D4).
    split_and!.
    + intros r Hr Hobs. exists (resolveRow now (c :: obs) r).
      destruct (resolveRow_id now (c :: obs) r) as [Hi Hcr].
      split; [|split; [exact Hi | split; [apply resolveRow_containerId | exact Hcr]]].
      rewrite delete_containers. apply filter_In. split.
      * destruct (upsertAll_containers now (c :: obs) st) as (created & Hc & _ & _).
        rewrite Hc. apply in_or_app. left. apply in_map. exact Hr.
      * rewrite resolveRow_containerId. apply inb_In. exact Hobs.
    + intros m Hm Hobs. rewrite D1.
      apply filter_In. rewrite F1. split; [exact Hm|].
      apply negb_true_iff, Hdel, Hobs.
    + intros s Hs Hobs. rewrite D2.
      apply filter_In. rewrite F3. split; [exact Hs|].
      apply negb_true_iff, Hdel, Hobs.
    + intros l Hl Hobs. rewrite D3.
      apply filter_In. rewrite F4. split; [exact Hl|].
      apply negb_true_iff, Hdel, Hobs.
    + intros a Ha Hobs. rewrite D4.
      rewrite F2. apply in_map_iff. exists a. split; [|exact Ha].
      destruct (Alert.containerId a) as [i|] eqn:Ei; [|reflexivity].
      rewrite (Hdel i (Hobs i eq_refl)). reflexivity.
Qed.

Lemma sync_keeps_observed_witness :
  In (ContainerMetric.mk 1 0 (Fin 1) (Fin 2) None (Fin 0) (Fin 0) None None 5)
     (containerMetrics (syncContainersToDatabase 9 [web; cache] staleStore)).
Proof.
  refine (proj1 (proj2 (sync_keeps_observed 9 [web; cache] staleStore))
            (ContainerMetric.mk 1 0 (Fin 1) (Fin 2) None (Fin 0) (Fin 0) None None 5) _ _).
  - left. reflexivity.
  - intros r [<- | []] _. left. reflexivity.
Defined.


Lemma collectSingle_frame t out cid st :
  containers (collectSingleContainerMetrics t out cid st) = containers st /\
  alerts (collectSingleContainerMetrics t out cid st) = alerts st /\
  scans (collectSingleContainerMetrics t out cid st) = scans st /\
  containerLogs (collectSingleContainerMetrics t out cid st) = containerLogs st /\
  systemMetrics (collectSingleContainerMetrics t out cid st) = systemMetrics st.
Proof.
  unfold collectSingleContainerMetrics.
  destruct (findUniqueContainer cid st); [|auto].
  destruct out as [stdout|]; [|auto].
  destruct (statsSample _ stdout) as [d|]; [|auto].
  unfold createContainerMetric. destruct (storable d); simpl; auto.
Qed.




Lemma statsSample_containerId dbId stdout d :
  statsSample dbId stdout = Some d -> md_containerId d = dbId.
Proof.
  unfold statsSample. intros H.
  destruct (Js.isEmpty (Js.trim stdout)); [discriminate|].
  destruct (head _) as [line|]; [|discriminate]. simpl in H.
  destruct (Js.isEmpty line); [discriminate|].
  destruct (length (Js.splitWs line) <? 9)%nat; [discriminate|].
  destruct (Js.splitWs line !! 1%nat) as [cpuPerc|]; [|discriminate]. simpl in H.
  destruct (Js.splitWs line !! 5%nat) as [memPerc|]; [|discriminate]. simpl in H.
  injection H as <-. reflexivity.
Qed.





(** ** The collector writes no dangling reference *)

Lemma collectSingle_references t out cid st :
  referencesExist st -> referencesExist (collectSingleContainerMetrics t out cid st).
Proof.
  intros Href. unfold collectSingleContainerMetrics.
  destruct (findUniqueContainer cid st) as [c|] eqn:Hc; [|exact Href].
  destruct out as [stdout|]; [|exact Href].
  destruct (statsSample (Container.id c) stdout) as [d|] eqn:Hd; [|exact Href].
  apply statsSample_containerId in Hd.
  unfold createContainerMetric. destruct (storable d); [|exact Href].
  apply find_some in Hc as [Hc _].
  destruct Href as (Hm & Ha & Hs & Hl).
  unfold referencesExist, hasContainer in *. simpl. split_and!; try assumption.
  intros m Hin. apply in_app_or in Hin as [Hin | [<- | []]]; [auto|].
  simpl. rewrite Hd. apply in_map. exact Hc.
Qed.

Lemma collector_sync_references now rc ac st :
  referencesExist st ->
  referencesExist (Collector.syncContainersToDatabase now rc ac st).
Proof.
  intros H. unfold Collector.syncContainersToDatabase.
  destruct rc; [|exact H]. destruct ac as [out|]; [|exact H].
  destruct (Collector.parseAll out); [apply sync_preserves_references, H | exact H].
Qed.

(** X6: the collector never writes a sample for a container that is not in
    the inventory: if every reference of the store names an existing
    container, this still holds after one [collectSingleContainerMetrics]
    and after a whole cycle, whatever the runtime answers. *)
Theorem collector_keeps_references (now : time) (t : time) (out : option string)
    (cid : string) (runningContainers allContainers : option string)
    (stats : string -> option string) (sampleTime : string -> time) (st : store)
    (Href : referencesExist st) :
  referencesExist (collectSingleContainerMetrics t out cid st) /\
  referencesExist
    (collectContainerMetrics now runningContainers allContainers stats sampleTime st).
Proof.
  split; [apply collectSingle_references, Href|].
  unfold collectContainerMetrics.
  generalize (List.filter isRunning
                (containers (Collector.syncContainersToDatabase now runningContainers
                               allContainers st))).
  pose proof (collector_sync_references now runningContainers allContainers st Href) as H1.
  revert H1.
  generalize (Collector.syncContainersToDatabase now runningContainers allContainers st).
  intros s H l. revert s H. induction l as [|c l IH]; intros s H; simpl; [exact H|].
  apply IH, collectSingle_references, H.
Qed.

Lemma collector_keeps_references_witness :
  referencesExist
    (collectSingleContainerMetrics 5 (Some exampleLine) "abc123" staleStore).
Proof.
  refine (proj1 (collector_keeps_references 0 5 (Some exampleLine) "abc123" None None
                   (fun _ => None) (fun _ => 0%Z) staleStore _)).
  unfold referencesExist, hasContainer. simpl. split_and!.
  - intros m [<- | []]. left. reflexivity.
  - intros a c [<- | []] H. injection H as <-. left. reflexivity.
  - intros s [].
  - intros l [].
Defined.

(** ** One-time collection *)

(** X7: the one-time collection (and the start of the scheduled one)
    awaits the host sample first.  It delivers a store, with the host
    sample followed by the container cycle, only when [/proc/stat] cannot
    be read; when the file can be read the await of the CPU usage never
    returns, so neither the host sample nor any container sample is
    written. *)
Theorem collectOnce_needs_fallback (now : time) (h : hostReading)
    (runningContainers allContainers : option string)
    (stats : string -> option string) (sampleTime : string -> time) (st : store) :
  (forall text, procStat1 h = Some text ->
     collectSystemMetrics now h st = Pending /\
     collectOnce now h runningContainers allContainers stats sampleTime st = Pending) /\
  (procStat1 h = None ->
     exists st1,
       collectSystemMetrics now h st = Fulfilled st1 /\
       containers st1 = containers st /\
       containerMetrics st1 = containerMetrics st /\
       (length (systemMetrics st1) <= S (length (systemMetrics st)))%nat /\
       collectOnce now h runningContainers allContainers stats sampleTime st
       = Fulfilled (collectContainerMetrics now runningContainers allContainers
                      stats sampleTime st1)).
Proof.
  unfold collectOnce, collectSystemMetrics, getCPUUsage. split.
  - intros text ->. split; reflexivity.
  - intros ->. simpl. unfold createSystemMetric.
    destruct (systemMetricsOf _ h) as [d|]; [destruct (storableHost d)|];
      eexists; split_and!;
      try reflexivity; simpl; rewrite ?length_app; simpl; lia.
Qed.

Lemma collectOnce_needs_fallback_witness :
  collectOnce 5 (mkHostReading (Some "cpu  1 0 0 1 0 0 0") "cpu  2 0 0 2 0 0 0"
                   (Fin 1, Fin 1, Fin 1) 4 (Fin 8) (Fin 4)
                   (Some "/dev/root 100M 40M 60M 40% /") (Fin 0) (Fin 0))
    (Some "") (Some "") (fun _ => Some exampleLine) (fun _ => 6%Z) freshStore
  = Pending.
Proof.
  refine (proj2 (proj1 (collectOnce_needs_fallback 5 _ (Some "") (Some "")
                          (fun _ => Some exampleLine) (fun _ => 6%Z) freshStore)
                   "cpu  1 0 0 1 0 0 0" _)).
  reflexivity.
Defined.

(** ** Retention: sweeps compose *)

Lemma filter_filter_impl {A} (p q : A -> bool) (l : list A) :
  (forall x, p x = true -> q x = true) ->
  List.filter (fun x => negb (q x)) (List.filter (fun x => negb (p x)) l)
  = List.filter (fun x => negb (q x)) l.
Proof.
  intros H. induction l as [|x l IH]; simpl; [reflexivity|].
  destruct (p x) eqn:Ep; simpl.
  - rewrite (H x Ep). simpl. exact IH.
  - destruct (q x); simpl; [exact IH | f_equal; exact IH].
Qed.

Lemma count_filter_impl {A} (p q : A -> bool) (l : list A) :
  (forall x, p x = true -> q x = true) ->
  (count p l + count q (List.filter (fun x => negb (p x)) l) = count q l)%nat.
Proof.
  intros H. unfold count. induction l as [|x l IH]; simpl; [reflexivity|].
  destruct (p x) eqn:Ep; simpl.
  - rewrite (H x Ep). simpl. lia.
  - destruct (q x); simpl; lia.
Qed.

Lemma old_mono c1 c2 :
  (c1 <= c2)%Z ->
  (forall m, oldMetric c1 m = true -> oldMetric c2 m = true) /\
  (forall a, oldResolvedAlert c1 a = true -> oldResolvedAlert c2 a = true) /\
  (forall s, oldCompletedScan c1 s = true -> oldCompletedScan c2 s = true).
Proof.
  intros Hle. unfold oldMetric, oldResolvedAlert, oldCompletedScan. split_and!.
  - intros m H. apply Z.ltb_lt in H. apply Z.ltb_lt. lia.
  - intros a H. apply andb_true_iff in H as [H1 H2]. apply Z.ltb_lt in H1.
    apply andb_true_iff. split; [apply Z.ltb_lt; lia | exact H2].
  - intros s H. apply andb_true_iff in H as [H1 H2]. apply Z.ltb_lt in H1.
    apply andb_true_iff. split; [apply Z.ltb_lt; lia | exact H2].
Qed.

(** X8: two sweeps in a row amount to the one with the later cutoff: if the
    cutoff of the second sweep is not before that of the first, the store
    after both is the store the second sweep alone would leave, and the
    counts of the two runs add up to the counts of that single sweep.  In
    particular a sweep repeated at the same instant deletes nothing
    more. *)
Theorem sweeps_compose (z : zone) (now1 now2 : time) (days1 days2 : Z) (st : store)
    (Hle : (cutoffDate z now1 days1 <= cutoffDate z now2 days2)%Z) :
  let first := POST z now1 (Some days1) (Some false) st in
  let second := POST z now2 (Some days2) (Some false) first.1 in
  let single := POST z now2 (Some days2) (Some false) st in
  second.1 = single.1 /\
  (metricsDeleted first.2 + metricsDeleted second.2 = metricsDeleted single.2)%nat /\
  (alertsDeleted first.2 + alertsDeleted second.2 = alertsDeleted single.2)%nat /\
  (scansDeleted first.2 + scansDeleted second.2 = scansDeleted single.2)%nat /\
  (now2 = now1 -> days2 = days1 ->
     second.1 = first.1 /\ metricsDeleted second.2 = 0%nat /\
     alertsDeleted second.2 = 0%nat /\ scansDeleted second.2 = 0%nat).
Proof.
  destruct (old_mono _ _ Hle) as (Hm & Ha & Hs).
  simpl.
  assert (H1 : forall A (p q : A -> bool) l, (forall x, p x = true -> q x = true) ->
             (count p l + count q (List.filter (fun x => negb (p x)) l) = count q l)%nat)
    by (intros; apply count_filter_impl; assumption).
  split_and!.
  - f_equal; apply filter_filter_impl; assumption.
  - apply H1, Hm.
  - apply H1, Ha.
  - apply H1, Hs.
  - intros -> ->.
    pose proof (H1 _ _ _ (containerMetrics st)
                  (fun m (H : oldMetric (cutoffDate z now1 days1) m = true) => H)) as C1.
    pose proof (H1 _ _ _ (alerts st)
                  (fun a (H : oldResolvedAlert (cutoffDate z now1 days1) a = true) => H)) as C2.
    pose proof (H1 _ _ _ (scans st)
                  (fun s (H : oldCompletedScan (cutoffDate z now1 days1) s = true) => H)) as C3.
    split_and!; [|lia|lia|lia].
    f_equal; apply filter_filter_impl; auto.
Qed.

Lemma sweeps_compose_witness :
  (POST utc (40 * msPerDay) (Some 30%Z) (Some false)
     (POST utc (35 * msPerDay) (Some 30%Z) (Some false) sampleStore).1).1
  = (POST utc (40 * msPerDay) (Some 30%Z) (Some false) sampleStore).1.
Proof.
  refine (proj1 (sweeps_compose utc (35 * msPerDay) (40 * msPerDay) 30 30 sampleStore _)).
  vm_compute. discriminate.
Defined.

(** ** Retention: what a sweep removes and what it leaves *)

(** X9: a sweep removes exactly the samples older than the cutoff and the
    completed scans older than the cutoff; a scan that is running or
    failed stays whatever its age.  It leaves the containers, the logs and
    the host samples untouched, and it leaves no dangling reference. *)
Theorem sweep_scope (z : zone) (now : time) (days : Z) (st : store) :
  let cutoff := cutoffDate z now days in
  let st' := (POST z now (Some days) (Some false) st).1 in
  (forall m, In m (containerMetrics st') <->
     In m (containerMetrics st) /\ (cutoff <= ContainerMetric.timestamp m)%Z) /\
  (forall s, In s (scans st') <->
     In s (scans st) /\
     ((cutoff <= Scan.timestamp s)%Z \/ Scan.status s <> "completed")) /\
  (forall a, In a (alerts st') <->
     In a (alerts st) /\
     ((cutoff <= Alert.timestamp a)%Z \/ Alert.resolved a = false)) /\
  containers st' = containers st /\ containerLogs st' = containerLogs st /\
  systemMetrics st' = systemMetrics st /\ nextId st' = nextId st /\
  (referencesExist st -> referencesExist st').
Proof.
  simpl. split_and!; try reflexivity.
  - intros m. rewrite filter_In. unfold oldMetric.
    destruct (Z.ltb_spec (ContainerMetric.timestamp m) (cutoffDate z now days));
      simpl; intuition (try lia; try discriminate).
  - intros s. rewrite filter_In. unfold oldCompletedScan.
    destruct (Z.ltb_spec (Scan.timestamp s) (cutoffDate z now days));
      destruct (String.eqb_spec (Scan.status s) "completed");
      simpl; intuition (try lia; try discriminate; try congruence).
  - intros a. rewrite filter_In. unfold oldResolvedAlert.
    destruct (Z.ltb_spec (Alert.timestamp a) (cutoffDate z now days));
      destruct (Alert.resolved a);
      simpl; intuition (try lia; try discriminate).
  - intros (Hm & Ha & Hs & Hl). unfold referencesExist, hasContainer. simpl.
    split_and!.
    + intros m Hin. apply filter_In in Hin as [Hin _]. exact (Hm m Hin).
    + intros a c Hin Hc. apply filter_In in Hin as [Hin _]. exact (Ha a c Hin Hc).
    + intros s Hin. apply filter_In in Hin as [Hin _]. exact (Hs s Hin).
    + exact Hl.
Qed.

Lemma sweep_scope_witness :
  referencesExist (POST utc 100 (Some 0%Z) (Some false) staleStore).1.
Proof.
  refine (proj2 (proj2 (proj2 (proj2 (proj2 (proj2 (proj2
            (sweep_scope utc 100 0 staleStore))))))) _).
  unfold referencesExist, hasContainer. simpl. split_and!.
  - intros m [<- | []]. left. reflexivity.
  - intros a c [<- | []] H. injection H as <-. left. reflexivity.
  - intros s [].
  - intros l [].
Defined.

(** X10: the cleanup of the collector removes exactly the samples older
    than its cutoff, the instant 7 calendar days (or the given number of
    days) before the run at the same local time of day, and touches no
    other table: unlike the sweep of the cleanup route it never deletes an
    alert or a scan.  On the samples it agrees with that sweep for the
    same horizon. *)
Theorem cleanupOldMetrics_scope (z : zone) (now : time) (days : option Z) (st : store) :
  let st' := cleanupOldMetrics z now days st in
  (forall m, In m (containerMetrics st') <->
     In m (containerMetrics st) /\
     (UTC z (LocalTime z now - default 7%Z days * msPerDay)
      <= ContainerMetric.timestamp m)%Z) /\
  containers st' = containers st /\ alerts st' = alerts st /\
  scans st' = scans st /\ containerLogs st' = containerLogs st /\
  systemMetrics st' = systemMetrics st /\
  containerMetrics st'
    = containerMetrics (POST z now (Some (default 7%Z days)) (Some false) st).1.
Proof.
  simpl. split_and!; try reflexivity.
  intros m. rewrite filter_In. unfold oldMetric, cutoffDate.
  destruct (Z.ltb_spec (ContainerMetric.timestamp m)
              (UTC z (LocalTime z now - default 7%Z days * msPerDay)));
    simpl; intuition (try lia; try discriminate).
Qed.

(** ** The weekly trigger of the cleanup *)

Lemma week_is_ticks : msPerWeek = (ticksPerWeek * collectionInterval)%Z.
Proof. reflexivity. Qed.

(** X11: with collection ticks exactly one interval apart, the test that
    triggers the weekly cleanup holds at exactly one tick of every week:
    after a tick at which it holds it fails at the next 20159 ticks and
    holds again at the 20160th, and among any 20160 consecutive ticks
    there is one at which it holds. *)
Theorem cleanup_due_once_a_week (t : Z) (Ht : (0 <= t)%Z) :
  (cleanupDue t collectionInterval = true ->
     (forall k, (0 < k < ticksPerWeek)%Z ->
        cleanupDue (t + k * collectionInterval) collectionInterval = false) /\
     cleanupDue (t + ticksPerWeek * collectionInterval) collectionInterval = true) /\
  (exists k, (0 <= k < ticksPerWeek)%Z /\
     cleanupDue (t + k * collectionInterval) collectionInterval = true).
Proof.
  unfold cleanupDue.
  assert (HW : (0 < msPerWeek)%Z) by reflexivity.
  pose proof (Z.div_mod t msPerWeek ltac:(lia)) as Hdm.
  pose proof (Z.mod_pos_bound t msPerWeek HW) as Hb.
  set (q := (t / msPerWeek)%Z) in *. set (r := (t mod msPerWeek)%Z) in *.
  assert (Hmod : forall x, (0 <= x < msPerWeek)%Z ->
            forall j, ((msPerWeek * j + x) mod msPerWeek = x)%Z).
  { intros x Hx j. rewrite Z.add_comm, Z.mul_comm, Z.mod_add by lia.
    apply Z.mod_small. exact Hx. }
  unfold msPerWeek, collectionInterval, ticksPerWeek in *.
  split.
  - intros Hdue. apply Z.ltb_lt in Hdue. split.
    + intros k Hk. apply Z.ltb_ge.
      replace (t + k * (30 * 1000))%Z
        with (7 * 24 * 60 * 60 * 1000 * q + (r + k * (30 * 1000)))%Z by lia.
      rewrite Hmod by lia. lia.
    + apply Z.ltb_lt.
      replace (t + 20160 * (30 * 1000))%Z
        with (7 * 24 * 60 * 60 * 1000 * (q + 1) + r)%Z by lia.
      rewrite Hmod by lia. lia.
  - pose proof (Z.div_mod r (30 * 1000) ltac:(lia)) as Hdr.
    pose proof (Z.mod_pos_bound r (30 * 1000) ltac:(lia)) as Hbr.
    set (a := (r / (30 * 1000))%Z) in *. set (b := (r mod (30 * 1000))%Z) in *.
    destruct (Z.eq_dec a 0%Z) as [Ha | Ha].
    + exists 0%Z. split; [lia|]. apply Z.ltb_lt.
      replace (t + 0 * (30 * 1000))%Z with (7 * 24 * 60 * 60 * 1000 * q + r)%Z by lia.
      rewrite Hmod by lia. lia.
    + exists (20160 - a)%Z. split; [lia|]. apply Z.ltb_lt.
      replace (t + (20160 - a) * (30 * 1000))%Z
        with (7 * 24 * 60 * 60 * 1000 * (q + 1) + b)%Z by lia.
      rewrite Hmod by lia. lia.
Qed.

Lemma cleanup_due_once_a_week_witness :
  exists k, (0 <= k < ticksPerWeek)%Z /\
    cleanupDue (1700000000000 + k * collectionInterval) collectionInterval = true.
Proof.
  refine (proj2 (cleanup_due_once_a_week 1700000000000 _)).
  vm_compute. discriminate.
Defined.

(** ** Strings: splitting what was joined *)

Lemma app_cons (c : ascii) (r s : string) : String c r ++ s = String c (r ++ s).
Proof. reflexivity. Qed.

Lemma space_is_white c : Ascii.eqb c " " = true -> Js.isWhiteSpace c = true.
Proof. intros H. apply Ascii.eqb_eq in H. subst. reflexivity. Qed.

Lemma splitWs_from_cons b c r :
  Js.isWhiteSpace c = false ->
  Js.splitWs_from b (String c r)
  = match Js.splitWs_from false r with
    | h :: t => String c h :: t
    | [] => [String c ""]
    end.
Proof. intros H. simpl. rewrite H. reflexivity. Qed.

(** A prefix without white space goes in front of the first element. *)
Lemma splitWs_token_prefix b t s :
  allChars (fun c => negb (Js.isWhiteSpace c)) t = true -> Js.isEmpty t = false ->
  Js.splitWs_from b (t ++ s)
  = match Js.splitWs_from false s with
    | h :: tl => (t ++ h) :: tl
    | [] => [t]
    end.
Proof.
  revert b. induction t as [|c t IH]; intros b Ht Hne; [discriminate|].
  simpl in Ht. apply andb_true_iff in Ht as [Hc Ht]. apply negb_true_iff in Hc.
  rewrite app_cons, (splitWs_from_cons b c (t ++ s) Hc).
  destruct t as [|d t'].
  - change ("" ++ s) with s.
    pose proof (splitWs_from_nonempty false s).
    destruct (Js.splitWs_from false s); [contradiction | reflexivity].
  - rewrite (IH false Ht eq_refl).
    pose proof (splitWs_from_nonempty false s).
    destruct (Js.splitWs_from false s); [contradiction | reflexivity].
Qed.

Lemma splitWs_skip_spaces w s :
  allChars Js.isWhiteSpace w = true ->
  Js.splitWs_from true (w ++ s) = Js.splitWs_from true s.
Proof.
  induction w as [|c w IH]; intros Hw; [reflexivity|].
  simpl in Hw. apply andb_true_iff in Hw as [Hc Hw].
  rewrite app_cons. simpl. rewrite Hc. apply IH, Hw.
Qed.

Lemma splitWs_blank_prefix w s :
  allChars Js.isWhiteSpace w = true -> Js.isEmpty w = false ->
  Js.splitWs_from false (w ++ s) = "" :: Js.splitWs_from true s.
Proof.
  intros Hw Hne. destruct w as [|c w]; [discriminate|].
  simpl in Hw. apply andb_true_iff in Hw as [Hc Hw].
  rewrite app_cons. simpl. rewrite Hc. f_equal. apply splitWs_skip_spaces, Hw.
Qed.

Lemma allChars_impl (p q : ascii -> bool) s :
  (forall c, p c = true -> q c = true) -> allChars p s = true -> allChars q s = true.
Proof.
  intros H. induction s as [|c s IH]; simpl; [reflexivity|].
  intros Hs. apply andb_true_iff in Hs as [Hc Hs].
  rewrite (H c Hc), (IH Hs). reflexivity.
Qed.

Lemma interleave_head t0 rest :
  isToken t0 ->
  exists c r, interleave t0 rest = String c r /\ Js.isWhiteSpace c = false.
Proof.
  intros [Hne Ht]. destruct t0 as [|c t]; [discriminate|].
  simpl in Ht. apply andb_true_iff in Ht as [Hc _]. apply negb_true_iff in Hc.
  destruct rest as [|[sep tok] rest]; simpl; eauto.
Qed.

(** [split(/\s+/)] gives back the tokens of a text built from tokens and
    spaces. *)
Lemma splitWs_interleave t0 rest :
  isToken t0 -> Forall (fun p => isSpaces p.1 /\ isToken p.2) rest ->
  Js.splitWs (interleave t0 rest) = t0 :: map snd rest.
Proof.
  unfold Js.splitWs. revert t0. induction rest as [|[sep tok] rest IH];
    intros t0 [Hne Ht] Hrest.
  - simpl. rewrite <- (append_empty_r t0) at 1.
    rewrite (splitWs_token_prefix false t0 "" Ht Hne). simpl.
    rewrite append_empty_r. reflexivity.
  - apply Forall_cons in Hrest as [[[Hsne Hs] Htok] Hrest]. simpl in *.
    rewrite (splitWs_token_prefix false t0 _ Ht Hne).
    rewrite (splitWs_blank_prefix sep _
               (allChars_impl _ _ sep space_is_white Hs) Hsne).
    rewrite append_empty_r. f_equal.
    destruct (interleave_head tok rest Htok) as (c & r & Hcr & Hc).
    rewrite <- (IH tok Htok Hrest). rewrite Hcr.
    rewrite (splitWs_from_cons true c r Hc), (splitWs_from_cons false c r Hc).
    reflexivity.
Qed.

Lemma split_field sep a rest :
  allChars (fun c => negb (Ascii.eqb c sep)) a = true ->
  Js.split sep (a ++ String sep rest) = a :: Js.split sep rest.
Proof.
  induction a as [|c a IH]; intros Ha.
  - simpl. rewrite Ascii.eqb_refl. reflexivity.
  - simpl in Ha. apply andb_true_iff in Ha as [Hc Ha]. apply negb_true_iff in Hc.
    rewrite app_cons. simpl. rewrite Hc, (IH Ha). reflexivity.
Qed.

Lemma split_last sep a :
  allChars (fun c => negb (Ascii.eqb c sep)) a = true -> Js.split sep a = [a].
Proof.
  induction a as [|c a IH]; intros Ha; [reflexivity|].
  simpl in Ha. apply andb_true_iff in Ha as [Hc Ha]. apply negb_true_iff in Hc.
  simpl. rewrite Hc, (IH Ha). reflexivity.
Qed.

(** [split(sep)] gives back the fields that were joined by [sep]. *)
Lemma split_joinWith sep fields :
  fields <> [] ->
  Forall (fun f => allChars (fun c => negb (Ascii.eqb c sep)) f = true) fields ->
  Js.split sep (joinWith sep fields) = fields.
Proof.
  induction fields as [|f fields IH]; intros Hne Hf; [congruence|].
  apply Forall_cons in Hf as [Hf Hfs].
  destruct fields as [|g fields].
  - simpl. apply split_last, Hf.
  - change (joinWith sep (f :: g :: fields))
      with (f ++ String sep (joinWith sep (g :: fields))).
    rewrite (split_field sep f _ Hf), IH; [reflexivity | discriminate | exact Hfs].
Qed.

(** ** Memory limits *)

Lemma limit_unit_step u f :
  In (u, f) limitFactors -> exists n, In (u, n) unitSteps.
Proof.
  intros H. simpl in H.
  repeat (destruct H as [H | H];
          [injection H as <- <-; eexists; simpl; eauto 12 |]).
  destruct H.
Qed.

Lemma literal_nonempty ip fp u i b :
  digitRun ip -> Js.isEmpty (literal ip fp ++ u ++ i ++ b) = false.
Proof.
  intros [Hne _]. destruct ip as [|c ip']; [discriminate|].
  unfold literal. destruct (Js.isEmpty fp); reflexivity.
Qed.

Lemma memLimitMB_none_iff s : memLimitMB s = None <-> digitFree s.
Proof.
  unfold memLimitMB. split.
  - intros H. destruct (Js.isEmpty s) eqn:He.
    + destruct s; [reflexivity | discriminate].
    + apply unrecognised_iff_digitFree.
      destruct (Regex.exec bytesPattern s); [|reflexivity].
      repeat match type of H with
             | context [if ?b then _ else _] => destruct b
             end; discriminate.
  - intros H. destruct (Js.isEmpty s); [reflexivity|].
    rewrite (proj2 (unrecognised_iff_digitFree s) H). reflexivity.
Qed.

(** X12: a decimal literal followed by one of the unit letters (none, K, M,
    G, T, in either case), with or without the marker [i] and with or
    without [B], is converted to megabytes by the factor of its letter:
    1/1024 for K, 1 for M, 1024 for G, 1024 x 1024 for T, and 1 when
    there is no letter, so that a limit given in bytes is kept as that
    many megabytes.  With a unit letter the result times 1024 x 1024 is
    what [parseBytes] reads from the same text; without one the result is
    what [parseBytes] reads.  The limit is null exactly for the texts
    without a digit. *)
Theorem memLimitMB_units (ip fp u i b : string) (f : Q)
    (Hip : digitRun ip) (Hfp : fp = "" \/ digitRun fp)
    (Hu : In (u, f) limitFactors) (Hi : In i [""; "i"]) (Hb : In b [""; "B"]) :
  (exists v, memLimitMB (literal ip fp ++ u ++ i ++ b) = Some v /\
             v ≡ Fin (Parse.decimalVal ip fp * f) /\
             (u <> "" -> parseBytes (literal ip fp ++ u ++ i ++ b)
                         ≡ times v (1024 * 1024)) /\
             (u = "" -> parseBytes (literal ip fp ++ u ++ i ++ b) ≡ v)) /\
  (forall s, memLimitMB s = None <-> digitFree s).
Proof.
  split; [|apply memLimitMB_none_iff].
  destruct (limit_unit_step u f Hu) as [n Hn].
  unfold memLimitMB, parseBytes.
  rewrite (exec_literal ip fp u n i b Hip Hfp Hn Hi Hb).
  rewrite (literal_nonempty ip fp u i b Hip).
  simpl Regex.group. simpl default.
  rewrite (parseFloat_literal ip fp Hip Hfp).
  simpl in Hu.
  repeat (destruct Hu as [Hu | Hu]; [injection Hu as <- <-|]); [..|destruct Hu];
    simpl; eexists; (split; [reflexivity|]);
    unfold equiv, number_equiv, Num.eq, times; simpl;
    (split_and!; [ | intros Hne; try congruence | intros He; try discriminate He ]);
    try reflexivity; constants; field.
Qed.

Lemma memLimitMB_units_witness :
  exists v, memLimitMB (literal "3" "647" ++ "G" ++ "i" ++ "B") = Some v /\
            v ≡ Fin (Parse.decimalVal "3" "647" * 1024).
Proof.
  destruct (proj1 (memLimitMB_units "3" "647" "G" "i" "B" 1024
                     ltac:(split; reflexivity)
                     ltac:(right; split; reflexivity)
                     ltac:(simpl; tauto) ltac:(simpl; tauto) ltac:(simpl; tauto)))
    as (v & Hv & Hq & _).
  exists v. split; [exact Hv | exact Hq].
Defined.

(** ** The [cpu] line of [/proc/stat] *)

Lemma digit_shape c :
  Js.isDigit c = true ->
  Js.isWhiteSpace c = false /\ Ascii.eqb c "+" = false /\ Ascii.eqb c "-" = false /\
  Ascii.eqb c "x" = false /\ Ascii.eqb c "X" = false /\ Ascii.eqb c "010" = false /\
  Ascii.eqb c "M" = false.
Proof.
  intros H. destruct c as [[] [] [] [] [] [] [] []]; try discriminate H;
    repeat split; reflexivity.
Qed.

Lemma span_all p s : allChars p s = true -> Js.span p s = (s, "").
Proof.
  intros H. pose proof (span_run p s "" H I) as Hs.
  rewrite append_empty_r in Hs. exact Hs.
Qed.

(** [parseInt] reads a run of digits as the number it writes. *)
Lemma parseInt_digitRun ds :
  digitRun ds -> Parse.parseInt ds = Num.ofZ (Parse.digitsVal ds).
Proof.
  intros [Hne Hds]. destruct ds as [|c r]; [discriminate|].
  pose proof (span_all Js.isDigit (String c r) Hds) as Hspan.
  simpl in Hds. apply andb_true_iff in Hds as [Hc Hr].
  destruct (digit_shape c Hc) as (Hws & Hplus & Hminus & _).
  unfold Parse.parseInt.
  assert (Ht : Js.trimStart (String c r) = String c r) by (simpl; rewrite Hws; reflexivity).
  rewrite Ht.
  assert (Hsign : Parse.takeSign (String c r) = (false, String c r)).
  { destruct c as [[] [] [] [] [] [] [] []]; try discriminate Hc; reflexivity. }
  rewrite Hsign.
  assert (Hzero : forall x r', c = "0"%char -> r = String x r' ->
            (Ascii.eqb x "x" || Ascii.eqb x "X") = false).
  { intros x r' _ ->. simpl in Hr. apply andb_true_iff in Hr as [Hx _].
    destruct (digit_shape x Hx) as (_ & _ & _ & -> & -> & _). reflexivity. }
  destruct c as [[] [] [] [] [] [] [] []]; try discriminate Hc;
    try (rewrite Hspan; reflexivity).
  destruct r as [|x r']; [rewrite Hspan; reflexivity|].
  rewrite (Hzero x r' eq_refl eq_refl), Hspan. reflexivity.
Qed.

Lemma allChars_app p a b : allChars p (a ++ b) = allChars p a && allChars p b.
Proof.
  induction a as [|c a IH]; [reflexivity|].
  change (String c a ++ b) with (String c (a ++ b)). simpl.
  rewrite IH, andb_assoc. reflexivity.
Qed.

Lemma digitRun_token t : digitRun t -> isToken t.
Proof.
  intros [Hne Hd]. split; [exact Hne|].
  refine (allChars_impl _ _ t _ Hd). intros c Hc.
  destruct (digit_shape c Hc) as (-> & _). reflexivity.
Qed.

Lemma counters_tokens fields :
  counters fields -> Forall (fun p => isSpaces p.1 /\ isToken p.2) fields.
Proof.
  intros H. eapply Forall_impl; [exact H|].
  intros p [Hs Hd]. split; [exact Hs | apply digitRun_token, Hd].
Qed.

Lemma interleave_one_line t0 rest :
  isToken t0 -> Forall (fun p => isSpaces p.1 /\ isToken p.2) rest ->
  allChars (fun c => negb (Ascii.eqb c "010")) (interleave t0 rest) = true.
Proof.
  assert (Htok : forall t, isToken t ->
            allChars (fun c => negb (Ascii.eqb c "010")) t = true).
  { intros t [_ Ht]. refine (allChars_impl _ _ t _ Ht). intros c Hc.
    apply negb_true_iff in Hc. rewrite (whitespace_newline c Hc). reflexivity. }
  revert t0. induction rest as [|[sep tok] rest IH]; intros t0 Ht0 Hrest; simpl.
  - apply Htok, Ht0.
  - apply Forall_cons in Hrest as [[[_ Hs] Ht] Hrest]. simpl in *.
    rewrite !allChars_app, (Htok t0 Ht0), (IH tok Ht Hrest), andb_true_r. simpl.
    refine (allChars_impl _ _ sep _ Hs). intros c Hc.
    apply Ascii.eqb_eq in Hc. subst c. reflexivity.
Qed.

Lemma cpu_token : isToken "cpu".
Proof. split; reflexivity. Qed.

(** The counter [i] as [parseInt] reads it, [NaN] when the line has no
    such counter. *)
Lemma parseIntAt_counter t0 fields i :
  counters fields ->
  parseIntAt (t0 :: map snd fields) (S i)
  = match fields !! i with
    | Some p => Num.ofZ (Parse.digitsVal p.2)
    | None => NaN
    end.
Proof.
  intros H. unfold parseIntAt. change ((t0 :: map snd fields) !! S i)
    with (map snd fields !! i).
  rewrite list_lookup_fmap.
  destruct (fields !! i) as [p|] eqn:Hp; [|reflexivity]. simpl.
  apply parseInt_digitRun.
  eapply Forall_lookup_1 in H; [|exact Hp]. apply H.
Qed.

Lemma counterAt_number fields i :
  (i < length fields)%nat ->
  match fields !! i with
  | Some p => Num.ofZ (Parse.digitsVal p.2)
  | None => NaN
  end = Fin (counterAt fields i).
Proof.
  intros Hi. unfold counterAt.
  destruct (lookup_lt_is_Some_2 fields i Hi) as [p ->]. reflexivity.
Qed.

Lemma parseCPU_line fields :
  counters fields -> (7 <= length fields)%nat ->
  parseCPU (interleave "cpu" fields) = Some (timesOf (ticksOf fields)).
Proof.
  intros H Hlen. unfold parseCPU.
  rewrite (splitWs_interleave "cpu" fields cpu_token (counters_tokens fields H)).
  rewrite decide_True by reflexivity.
  rewrite !(parseIntAt_counter _ fields _ H).
  rewrite !counterAt_number by lia. reflexivity.
Qed.

Lemma add_nan_r a : Num.add a NaN = NaN.
Proof. destruct a; reflexivity. Qed.

Lemma sub_nan_r a : Num.sub a NaN = NaN.
Proof. unfold Num.sub. apply add_nan_r. Qed.

Lemma parseCPU_short fields :
  counters fields -> (length fields < 7)%nat ->
  exists c, parseCPU (interleave "cpu" fields) = Some c /\ totalTime c = NaN.
Proof.
  intros H Hlen. unfold parseCPU.
  rewrite (splitWs_interleave "cpu" fields cpu_token (counters_tokens fields H)).
  rewrite decide_True by reflexivity.
  eexists. split; [reflexivity|].
  rewrite !(parseIntAt_counter _ fields _ H).
  rewrite (lookup_ge_None_2 fields 6) by lia.
  unfold totalTime. simpl. apply add_nan_r.
Qed.

Lemma first_line_of_text fields more :
  counters fields ->
  head (Js.split "010" (procStatText fields more)) = Some (interleave "cpu" fields).
Proof.
  intros H. unfold procStatText.
  rewrite split_field; [reflexivity|].
  apply interleave_one_line; [exact cpu_token | apply counters_tokens, H].
Qed.

Lemma usage_of_nan_total_l a b : totalTime a = NaN -> cpuUsageOfTimes a b = Num.zero.
Proof.
  intros H. unfold cpuUsageOfTimes. rewrite H, sub_nan_r. reflexivity.
Qed.

Lemma usage_of_nan_total_r a b : totalTime b = NaN -> cpuUsageOfTimes a b = Num.zero.
Proof.
  intros H. unfold cpuUsageOfTimes. rewrite H. reflexivity.
Qed.

(** X13: two reads of [/proc/stat] whose first lines are [cpu] lines with
    at least seven counters give the usage of the seven first counters of
    each; the counters behind the seventh (steal, guest) and the other
    lines of the text play no part. *)
Theorem cpu_usage_of_proc_stat (f1 f2 : list (string * string)) (more1 more2 : string)
    (H1 : counters f1) (H2 : counters f2)
    (Hlen1 : (7 <= length f1)%nat) (Hlen2 : (7 <= length f2)%nat) :
  cpuUsageOfReads (procStatText f1 more1) (procStatText f2 more2)
  = cpuUsageOfTimes (timesOf (ticksOf f1)) (timesOf (ticksOf f2)).
Proof.
  unfold cpuUsageOfReads.
  rewrite (first_line_of_text f1 more1 H1), (first_line_of_text f2 more2 H2).
  simpl default.
  rewrite (parseCPU_line f1 H1 Hlen1), (parseCPU_line f2 H2 Hlen2). reflexivity.
Qed.

(** X14: when the [cpu] line of either read has fewer than seven
    counters, the usage is 0. *)
Theorem cpu_usage_of_short_line (f1 f2 : list (string * string)) (more1 more2 : string)
    (H1 : counters f1) (H2 : counters f2)
    (Hshort : (length f1 < 7)%nat \/ (length f2 < 7)%nat) :
  cpuUsageOfReads (procStatText f1 more1) (procStatText f2 more2) = Num.zero.
Proof.
  unfold cpuUsageOfReads.
  rewrite (first_line_of_text f1 more1 H1), (first_line_of_text f2 more2 H2).
  simpl default.
  assert (Hsome : forall f, counters f -> exists c, parseCPU (interleave "cpu" f) = Some c).
  { intros f Hf. unfold parseCPU.
    rewrite (splitWs_interleave "cpu" f cpu_token (counters_tokens f Hf)).
    rewrite decide_True by reflexivity. eauto. }
  destruct Hshort as [Hs | Hs].
  - destruct (parseCPU_short f1 H1 Hs) as (a & -> & Ha).
    destruct (Hsome f2 H2) as [b ->]. apply usage_of_nan_total_l, Ha.
  - destruct (parseCPU_short f2 H2 Hs) as (b & -> & Hb).
    destruct (Hsome f1 H1) as [a ->]. apply usage_of_nan_total_r, Hb.
Qed.

Lemma counters_dec_ok fields :
  forallb (fun p => negb (Js.isEmpty p.1) && allChars (fun c => Ascii.eqb c " ") p.1
                    && negb (Js.isEmpty p.2) && allChars Js.isDigit p.2) fields = true ->
  counters fields.
Proof.
  intros H. apply Forall_forall. intros p Hp.
  rewrite forallb_forall in H. specialize (H p (proj1 (list_elem_of_In _ _) Hp)).
  repeat (apply andb_true_iff in H as [H ?]).
  apply negb_true_iff in H. 
  match goal with Hx : negb _ = true |- _ => apply negb_true_iff in Hx end.
  repeat split; assumption.
Qed.

Lemma cpu_usage_of_proc_stat_witness :
  cpuUsageOfReads (procStatText statLine1 "cpu0 1 2 3") (procStatText statLine2 "")
  = cpuUsageOfTimes (timesOf (ticksOf statLine1)) (timesOf (ticksOf statLine2)).
Proof.
  apply (cpu_usage_of_proc_stat statLine1 statLine2 "cpu0 1 2 3" "").
  - apply counters_dec_ok. reflexivity.
  - apply counters_dec_ok. reflexivity.
  - simpl. lia.
  - simpl. lia.
Defined.

Lemma cpu_usage_of_short_line_witness :
  cpuUsageOfReads (procStatText [(" ", "1"); (" ", "2")] "") (procStatText statLine2 "")
  = Num.zero.
Proof.
  apply (cpu_usage_of_short_line [(" ", "1"); (" ", "2")] statLine2 "" "").
  - apply counters_dec_ok. reflexivity.
  - apply counters_dec_ok. reflexivity.
  - left. simpl. lia.
Defined.

(** ** Lines of [docker ps] *)

Lemma plain_no_tab s :
  plainField s -> allChars (fun c => negb (Ascii.eqb c "009")) s = true.
Proof.
  apply allChars_impl. intros c H. apply andb_true_iff in H. tauto.
Qed.

Lemma plain_no_newline s :
  plainField s -> allChars (fun c => negb (Ascii.eqb c "010")) s = true.
Proof.
  apply allChars_impl. intros c H. apply andb_true_iff in H. tauto.
Qed.

Lemma parsePsLine_psLine r :
  plainRow r -> Collector.parsePsLine (psLine r) = Some (listed r).
Proof.
  intros (Hi & Hn & Him & Hs & Hp). unfold Collector.parsePsLine, psLine.
  rewrite split_joinWith; [reflexivity | discriminate |].
  repeat (apply Forall_cons; split; [apply plain_no_tab; assumption|]).
  apply Forall_nil. exact I.
Qed.

Lemma psLine_one_line r :
  plainRow r -> allChars (fun c => negb (Ascii.eqb c "010")) (psLine r) = true.
Proof.
  intros (Hi & Hn & Him & Hs & Hp). unfold psLine.
  change (joinWith "009" [ps_id r; ps_name r; ps_image r; ps_status r; ps_ports r])
    with (ps_id r ++ String "009" (ps_name r ++ String "009" (ps_image r ++
            String "009" (ps_status r ++ String "009" (ps_ports r))))).
  repeat (rewrite allChars_app; simpl).
  rewrite !plain_no_newline by assumption. reflexivity.
Qed.

Lemma psLine_nonempty r : Js.isEmpty (psLine r) = false.
Proof.
  unfold psLine.
  change (joinWith "009" [ps_id r; ps_name r; ps_image r; ps_status r; ps_ports r])
    with (ps_id r ++ String "009" (ps_name r ++ String "009" (ps_image r ++
            String "009" (ps_status r ++ String "009" (ps_ports r))))).
  destruct (ps_id r); reflexivity.
Qed.

Lemma mapM_psLines rows :
  Forall plainRow rows ->
  mapM Collector.parsePsLine (map psLine rows) = Some (map listed rows).
Proof.
  intros H. apply mapM_Some_2.
  induction H as [|r rows Hr _ IH]; simpl; constructor; [|exact IH].
  apply parsePsLine_psLine, Hr.
Qed.

Lemma filter_psLines rows :
  List.filter (fun line => negb (Js.isEmpty line)) (map psLine rows) = map psLine rows.
Proof.
  induction rows as [|r rows IH]; simpl; [reflexivity|].
  rewrite psLine_nonempty, IH. reflexivity.
Qed.

Lemma parseAll_psLines rows out :
  Forall plainRow rows ->
  Js.trim out = joinWith "010" (map psLine rows) ->
  Collector.parseAll out = Some (map listed rows).
Proof.
  intros H Hout. destruct rows as [|r rows].
  - apply parseAll_blank. exact Hout.
  - unfold Collector.parseAll. rewrite Hout, split_joinWith.
    + rewrite filter_psLines. apply mapM_psLines, H.
    + discriminate.
    + apply Forall_forall. intros l Hl.
      apply list_elem_of_In, in_map_iff in Hl as (r' & <- & Hr').
      apply psLine_one_line.
      rewrite Forall_forall in H. apply H, list_elem_of_In, Hr'.
Qed.

Lemma parseAll_malformed out line :
  In line (Js.split "010" (Js.trim out)) -> line <> "" ->
  (length (Js.split "009" line) < 4)%nat ->
  Collector.parseAll out = None.
Proof.
  intros Hin Hne Hlen. unfold Collector.parseAll. apply mapM_None_2.
  apply Exists_exists. exists line. split.
  - apply list_elem_of_In, filter_In. split; [exact Hin|].
    destruct line; [congruence | reflexivity].
  - unfold Collector.parsePsLine.
    rewrite (lookup_ge_None_2 (Js.split "009" line) 3) by lia.
    destruct (Js.split "009" line !! 0%nat); [|reflexivity]. simpl.
    destruct (Js.split "009" line !! 1%nat); [|reflexivity]. simpl.
    destruct (Js.split "009" line !! 2%nat); reflexivity.
Qed.

(** X15: the collector reads the listing that [docker ps -a] prints back
    into the containers it stands for, and reconciles the store with
    exactly those. *)
Theorem collector_reads_listing (now : time) (rows : list psRow)
    (running out : string) (st : store)
    (Hrows : Forall plainRow rows)
    (Hout : Js.trim out = joinWith "010" (map psLine rows)) :
  Collector.parseAll out = Some (map listed rows) /\
  Collector.syncContainersToDatabase now (Some running) (Some out) st
  = syncContainersToDatabase now (map listed rows) st.
Proof.
  pose proof (parseAll_psLines rows out Hrows Hout) as H.
  split; [exact H|]. unfold Collector.syncContainersToDatabase. rewrite H. reflexivity.
Qed.

(** X16: one line of the listing with fewer than four fields makes the
    whole reconciliation of the collector leave the store as it is. *)
Theorem malformed_line_aborts_sync (now : time) (running : option string)
    (out line : string) (st : store)
    (Hin : In line (Js.split "010" (Js.trim out))) (Hne : line <> "")
    (Hlen : (length (Js.split "009" line) < 4)%nat) :
  Collector.syncContainersToDatabase now running (Some out) st = st.
Proof.
  unfold Collector.syncContainersToDatabase.
  rewrite (parseAll_malformed out line Hin Hne Hlen).
  destruct running; reflexivity.
Qed.

Lemma collector_reads_listing_witness :
  Collector.parseAll (psLine jobRow ++ String "010" (psLine webRow) ++ String "010" "")
  = Some [listed jobRow; listed webRow].
Proof.
  refine (proj1 (collector_reads_listing 0 [jobRow; webRow] ""
            (psLine jobRow ++ String "010" (psLine webRow) ++ String "010" "")
            freshStore _ _)).
  - repeat constructor.
  - vm_compute. reflexivity.
Defined.

Lemma malformed_line_aborts_sync_witness :
  Collector.syncContainersToDatabase 0 (Some "")
    (Some ("abc123" ++ String "009" "web" ++ String "010" (psLine jobRow))) freshStore
  = freshStore.
Proof.
  apply (malformed_line_aborts_sync 0 (Some "")
           ("abc123" ++ String "009" "web" ++ String "010" (psLine jobRow))
           ("abc123" ++ String "009" "web") freshStore).
  - vm_compute. left. reflexivity.
  - discriminate.
  - vm_compute. lia.
Defined.

(** ** Strings: trimming *)

Lemma trimEnd_token t :
  allChars (fun c => negb (Js.isWhiteSpace c)) t = true -> Js.trimEnd t = t.
Proof.
  induction t as [|c t IH]; intros H; [reflexivity|].
  simpl in H. apply andb_true_iff in H as [Hc Ht]. apply negb_true_iff in Hc.
  simpl. rewrite Hc, (IH Ht). reflexivity.
Qed.

Lemma trimEnd_app s t :
  Js.isEmpty (Js.trimEnd t) = false -> Js.trimEnd (s ++ t) = s ++ Js.trimEnd t.
Proof.
  intros Ht. induction s as [|c s IH]; [reflexivity|].
  change (String c s ++ t) with (String c (s ++ t)).
  change (String c s ++ Js.trimEnd t) with (String c (s ++ Js.trimEnd t)).
  simpl. rewrite IH.
  assert (He : Js.isEmpty (s ++ Js.trimEnd t) = false).
  { destruct s; [exact Ht | reflexivity]. }
  rewrite He, andb_false_r. reflexivity.
Qed.

Lemma trimEnd_blank w : blank w -> Js.trimEnd w = "".
Proof.
  unfold blank. induction w as [|c w IH]; intros H; [reflexivity|].
  simpl in H. apply andb_true_iff in H as [Hc Hw].
  simpl. rewrite (IH Hw), Hc. reflexivity.
Qed.

Lemma trimEnd_blank_suffix s w : blank w -> Js.trimEnd (s ++ w) = Js.trimEnd s.
Proof.
  intros Hw. induction s as [|c s IH]; [apply trimEnd_blank, Hw|].
  change (String c s ++ w) with (String c (s ++ w)). simpl. rewrite IH. reflexivity.
Qed.

Lemma trimStart_blank_prefix w s : blank w -> Js.trimStart (w ++ s) = Js.trimStart s.
Proof.
  unfold blank. induction w as [|c w IH]; intros H; [reflexivity|].
  simpl in H. apply andb_true_iff in H as [Hc Hw].
  change (String c w ++ s) with (String c (w ++ s)). simpl. rewrite Hc. apply IH, Hw.
Qed.

Lemma token_is_trimmed t : isToken t -> Js.trimEnd t = t /\ Js.isEmpty (Js.trimEnd t) = false.
Proof.
  intros [Hne Ht]. rewrite (trimEnd_token t Ht). split; [reflexivity | exact Hne].
Qed.

Lemma trimEnd_interleave t0 rest :
  isToken t0 -> Forall (fun p => isSpaces p.1 /\ isToken p.2) rest ->
  Js.trimEnd (interleave t0 rest) = interleave t0 rest.
Proof.
  revert t0. induction rest as [|[sep tok] rest IH]; intros t0 Ht0 Hrest; simpl.
  - apply token_is_trimmed, Ht0.
  - apply Forall_cons in Hrest as [[_ Htok] Hrest]. simpl in Htok.
    pose proof (IH tok Htok Hrest) as Hx.
    destruct (interleave_head tok rest Htok) as (c & r & Hcr & _).
    assert (Hne : Js.isEmpty (Js.trimEnd (interleave tok rest)) = false).
    { rewrite Hx, Hcr. reflexivity. }
    assert (Hne' : Js.isEmpty (Js.trimEnd (sep ++ interleave tok rest)) = false).
    { rewrite (trimEnd_app sep _ Hne), Hx, Hcr. destruct sep; reflexivity. }
    rewrite (trimEnd_app t0 _ Hne'), (trimEnd_app sep _ Hne), Hx. reflexivity.
Qed.

(** Trimming takes the blanks around a line of tokens away and nothing
    else. *)
Lemma trim_padded w1 t0 rest w2 :
  blank w1 -> blank w2 ->
  isToken t0 -> Forall (fun p => isSpaces p.1 /\ isToken p.2) rest ->
  Js.trim (w1 ++ interleave t0 rest ++ w2) = interleave t0 rest.
Proof.
  intros H1 H2 Ht0 Hrest. unfold Js.trim.
  rewrite (trimStart_blank_prefix w1 _ H1).
  destruct (interleave_head t0 rest Ht0) as (c & r & Hcr & Hc).
  assert (Hs : Js.trimStart (interleave t0 rest ++ w2) = interleave t0 rest ++ w2).
  { rewrite Hcr. change (String c r ++ w2) with (String c (r ++ w2)).
    simpl. rewrite Hc. reflexivity. }
  rewrite Hs, (trimEnd_blank_suffix _ w2 H2). apply trimEnd_interleave; assumption.
Qed.

(** ** The line of [df] *)

Lemma removeFirst_suffix c s :
  allChars (fun d => negb (Ascii.eqb d c)) s = true ->
  Js.removeFirst c (s ++ String c "") = s.
Proof.
  induction s as [|d s IH]; intros H.
  - simpl. rewrite Ascii.eqb_refl. reflexivity.
  - simpl in H. apply andb_true_iff in H as [Hd Hs]. apply negb_true_iff in Hd.
    change (String d s ++ String c "") with (String d (s ++ String c "")).
    simpl. rewrite Hd, (IH Hs). reflexivity.
Qed.

Lemma megabytes_value u :
  digitRun u ->
  Parse.parseFloat (Js.removeFirst "M" (u ++ "M")) ≡ Num.ofZ (Parse.digitsVal u).
Proof.
  intros Hu. rewrite removeFirst_suffix.
  - pose proof (parseFloat_literal u "" Hu (or_introl eq_refl)) as H.
    unfold literal in H. simpl in H. rewrite H.
    unfold equiv, number_equiv, Num.eq, Num.ofZ, Parse.decimalVal. simpl.
    unfold Parse.pow10. simpl.
    change (Parse.digitsVal "") with 0%Z. change (inject_Z 0) with 0%Q.
    generalize (inject_Z (Parse.digitsVal u)). intros q. field.
  - destruct Hu as [_ Hd]. refine (allChars_impl _ _ u _ Hd). intros c Hc.
    destruct (digit_shape c Hc) as (_ & _ & _ & _ & _ & _ & ->). reflexivity.
Qed.

Lemma token_with_unit u : digitRun u -> isToken (u ++ "M").
Proof.
  intros Hu. destruct (digitRun_token u Hu) as [Hne Ht]. split.
  - destruct u; [discriminate | reflexivity].
  - rewrite allChars_app, Ht. reflexivity.
Qed.

Lemma digitVal_range c : Js.isDigit c = true -> (0 <= Parse.digitVal c <= 9)%Z.
Proof.
  intros H. destruct c as [[] [] [] [] [] [] [] []]; try discriminate H;
    vm_compute; split; discriminate.
Qed.

Lemma digits_fold_nonneg s acc :
  allChars Js.isDigit s = true -> (0 <= acc)%Z ->
  (0 <= fold_left (fun a c => 10 * a + Parse.digitVal c) (list_ascii_of_string s) acc)%Z.
Proof.
  revert acc. induction s as [|c s IH]; intros acc H Hacc; simpl; [exact Hacc|].
  simpl in H. apply andb_true_iff in H as [Hc Hs].
  apply IH; [exact Hs|]. pose proof (digitVal_range c Hc). lia.
Qed.

Lemma digitsVal_nonneg s : allChars Js.isDigit s = true -> (0 <= Parse.digitsVal s)%Z.
Proof. intros H. apply digits_fold_nonneg; [exact H | lia]. Qed.

Lemma megabytes_exact u :
  digitRun u ->
  Parse.parseFloat (Js.removeFirst "M" (u ++ "M")) = Fin (Parse.decimalVal u "").
Proof.
  intros Hu. rewrite removeFirst_suffix.
  - pose proof (parseFloat_literal u "" Hu (or_introl eq_refl)) as H.
    unfold literal in H. simpl in H. exact H.
  - destruct Hu as [_ Hd]. refine (allChars_impl _ _ u _ Hd). intros c Hc.
    destruct (digit_shape c Hc) as (_ & _ & _ & _ & _ & _ & ->). reflexivity.
Qed.

Lemma decimalVal_int u : (Parse.decimalVal u "" == inject_Z (Parse.digitsVal u))%Q.
Proof.
  unfold Parse.decimalVal, Parse.pow10. simpl.
  change (Parse.digitsVal "") with 0%Z. change (inject_Z 0) with 0%Q.
  generalize (inject_Z (Parse.digitsVal u)). intros q. field.
Qed.

Lemma df_columns cpuUsage h w1 fs rest w2 su used sa avail :
  blank w1 -> blank w2 -> isToken fs ->
  Forall (fun p => isSpaces p.1 /\ isToken p.2) rest ->
  dfOutput h = Some (dfText w1 fs rest w2) ->
  rest !! 1%nat = Some (su, used) -> rest !! 2%nat = Some (sa, avail) ->
  exists d, systemMetricsOf cpuUsage h = Some d /\
    sm_diskUsed d = Parse.parseFloat (Js.removeFirst "M" used) /\
    sm_diskFree d = Parse.parseFloat (Js.removeFirst "M" avail) /\
    sm_diskTotal d = Num.add (sm_diskUsed d) (sm_diskFree d) /\
    sm_diskUsagePercent d
    = orZero (Num.mul (Num.div (sm_diskUsed d) (sm_diskTotal d)) (Num.ofZ 100)) /\
    sm_ramUsed d = Num.div (Num.sub (totalmem h) (freemem h)) mega /\
    sm_ramFree d = Num.div (freemem h) mega /\
    sm_ramTotal d = Num.div (totalmem h) mega /\
    sm_ramUsagePercent d
    = orZero (Num.mul (Num.div (Num.sub (totalmem h) (freemem h)) (totalmem h))
                      (Num.ofZ 100)).
Proof.
  intros Hw1 Hw2 Hfs Hrest Hdf Hu Ha. unfold systemMetricsOf.
  rewrite Hdf. unfold dfText. simpl mbind. cbv beta.
  rewrite (trim_padded w1 fs rest w2 Hw1 Hw2 Hfs Hrest).
  rewrite (splitWs_interleave fs rest Hfs Hrest).
  change ((fs :: map snd rest) !! 2%nat) with (map snd rest !! 1%nat).
  change ((fs :: map snd rest) !! 3%nat) with (map snd rest !! 2%nat).
  rewrite !list_lookup_fmap, Hu, Ha. simpl.
  eexists. split; [reflexivity|]. simpl. split_and!; reflexivity.
Qed.

Lemma isZero_false q : Num.isZero q = false <-> ~ (q == 0)%Q.
Proof.
  unfold Num.isZero. rewrite <- Qeq_bool_iff. destruct (Qeq_bool q 0); split; congruence.
Qed.

Lemma isZero_true q : Num.isZero q = true <-> (q == 0)%Q.
Proof. unfold Num.isZero. apply Qeq_bool_iff. Qed.

(** The share of [p] in [p + q], in percent, for two amounts that are not
    negative. *)
Lemma share_percentage (p q : Q) :
  (0 <= p)%Q -> (0 <= q)%Q ->
  orZero (Num.mul (Num.div (Fin p) (Num.add (Fin p) (Fin q))) (Num.ofZ 100))
  ≡ (if Num.isZero (p + q) then Num.zero else Fin (p / (p + q) * 100)) /\
  percentage (orZero (Num.mul (Num.div (Fin p) (Num.add (Fin p) (Fin q))) (Num.ofZ 100))).
Proof.
  intros Hp Hq. unfold Num.add, Num.div.
  destruct (Num.isZero (p + q)) eqn:Hz.
  - apply isZero_true in Hz.
    assert (Hp0 : (p == 0)%Q) by lra.
    rewrite (proj2 (isZero_true p) Hp0). simpl. split; [reflexivity|].
    exists 0%Q. split; [reflexivity | lra].
  - apply isZero_false in Hz. simpl. split; [reflexivity|].
    eexists. split; [reflexivity|].
    assert (Hpos : (0 < p + q)%Q) by lra.
    change (inject_Z 100) with 100%Q.
    assert (H1 : (0 <= p / (p + q))%Q).
    { apply Qle_shift_div_l; [exact Hpos | lra]. }
    assert (H2 : (p / (p + q) <= 1)%Q).
    { apply Qle_shift_div_r; [exact Hpos | lra]. }
    lra.
Qed.

(** X17: when the output of [df] is a line of tokens with blanks around
    it, whose third and fourth tokens are digit runs followed by [M], the
    host sample is built and holds those two numbers as used and free
    space, their sum as the total and, as usage, the share of the used
    space in the total in percent, 0 when the total is 0; the usage lies
    between 0 and 100. *)
Theorem disk_usage_of_df_line (cpuUsage : number) (h : hostReading) (w1 fs w2 : string)
    (rest : list (string * string)) (su u sa a : string)
    (Hw1 : blank w1) (Hw2 : blank w2) (Hfs : isToken fs)
    (Hrest : Forall (fun p => isSpaces p.1 /\ isToken p.2) rest)
    (Hdf : dfOutput h = Some (dfText w1 fs rest w2))
    (Hused : rest !! 1%nat = Some (su, u ++ "M"))
    (Havail : rest !! 2%nat = Some (sa, a ++ "M"))
    (Hu : digitRun u) (Ha : digitRun a) :
  exists d, systemMetricsOf cpuUsage h = Some d /\
    sm_diskUsed d ≡ Num.ofZ (Parse.digitsVal u) /\
    sm_diskFree d ≡ Num.ofZ (Parse.digitsVal a) /\
    sm_diskTotal d ≡ Num.ofZ (Parse.digitsVal u + Parse.digitsVal a) /\
    sm_diskUsagePercent d
    ≡ (if (Parse.digitsVal u + Parse.digitsVal a =? 0)%Z then Num.zero
       else Fin (inject_Z (Parse.digitsVal u)
                 / inject_Z (Parse.digitsVal u + Parse.digitsVal a) * 100)) /\
    percentage (sm_diskUsagePercent d).
Proof.
  destruct (df_columns cpuUsage h w1 fs rest w2 su (u ++ "M") sa (a ++ "M")
              Hw1 Hw2 Hfs Hrest Hdf Hused Havail)
    as (d & Hd & Hdu & Hdf' & Hdt & Hdp & _).
  exists d. split; [exact Hd|].
  rewrite (megabytes_exact u Hu) in Hdu. rewrite (megabytes_exact a Ha) in Hdf'.
  rewrite Hdp, Hdt, Hdu, Hdf'.
  pose proof (decimalVal_int u) as Eu. pose proof (decimalVal_int a) as Ea.
  pose proof (digitsVal_nonneg u (proj2 Hu)) as Pu.
  pose proof (digitsVal_nonneg a (proj2 Ha)) as Pa.
  set (qu := Parse.decimalVal u "") in *. set (qa := Parse.decimalVal a "") in *.
  set (U := Parse.digitsVal u) in *. set (A := Parse.digitsVal a) in *.
  assert (Hqu : (0 <= qu)%Q).
  { rewrite Eu. change 0%Q with (inject_Z 0). rewrite <- Zle_Qle. exact Pu. }
  assert (Hqa : (0 <= qa)%Q).
  { rewrite Ea. change 0%Q with (inject_Z 0). rewrite <- Zle_Qle. exact Pa. }
  destruct (share_percentage qu qa Hqu Hqa) as [Hshare Hperc].
  set (pct := orZero (Num.mul (Num.div (Fin qu) (Num.add (Fin qu) (Fin qa)))
                              (Num.ofZ 100))) in *.
  split_and!.
  - exact Eu.
  - exact Ea.
  - unfold equiv, number_equiv, Num.eq, Num.add, Num.ofZ.
    rewrite inject_Z_plus, Eu, Ea. reflexivity.
  - unfold equiv, number_equiv in *.
    destruct (Z.eqb_spec (U + A) 0) as [Hz | Hz].
    + assert (Hz' : Num.isZero (qu + qa) = true).
      { apply isZero_true. rewrite Eu, Ea, <- inject_Z_plus, Hz. reflexivity. }
      rewrite Hz' in Hshare. exact Hshare.
    + assert (Hz' : Num.isZero (qu + qa) = false).
      { apply isZero_false. rewrite Eu, Ea, <- inject_Z_plus.
        change 0%Q with (inject_Z 0). rewrite inject_Z_injective. exact Hz. }
      rewrite Hz' in Hshare.
      destruct pct as [| |x]; try contradiction.
      change (x == qu / (qu + qa) * 100)%Q in Hshare.
      change (x == inject_Z U / inject_Z (U + A) * 100)%Q.
      rewrite Hshare, inject_Z_plus, Eu, Ea. reflexivity.
  - exact Hperc.
Qed.

Lemma disk_usage_of_df_line_witness :
  exists d, systemMetricsOf (Fin 12) sampleHost = Some d /\
    sm_diskUsed d ≡ Num.ofZ 20000 /\ sm_diskFree d ≡ Num.ofZ 30000.
Proof.
  destruct (disk_usage_of_df_line (Fin 12) sampleHost "" "/dev/sda1" (String "010" "")
              [("        ", "50000M"); (" ", "20000M"); ("  ", "30000M");
               ("  ", "40%"); (" ", "/")]
              " " "20000" "  " "30000"
              ltac:(reflexivity) ltac:(reflexivity) ltac:(split; reflexivity)
              ltac:(repeat constructor) ltac:(reflexivity)
              ltac:(reflexivity) ltac:(reflexivity)
              ltac:(split; reflexivity) ltac:(split; reflexivity))
    as (d & Hd & Hu & Hf & _).
  exists d. split; [exact Hd | split; [exact Hu | exact Hf]].
Defined.

Lemma systemMetricsOf_ram cpuUsage h d :
  systemMetricsOf cpuUsage h = Some d ->
  sm_ramUsed d = Num.div (Num.sub (totalmem h) (freemem h)) mega /\
  sm_ramFree d = Num.div (freemem h) mega /\
  sm_ramTotal d = Num.div (totalmem h) mega /\
  sm_ramUsagePercent d
  = orZero (Num.mul (Num.div (Num.sub (totalmem h) (freemem h)) (totalmem h))
                    (Num.ofZ 100)).
Proof.
  unfold systemMetricsOf. intros H.
  destruct (dfOutput h) as [out|]; [|discriminate]. simpl in H.
  destruct (Js.splitWs (Js.trim out) !! 2%nat); [|discriminate]. simpl in H.
  destruct (Js.splitWs (Js.trim out) !! 3%nat); [|discriminate]. simpl in H.
  injection H as <-. simpl. split_and!; reflexivity.
Qed.

Lemma div_mega p : Num.div (Fin p) mega = Fin (p / inject_Z (1024 * 1024)).
Proof. reflexivity. Qed.

(** X18: when the total memory is positive and the free memory lies
    between 0 and the total, the used and the free memory of the host
    sample add up to its total, and the usage is
    (total - free) / total x 100, a number between 0 and 100. *)
Theorem memory_figures_consistent (cpuUsage : number) (h : hostReading)
    (d : systemMetricsData) (t f : Q)
    (Htotal : totalmem h = Fin t) (Hfree : freemem h = Fin f)
    (Hpos : (0 < t)%Q) (Hrange : (0 <= f <= t)%Q)
    (Hd : systemMetricsOf cpuUsage h = Some d) :
  Num.add (sm_ramUsed d) (sm_ramFree d) ≡ sm_ramTotal d /\
  sm_ramUsagePercent d ≡ Fin ((t - f) / t * 100) /\
  percentage (sm_ramUsagePercent d).
Proof.
  destruct (systemMetricsOf_ram cpuUsage h d Hd) as (Hu & Hf & Ht & Hp).
  rewrite Hu, Hf, Ht, Hp, Htotal, Hfree.
  unfold Num.sub, Num.neg, Num.add. rewrite !div_mega.
  assert (Hz : Num.isZero t = false) by (apply isZero_false; lra).
  unfold Num.div. rewrite Hz. simpl.
  assert (Hq : (0 <= (t + - f) / t <= 1)%Q).
  { split; [apply Qle_shift_div_l | apply Qle_shift_div_r]; lra. }
  change (orZero (Fin ((t + - f) / t * inject_Z 100)))
    with (Fin ((t + - f) / t * 100)).
  unfold equiv, number_equiv, Num.eq. split_and!.
  - constants. field.
  - field. lra.
  - eexists. split; [reflexivity|]. lra.
Qed.

Lemma memory_figures_consistent_witness :
  exists d, systemMetricsOf (Fin 12) sampleHost = Some d /\
            sm_ramUsagePercent d ≡ Fin ((8589934592 - 6442450944) / 8589934592 * 100).
Proof.
  destruct (systemMetricsOf (Fin 12) sampleHost) as [d|] eqn:Hd;
    [|vm_compute in Hd; discriminate Hd].
  exists d. split; [reflexivity|].
  refine (proj1 (proj2 (memory_figures_consistent (Fin 12) sampleHost d
                          8589934592 6442450944 _ _ _ _ Hd))).
  - reflexivity.
  - reflexivity.
  - reflexivity.
  - split; discriminate.
Defined.

(** ** Network totals *)

Lemma orFalsy_ofZ z : orFalsy (Num.ofZ z) = Num.ofZ z.
Proof.
  unfold orFalsy, Num.ofZ. destruct (Num.isZero (inject_Z z)) eqn:Hz; [|reflexivity].
  apply isZero_true in Hz. unfold Qeq in Hz. simpl in Hz.
  rewrite Z.mul_1_r in Hz. subst z. reflexivity.
Qed.

Lemma add_ofZ a b : Num.add (Num.ofZ a) (Num.ofZ b) = Num.ofZ (a + b).
Proof.
  unfold Num.add, Num.ofZ, inject_Z, Qplus. simpl. rewrite !Z.mul_1_r. reflexivity.
Qed.

Lemma parseInt_integer s : Parse.parseInt s = NaN \/ exists z, Parse.parseInt s = Num.ofZ z.
Proof.
  unfold Parse.parseInt.
  destruct (Parse.takeSign (Js.trimStart s)) as [sg s1].
  destruct s1 as [|c r].
  - simpl. left. reflexivity.
  - assert (Hgen : (let '(ds, _) := Js.span Js.isDigit (String c r) in
                    if Js.isEmpty ds then NaN
                    else Num.ofZ (if sg then - Parse.digitsVal ds else Parse.digitsVal ds))
                   = NaN \/
                   exists z, (let '(ds, _) := Js.span Js.isDigit (String c r) in
                    if Js.isEmpty ds then NaN
                    else Num.ofZ (if sg then - Parse.digitsVal ds else Parse.digitsVal ds))
                   = Num.ofZ z).
    { destruct (Js.span Js.isDigit (String c r)) as [ds rest].
      destruct (Js.isEmpty ds); [left; reflexivity | right; eauto]. }
    destruct c as [[] [] [] [] [] [] [] []]; try exact Hgen.
    destruct r as [|x r']; [exact Hgen|].
    destruct (Ascii.eqb x "x" || Ascii.eqb x "X").
    + destruct (Js.span Parse.isHex r') as [ds rest].
      destruct (Js.isEmpty ds); [left; reflexivity | right; eauto].
    + destruct (Js.span Js.isDigit (String "0" (String x r'))) as [ds rest].
      right. eauto.
Qed.

Lemma orFalsy_parseIntAt cols i : exists z, orFalsy (parseIntAt cols i) = Num.ofZ z.
Proof.
  unfold parseIntAt. destruct (cols !! i) as [s|]; [|exists 0%Z; reflexivity].
  destruct (parseInt_integer s) as [-> | [z ->]].
  - exists 0%Z. reflexivity.
  - exists z. apply orFalsy_ofZ.
Qed.

Lemma netDevLine_integer a b raw :
  exists a' b', netDevLine (Num.ofZ a, Num.ofZ b) raw = Some (Num.ofZ a', Num.ofZ b').
Proof.
  unfold netDevLine. destruct (Js.isEmpty (Js.trim raw)); [eauto|].
  destruct (16 <? length (Js.splitWs (Js.trim raw)))%nat; [|eauto].
  pose proof (splitWs_from_nonempty false (Js.trim raw)) as Hne.
  unfold Js.splitWs.
  destruct (Js.splitWs_from false (Js.trim raw)) as [|name cols] eqn:Hcols;
    [contradiction|].
  cbn -[Num.add Num.ofZ orFalsy parseIntAt Js.includes].
  destruct (Js.includes "lo:" name); [eauto|].
  destruct (orFalsy_parseIntAt (name :: cols) 1) as [z1 ->].
  destruct (orFalsy_parseIntAt (name :: cols) 9) as [z9 ->].
  rewrite !add_ofZ. eauto.
Qed.

Lemma netDev_fold_integer lines a b :
  exists a' b',
    fold_left (fun acc raw => acc ≫= fun totals => netDevLine totals raw) lines
              (Some (Num.ofZ a, Num.ofZ b))
    = Some (Num.ofZ a', Num.ofZ b').
Proof.
  revert a b. induction lines as [|raw lines IH]; intros a b; simpl; [eauto|].
  destruct (netDevLine_integer a b raw) as (a' & b' & ->). apply IH.
Qed.

Lemma trimStart_length s : (String.length (Js.trimStart s) <= String.length s)%nat.
Proof.
  induction s as [|c s IH]; simpl; [lia|].
  destruct (Js.isWhiteSpace c); simpl; lia.
Qed.

Lemma takeSign_length s sg s1 :
  Parse.takeSign s = (sg, s1) -> (String.length s1 <= String.length s)%nat.
Proof.
  destruct s as [|c r]; simpl.
  - intros H. injection H as _ <-. simpl. lia.
  - destruct (Ascii.eqb_spec c "+") as [->|Hp].
    { intros H. injection H as _ <-. simpl. lia. }
    destruct (Ascii.eqb_spec c "-") as [->|Hm].
    { intros H. injection H as _ <-. simpl. lia. }
    intros H.
    assert (E : Parse.takeSign (String c r) = (false, String c r)).
    { destruct c as [[] [] [] [] [] [] [] []]; try reflexivity; congruence. }
    unfold Parse.takeSign in E. rewrite E in H. injection H as _ <-. simpl. lia.
Qed.

Lemma span_prefix p s :
  allChars p (Js.span p s).1 = true /\
  (String.length (Js.span p s).1 <= String.length s)%nat.
Proof.
  induction s as [|c s [IH1 IH2]]; simpl; [split; [reflexivity | lia]|].
  destruct (p c) eqn:Hc; [|simpl; split; [reflexivity | lia]].
  destruct (Js.span p s) as [a b]. simpl in *. rewrite Hc, IH1. split; [reflexivity | lia].
Qed.

Lemma digits_fold_bound s acc :
  allChars Js.isDigit s = true -> (0 <= acc)%Z ->
  (fold_left (fun a c => 10 * a + Parse.digitVal c) (list_ascii_of_string s) acc + 1
   <= (acc + 1) * 10 ^ Z.of_nat (String.length s))%Z.
Proof.
  revert acc. induction s as [|c s IH]; intros acc H Hacc.
  - simpl. lia.
  - simpl in H. apply andb_true_iff in H as [Hc Hs].
    pose proof (digitVal_range c Hc) as Hd.
    change (String.length (String c s)) with (S (String.length s)).
    rewrite Nat2Z.inj_succ, Z.pow_succ_r by lia.
    simpl fold_left.
    etransitivity; [apply IH; [exact Hs | lia]|].
    assert (Hpow : (0 < 10 ^ Z.of_nat (String.length s))%Z)
      by (apply Z.pow_pos_nonneg; lia).
    nia.
Qed.

Lemma hexVal_range c : (0 <= default 0 (Parse.hexVal c) <= 15)%Z.
Proof.
  unfold Parse.hexVal.
  destruct ((48 <=? Js.code c)%N && (Js.code c <=? 57)%N) eqn:H1.
  { apply andb_true_iff in H1 as [Ha Hb].
    apply N.leb_le in Ha. apply N.leb_le in Hb. simpl. lia. }
  destruct ((97 <=? Js.code c)%N && (Js.code c <=? 102)%N) eqn:H2.
  { apply andb_true_iff in H2 as [Ha Hb].
    apply N.leb_le in Ha. apply N.leb_le in Hb. simpl. lia. }
  destruct ((65 <=? Js.code c)%N && (Js.code c <=? 70)%N) eqn:H3.
  { apply andb_true_iff in H3 as [Ha Hb].
    apply N.leb_le in Ha. apply N.leb_le in Hb. simpl. lia. }
  simpl. lia.
Qed.

Lemma hex_fold_bound s acc :
  (0 <= acc)%Z ->
  (0 <= fold_left (fun a c => 16 * a + default 0 (Parse.hexVal c))
          (list_ascii_of_string s) acc)%Z /\
  (fold_left (fun a c => 16 * a + default 0 (Parse.hexVal c))
     (list_ascii_of_string s) acc + 1
   <= (acc + 1) * 16 ^ Z.of_nat (String.length s))%Z.
Proof.
  revert acc. induction s as [|c s IH]; intros acc Hacc.
  - simpl. lia.
  - pose proof (hexVal_range c) as Hd.
    change (String.length (String c s)) with (S (String.length s)).
    rewrite Nat2Z.inj_succ, Z.pow_succ_r by lia.
    simpl fold_left.
    destruct (IH (16 * acc + default 0 (Parse.hexVal c))%Z ltac:(lia)) as [H0 H1].
    split; [exact H0|].
    assert (Hpow : (0 < 16 ^ Z.of_nat (String.length s))%Z)
      by (apply Z.pow_pos_nonneg; lia).
    nia.
Qed.

(** A run of at most 15 decimal digits, or of at most 13 hexadecimal
    digits, is below 2^53. *)
Lemma digitsVal_short ds :
  allChars Js.isDigit ds = true -> (String.length ds <= 15)%nat ->
  (0 <= Parse.digitsVal ds <= 2 ^ 53)%Z.
Proof.
  intros Hd Hlen. split; [apply digitsVal_nonneg, Hd|].
  pose proof (digits_fold_bound ds 0 Hd ltac:(lia)) as H. fold (Parse.digitsVal ds) in H.
  assert (Hp : (10 ^ Z.of_nat (String.length ds) <= 10 ^ 15)%Z)
    by (apply Z.pow_le_mono_r; lia).
  assert (Hc : (10 ^ 15 <= 2 ^ 53)%Z) by (vm_compute; discriminate).
  lia.
Qed.

Lemma hexDigitsVal_short ds :
  (String.length ds <= 13)%nat -> (0 <= Parse.hexDigitsVal ds <= 2 ^ 53)%Z.
Proof.
  intros Hlen. destruct (hex_fold_bound ds 0 ltac:(lia)) as [H0 H1].
  fold (Parse.hexDigitsVal ds) in H0, H1. split; [exact H0|].
  assert (Hp : (16 ^ Z.of_nat (String.length ds) <= 16 ^ 13)%Z)
    by (apply Z.pow_le_mono_r; lia).
  assert (Hc : (16 ^ 13 <= 2 ^ 53)%Z) by (vm_compute; discriminate).
  lia.
Qed.

Lemma parseInt_short s :
  (String.length s <= 15)%nat ->
  Parse.parseInt s = NaN \/
  exists z, Parse.parseInt s = Num.ofZ z /\ (Z.abs z <= 2 ^ 53)%Z.
Proof.
  intros Hlen. unfold Parse.parseInt.
  pose proof (trimStart_length s) as Ht.
  destruct (Parse.takeSign (Js.trimStart s)) as [sg s1] eqn:Hts.
  apply takeSign_length in Hts.
  assert (Hs1 : (String.length s1 <= 15)%nat) by lia. clear Ht Hts Hlen.
  assert (Hdec : forall ds, allChars Js.isDigit ds = true ->
            (String.length ds <= 15)%nat ->
            exists z, Num.ofZ (if sg then - Parse.digitsVal ds else Parse.digitsVal ds) = Num.ofZ z
                      /\ (Z.abs z <= 2 ^ 53)%Z).
  { intros ds Hd Hl. eexists. split; [reflexivity|].
    pose proof (digitsVal_short ds Hd Hl). destruct sg; lia. }
  destruct s1 as [|c r].
  - simpl. left. reflexivity.
  - pose proof (span_prefix Js.isDigit (String c r)) as [Hp1 Hp2].
    change (String.length (String c r)) with (S (String.length r)) in Hs1, Hp2.
    assert (Hgen : (let '(ds, _) := Js.span Js.isDigit (String c r) in
                    if Js.isEmpty ds then NaN
                    else Num.ofZ (if sg then - Parse.digitsVal ds else Parse.digitsVal ds))
                   = NaN \/
                   exists z, (let '(ds, _) := Js.span Js.isDigit (String c r) in
                    if Js.isEmpty ds then NaN
                    else Num.ofZ (if sg then - Parse.digitsVal ds else Parse.digitsVal ds))
                   = Num.ofZ z /\ (Z.abs z <= 2 ^ 53)%Z).
    { destruct (Js.span Js.isDigit (String c r)) as [ds rest].
      cbn [fst] in Hp1, Hp2.
      destruct (Js.isEmpty ds); [left; reflexivity|].
      right. apply Hdec; [exact Hp1 | lia]. }
    destruct c as [[] [] [] [] [] [] [] []]; try exact Hgen.
    destruct r as [|x r']; [exact Hgen|].
    destruct (Ascii.eqb x "x" || Ascii.eqb x "X").
    + pose proof (span_prefix Parse.isHex r') as [_ Hh].
      destruct (Js.span Parse.isHex r') as [ds rest]. simpl in Hh.
      destruct (Js.isEmpty ds); [left; reflexivity|].
      right. eexists. split; [reflexivity|].
      change (String.length (String x r')) with (S (String.length r')) in Hs1.
      pose proof (hexDigitsVal_short ds ltac:(lia)). destruct sg; lia.
    + destruct (Js.span Js.isDigit (String "0" (String x r'))) as [ds rest].
      cbn [fst] in Hp1, Hp2. right. apply Hdec; [exact Hp1 | lia].
Qed.

Lemma orFalsy_parseIntAt_short cols i :
  Forall (fun tok => (String.length tok <= 15)%nat) cols ->
  exists z, orFalsy (parseIntAt cols i) = Num.ofZ z /\ (Z.abs z <= 2 ^ 53)%Z.
Proof.
  intros Hshort. unfold parseIntAt.
  destruct (cols !! i) as [s|] eqn:Hs; [|exists 0%Z; split; [reflexivity | lia]].
  eapply Forall_lookup_1 in Hshort; [|exact Hs].
  destruct (parseInt_short s Hshort) as [-> | (z & -> & Hz)].
  - exists 0%Z. split; [reflexivity | lia].
  - exists z. split; [apply orFalsy_ofZ | exact Hz].
Qed.

Lemma within_succ n z : within n z -> within (S n) z.
Proof. unfold within. intros H. lia. Qed.

Lemma within_add n a z : within n a -> (Z.abs z <= 2 ^ 53)%Z -> within (S n) (a + z).
Proof. unfold within. intros Ha Hz. lia. Qed.

Lemma netDevLine_short n a b raw :
  Forall (fun tok => (String.length tok <= 15)%nat) (Js.splitWs (Js.trim raw)) ->
  within n a -> within n b ->
  exists a' b',
    netDevLine (Num.ofZ a, Num.ofZ b) raw = Some (Num.ofZ a', Num.ofZ b') /\
    within (S n) a' /\ within (S n) b'.
Proof.
  intros Hshort Ha Hb. unfold netDevLine.
  destruct (Js.isEmpty (Js.trim raw));
    [exists a, b; split_and!; [reflexivity | apply within_succ, Ha | apply within_succ, Hb]|].
  destruct (16 <? length (Js.splitWs (Js.trim raw)))%nat;
    [|exists a, b; split_and!; [reflexivity | apply within_succ, Ha | apply within_succ, Hb]].
  pose proof (splitWs_from_nonempty false (Js.trim raw)) as Hne.
  unfold Js.splitWs in *.
  destruct (Js.splitWs_from false (Js.trim raw)) as [|name cols] eqn:Hcols;
    [contradiction|].
  cbn -[Num.add Num.ofZ orFalsy parseIntAt Js.includes].
  destruct (Js.includes "lo:" name);
    [exists a, b; split_and!; [reflexivity | apply within_succ, Ha | apply within_succ, Hb]|].
  destruct (orFalsy_parseIntAt_short (name :: cols) 1 Hshort) as (z1 & -> & H1).
  destruct (orFalsy_parseIntAt_short (name :: cols) 9 Hshort) as (z9 & -> & H9).
  rewrite !add_ofZ. exists (a + z1)%Z, (b + z9)%Z.
  split_and!; [reflexivity | apply within_add; assumption | apply within_add; assumption].
Qed.

Lemma netDev_fold_short lines n a b :
  Forall (fun raw => Forall (fun tok => (String.length tok <= 15)%nat)
                            (Js.splitWs (Js.trim raw))) lines ->
  within n a -> within n b ->
  exists a' b',
    fold_left (fun acc raw => acc ≫= fun totals => netDevLine totals raw) lines
              (Some (Num.ofZ a, Num.ofZ b))
    = Some (Num.ofZ a', Num.ofZ b') /\
    within (n + length lines) a' /\ within (n + length lines) b'.
Proof.
  intros H. revert n a b. induction H as [|raw lines Hraw _ IH]; intros n a b Ha Hb.
  - exists a, b. simpl. rewrite Nat.add_0_r. split_and!; [reflexivity | exact Ha | exact Hb].
  - destruct (netDevLine_short n a b raw Hraw Ha Hb) as (a1 & b1 & E & Ha1 & Hb1).
    destruct (IH (S n) a1 b1 Ha1 Hb1) as (a' & b' & E' & Ha' & Hb').
    exists a', b'. simpl fold_left.
    change (Some (Num.ofZ a, Num.ofZ b) ≫= (fun totals => netDevLine totals raw))
      with (netDevLine (Num.ofZ a, Num.ofZ b) raw).
    rewrite E, E'. simpl length.
    replace (n + S (length lines))%nat with (S n + length lines)%nat by lia.
    split_and!; [reflexivity | exact Ha' | exact Hb'].
Qed.

(** X19: the loop over [/proc/net/dev] never throws, whatever the text
    is, so the estimate of the [catch] is not used once the file has been
    read.  When no token of the lines it reads has more than 15
    characters, every number it reads is at most 2^53 in absolute value,
    and it leaves two integers, each at most 2^53 times the number of
    lines read in absolute value. *)
Theorem network_totals_are_integers (text : string) (estimate : number * number)
    (Hshort : shortTokens text) :
  (exists zin zout,
     netDevTotals text = Some (Num.ofZ zin, Num.ofZ zout) /\
     networkTotals (Some text) estimate = (Num.ofZ zin, Num.ofZ zout) /\
     within (length (drop 2 (Js.split "010" text))) zin /\
     within (length (drop 2 (Js.split "010" text))) zout) /\
  (forall other, is_Some (netDevTotals other)).
Proof.
  split.
  - destruct (netDev_fold_short (drop 2 (Js.split "010" text)) 0 0 0 Hshort)
      as (zin & zout & H & Hin & Hout); [unfold within; lia | unfold within; lia|].
    exists zin, zout. unfold networkTotals, netDevTotals. simpl.
    change (Num.zero, Num.zero) with (Num.ofZ 0, Num.ofZ 0).
    rewrite H. split_and!; [reflexivity | reflexivity | exact Hin | exact Hout].
  - intros other.
    destruct (netDev_fold_integer (drop 2 (Js.split "010" other)) 0 0) as (zin & zout & H).
    unfold netDevTotals. change (Num.zero, Num.zero) with (Num.ofZ 0, Num.ofZ 0).
    rewrite H. eauto.
Qed.

Lemma shortTokens_dec_ok text :
  forallb (fun raw => forallb (fun tok => (String.length tok <=? 15)%nat)
                              (Js.splitWs (Js.trim raw)))
          (drop 2 (Js.split "010" text)) = true ->
  shortTokens text.
Proof.
  intros H. unfold shortTokens. apply Forall_forall. intros raw Hraw.
  rewrite forallb_forall in H. specialize (H raw (proj1 (list_elem_of_In _ _) Hraw)).
  apply Forall_forall. intros tok Htok.
  rewrite forallb_forall in H. specialize (H tok (proj1 (list_elem_of_In _ _) Htok)).
  apply Nat.leb_le, H.
Qed.

Lemma network_totals_are_integers_witness :
  exists zin zout,
    netDevTotals (netDevText "Inter-|   Receive" " face |bytes" sampleTable)
    = Some (Num.ofZ zin, Num.ofZ zout) /\
    within 4 zin /\ within 4 zout.
Proof.
  assert (Hshort : shortTokens (netDevText "Inter-|   Receive" " face |bytes" sampleTable))
    by (apply shortTokens_dec_ok; vm_compute; reflexivity).
  destruct (proj1 (network_totals_are_integers
                     (netDevText "Inter-|   Receive" " face |bytes" sampleTable)
                     (Fin 0, Fin 0) Hshort))
    as (zin & zout & H & _ & Hin & Hout).
  exists zin, zout. split_and!; [exact H | exact Hin | exact Hout].
Defined.

Lemma netRowLine_one_line r : tableRow r -> oneLine (netRowLine r).
Proof.
  intros (Hpad & Hname & Hfields & _). unfold oneLine, netRowLine.
  rewrite allChars_app.
  rewrite (interleave_one_line _ _ Hname (counters_tokens _ Hfields)), andb_true_r.
  refine (allChars_impl _ _ _ _ Hpad). intros c Hc.
  apply Ascii.eqb_eq in Hc. subst c. reflexivity.
Qed.

Lemma netDevLine_row a b r :
  tableRow r ->
  netDevLine (Num.ofZ a, Num.ofZ b) (netRowLine r)
  = Some (Num.ofZ (a + (if Js.includes "lo:" (nr_name r) then 0
                        else counterZ (nr_fields r) 0)),
          Num.ofZ (b + (if Js.includes "lo:" (nr_name r) then 0
                        else counterZ (nr_fields r) 8))).
Proof.
  intros (Hpad & Hname & Hfields & Hlen). unfold netDevLine, netRowLine.
  assert (Hblank : blank (nr_pad r)).
  { refine (allChars_impl _ _ _ space_is_white Hpad). }
  pose proof (trim_padded (nr_pad r) (nr_name r) (nr_fields r) ""
                Hblank eq_refl Hname (counters_tokens _ Hfields)) as Ht.
  rewrite append_empty_r in Ht. rewrite Ht.
  destruct (interleave_head (nr_name r) (nr_fields r) Hname) as (c & s & Hcs & _).
  assert (Hne : Js.isEmpty (interleave (nr_name r) (nr_fields r)) = false)
    by (rewrite Hcs; reflexivity).
  rewrite Hne.
  rewrite (splitWs_interleave _ _ Hname (counters_tokens _ Hfields)).
  assert (Hl : (16 <? length (nr_name r :: map snd (nr_fields r)))%nat = true).
  { apply Nat.ltb_lt. simpl. rewrite length_map. lia. }
  rewrite Hl.
  change ((nr_name r :: map snd (nr_fields r)) !! 0%nat) with (Some (nr_name r)).
  cbn -[Num.add Num.ofZ orFalsy parseIntAt Js.includes Z.add].
  destruct (Js.includes "lo:" (nr_name r)).
  - rewrite !Z.add_0_r. reflexivity.
  - rewrite !(parseIntAt_counter _ _ _ Hfields).
    unfold counterZ.
    destruct (lookup_lt_is_Some_2 (nr_fields r) 0) as [p0 ->]; [lia|].
    destruct (lookup_lt_is_Some_2 (nr_fields r) 8) as [p8 ->]; [lia|].
    rewrite !orFalsy_ofZ, !add_ofZ. reflexivity.
Qed.

Lemma netDev_fold_rows rows a b :
  Forall tableRow rows ->
  fold_left (fun acc raw => acc ≫= fun totals => netDevLine totals raw)
            (map netRowLine rows ++ [""])%list (Some (Num.ofZ a, Num.ofZ b))
  = Some (Num.ofZ (a + counted 0 rows), Num.ofZ (b + counted 8 rows)).
Proof.
  intros H. revert a b. induction H as [|r rows Hr _ IH]; intros a b.
  - simpl. rewrite !Z.add_0_r. reflexivity.
  - change (map netRowLine (r :: rows) ++ [""])%list
      with (netRowLine r :: (map netRowLine rows ++ [""]))%list.
    cbn [fold_left]. 
    change (Some (Num.ofZ a, Num.ofZ b) ≫= (fun totals => netDevLine totals (netRowLine r)))
      with (netDevLine (Num.ofZ a, Num.ofZ b) (netRowLine r)).
    rewrite (netDevLine_row a b r Hr), IH. cbn [counted].
    rewrite !Z.add_assoc. reflexivity.
Qed.

(** X20: on a well-formed interface table the loop adds up the received
    bytes (counter 1) and the sent bytes (counter 9) of the interfaces
    whose name does not contain [lo:]; the two header lines are not
    read. *)
Theorem network_totals_of_table (h1 h2 : string) (rows : list netRow)
    (Hh1 : oneLine h1) (Hh2 : oneLine h2) (Hrows : Forall tableRow rows) :
  netDevTotals (netDevText h1 h2 rows)
  = Some (Num.ofZ (counted 0 rows), Num.ofZ (counted 8 rows)).
Proof.
  unfold netDevTotals, netDevText. rewrite split_joinWith.
  - change (drop 2 (h1 :: h2 :: map netRowLine rows ++ [""]))%list
      with (map netRowLine rows ++ [""])%list.
    change (Num.zero, Num.zero) with (Num.ofZ 0, Num.ofZ 0).
    rewrite (netDev_fold_rows rows 0 0 Hrows). reflexivity.
  - discriminate.
  - repeat (apply Forall_cons; split; [assumption|]).
    apply Forall_app. split.
    + apply Forall_forall. intros l Hl.
      apply list_elem_of_In, in_map_iff in Hl as (r & <- & Hr).
      apply netRowLine_one_line. rewrite Forall_forall in Hrows.
      apply Hrows, list_elem_of_In, Hr.
    + apply Forall_cons. split; [reflexivity | apply Forall_nil; exact I].
Qed.

Lemma tableRow_dec_ok r :
  allChars (fun c => Ascii.eqb c " ") (nr_pad r)
  && negb (Js.isEmpty (nr_name r))
  && allChars (fun c => negb (Js.isWhiteSpace c)) (nr_name r)
  && forallb (fun p => negb (Js.isEmpty p.1) && allChars (fun c => Ascii.eqb c " ") p.1
                       && negb (Js.isEmpty p.2) && allChars Js.isDigit p.2) (nr_fields r)
  && (16 <=? length (nr_fields r))%nat = true ->
  tableRow r.
Proof.
  intros H. repeat (apply andb_true_iff in H as [H ?]).
  match goal with Hx : negb (Js.isEmpty (nr_name r)) = true |- _ =>
    apply negb_true_iff in Hx end.
  split_and!; try assumption.
  - split; assumption.
  - apply counters_dec_ok. assumption.
  - apply Nat.leb_le. assumption.
Qed.

Lemma network_totals_of_table_witness :
  netDevTotals (netDevText "Inter-|   Receive" " face |bytes" sampleTable)
  = Some (Num.ofZ 2000, Num.ofZ 400).
Proof.
  apply (network_totals_of_table "Inter-|   Receive" " face |bytes" sampleTable).
  - reflexivity.
  - reflexivity.
  - repeat (apply Forall_cons; split; [apply tableRow_dec_ok; reflexivity|]).
    apply Forall_nil. exact I.
Defined.

(** ** Retention: the estimate and the sweep *)

Lemma count_none_left {A} (p : A -> bool) (l : list A) :
  count p (List.filter (fun x => negb (p x)) l) = 0%nat.
Proof.
  unfold count. induction l as [|x l IH]; simpl; [reflexivity|].
  destruct (p x) eqn:Hp; simpl; [exact IH|]. rewrite Hp. exact IH.
Qed.

Lemma length_filter_negb {A} (p : A -> bool) (l : list A) :
  length (List.filter (fun x => negb (p x)) l) = (length l - count p l)%nat.
Proof.
  pose proof (count_filter_negb p l). unfold count in *. lia.
Qed.

(** X21: when the clocks have not changed in the 30 days before the
    request, the estimate of the cleanup statistics is what the sweep
    with the default retention reports and does at the same instant: its
    three counts are the counts of the sweep, which a dry run reports as
    well without changing the store; the totals after the sweep are the
    totals before minus the estimate, and nothing is left to delete.  The
    statistics take 30 days of 24 hours, the sweep 30 calendar days. *)
Theorem cleanup_estimate_matches_sweep (z : zone) (now : time) (st : store)
    (Hsteady : steadyOffset z now 30) :
  let before := Cleanup.GET now st in
  let run := POST z now None None st in
  let dry := POST z now None (Some true) st in
  let after := Cleanup.GET now run.1 in
  Cleanup.lastCleanup before = cutoffDate z now 30 /\
  Cleanup.metricsToDelete before = metricsDeleted run.2 /\
  Cleanup.alertsToDelete before = alertsDeleted run.2 /\
  Cleanup.scansToDelete before = scansDeleted run.2 /\
  Cleanup.totalToDelete before
  = (metricsDeleted run.2 + alertsDeleted run.2 + scansDeleted run.2)%nat /\
  dry = (st, run.2) /\
  Cleanup.totalMetrics after
  = (Cleanup.totalMetrics before - Cleanup.oldMetrics before)%nat /\
  Cleanup.totalAlerts after
  = (Cleanup.totalAlerts before - Cleanup.oldAlerts before)%nat /\
  Cleanup.totalScans after
  = (Cleanup.totalScans before - Cleanup.oldScans before)%nat /\
  Cleanup.totalToDelete after = 0%nat.
Proof.
  assert (Hcut : (now - 30 * 24 * 60 * 60 * 1000)%Z = cutoffDate z now 30).
  { rewrite (cutoffDate_steady z now 30 Hsteady). unfold msPerDay. lia. }
  unfold Cleanup.GET, POST. simpl default. cbv zeta. rewrite !Hcut.
  cbn [negb fst snd Cleanup.metricsToDelete Cleanup.alertsToDelete
       Cleanup.scansToDelete Cleanup.totalToDelete Cleanup.totalMetrics
       Cleanup.totalAlerts Cleanup.totalScans Cleanup.oldMetrics Cleanup.oldAlerts
       Cleanup.oldScans Cleanup.lastCleanup metricsDeleted alertsDeleted scansDeleted
       containerMetrics alerts scans].
  split_and!; try reflexivity.
  - apply length_filter_negb.
  - apply length_filter_negb.
  - apply length_filter_negb.
  - rewrite !count_none_left. reflexivity.
Qed.

Lemma cleanup_estimate_matches_sweep_witness :
  Cleanup.metricsToDelete (Cleanup.GET (40 * msPerDay) staleStore)
  = metricsDeleted (POST utc (40 * msPerDay) None None staleStore).2.
Proof.
  refine (proj1 (proj2 (cleanup_estimate_matches_sweep utc (40 * msPerDay) staleStore _))).
  reflexivity.
Defined.

(** Across a change of the clocks the estimate and the sweep differ: ten
    days after the clocks went back the statistics count the resolved
    alert that is 30 days and 30 minutes old, and the sweep keeps it. *)
Lemma estimate_differs_across_clock_change :
  Cleanup.alertsToDelete (Cleanup.GET autumnNow agedStore) = 1%nat /\
  alertsDeleted (POST autumnZone autumnNow None None agedStore).2 = 0%nat.
Proof. split; vm_compute; reflexivity. Qed.

(** ** Alerts: resolving and reopening *)

Lemma update_alerts i v st st' :
  Alerts.update i v st = Some st' ->
  alerts st' = map (fun a => if Nat.eqb (Alert.id a) i then Alerts.withResolved v a else a)
                   (alerts st) /\
  containers st' = containers st /\ containerMetrics st' = containerMetrics st /\
  scans st' = scans st /\ containerLogs st' = containerLogs st /\
  systemMetrics st' = systemMetrics st /\ nextId st' = nextId st.
Proof.
  unfold Alerts.update. destruct (existsb _ _); [|discriminate].
  intros H. injection H as <-. simpl. split_and!; reflexivity.
Qed.

Lemma update_known i v st :
  In i (map Alert.id (alerts st)) -> is_Some (Alerts.update i v st).
Proof.
  intros H. unfold Alerts.update.
  assert (He : existsb (fun a => Nat.eqb (Alert.id a) i) (alerts st) = true).
  { apply existsb_exists. apply in_map_iff in H as (a & Ha & Hin).
    exists a. split; [exact Hin | apply Nat.eqb_eq, Ha]. }
  rewrite He. eauto.
Qed.

Lemma update_unknown i v st :
  ~ In i (map Alert.id (alerts st)) -> Alerts.update i v st = None.
Proof.
  intros H. unfold Alerts.update.
  destruct (existsb _ _) eqn:He; [|reflexivity].
  apply existsb_exists in He as (a & Hin & Ha). apply Nat.eqb_eq in Ha.
  exfalso. apply H, in_map_iff. exists a. split; assumption.
Qed.

Lemma map_ids_update i v (l : list Alert.t) :
  map Alert.id (map (fun a => if Nat.eqb (Alert.id a) i then Alerts.withResolved v a else a) l)
  = map Alert.id l.
Proof.
  induction l as [|a l IH]; simpl; [reflexivity|].
  rewrite IH. destruct (Nat.eqb (Alert.id a) i); reflexivity.
Qed.

Lemma reopen_resolved_rows i (l : list Alert.t) :
  (forall a, In a l -> Alert.id a = i -> Alert.resolved a = false) ->
  map (fun a => if Nat.eqb (Alert.id a) i then Alerts.withResolved false a else a)
      (map (fun a => if Nat.eqb (Alert.id a) i then Alerts.withResolved true a else a) l)
  = l.
Proof.
  induction l as [|a l IH]; intros H; simpl; [reflexivity|].
  rewrite IH by (intros b Hb; apply H; right; exact Hb). f_equal.
  destruct (Nat.eqb (Alert.id a) i) eqn:Ha.
  - simpl. rewrite Ha. apply Nat.eqb_eq in Ha.
    pose proof (H a (or_introl eq_refl) Ha) as Hr.
    destruct a; simpl in *. subst. reflexivity.
  - rewrite Ha. reflexivity.
Qed.

(** X22: resolving an alert that is open and reopening it gives the store
    back; both requests answer 200. *)
Theorem resolve_then_reopen (i : rowid) (st : store)
    (Hknown : In i (map Alert.id (alerts st)))
    (Hopen : forall a, In a (alerts st) -> Alert.id a = i -> Alert.resolved a = false) :
  let resolved := Alerts.PATCH (Some i) (Some "resolve") st in
  resolved.2 = 200%Z /\
  (forall a, In a (alerts resolved.1) -> Alert.id a = i -> Alert.resolved a = true) /\
  Alerts.PATCH (Some i) (Some "reopen") resolved.1 = (st, 200%Z).
Proof.
  unfold Alerts.PATCH. simpl Js.isEmpty. simpl String.eqb. cbv iota.
  destruct (update_known i true st Hknown) as [st1 H1]. rewrite H1.
  destruct (update_alerts i true st st1 H1) as (Ha & Hc & Hm & Hs & Hl & Hsm & Hn).
  cbv zeta. cbn [fst snd]. split_and!.
  - reflexivity.
  - intros a Hin Hid. rewrite Ha in Hin. apply in_map_iff in Hin as (b & Hb & _).
    destruct (Nat.eqb (Alert.id b) i) eqn:Hbi.
    + subst a. reflexivity.
    + subst a. apply Nat.eqb_neq in Hbi. contradiction.
  - assert (Hknown1 : In i (map Alert.id (alerts st1))).
    { rewrite Ha, map_ids_update. exact Hknown. }
    destruct (update_known i false st1 Hknown1) as [st2 H2]. rewrite H2.
    destruct (update_alerts i false st1 st2 H2) as (Ha2 & Hc2 & Hm2 & Hs2 & Hl2 & Hsm2 & Hn2).
    f_equal. destruct st2, st. simpl in *.
    rewrite Ha2, Ha, (reopen_resolved_rows i _ Hopen).
    congruence.
Qed.

Lemma resolve_then_reopen_witness :
  Alerts.PATCH (Some 1%nat) (Some "reopen")
    (Alerts.PATCH (Some 1%nat) (Some "resolve") sampleStore).1
  = (sampleStore, 200%Z).
Proof.
  refine (proj2 (proj2 (resolve_then_reopen 1%nat sampleStore _ _))).
  - vm_compute. tauto.
  - intros a Hin Hid. vm_compute in Hin.
    repeat (destruct Hin as [<- | Hin]; [first [reflexivity | discriminate Hid]|]).
    destruct Hin.
Defined.

(** ** Alerts and the security scores *)

Lemma PATCH_cases i act st :
  (Alerts.PATCH (Some i) (Some act) st).1 = st \/
  (exists v, (act = "resolve" /\ v = true \/ act = "reopen" /\ v = false) /\
             Alerts.update i v st = Some (Alerts.PATCH (Some i) (Some act) st).1).
Proof.
  unfold Alerts.PATCH. destruct (Js.isEmpty act); [left; reflexivity|].
  destruct (String.eqb act "resolve") eqn:H1.
  - apply String.eqb_eq in H1. subst act.
    destruct (Alerts.update i true st) eqn:Hu; [|left; reflexivity].
    right. exists true. split; [left; split; reflexivity | exact Hu].
  - destruct (String.eqb act "reopen") eqn:H2; [|left; reflexivity].
    apply String.eqb_eq in H2. subst act.
    destruct (Alerts.update i false st) eqn:Hu; [|left; reflexivity].
    right. exists false. split; [right; split; reflexivity | exact Hu].
Qed.

Lemma filter_update_commute (p : time -> bool) i v (l : list Alert.t) :
  List.filter (fun a => p (Alert.timestamp a))
    (map (fun a => if Nat.eqb (Alert.id a) i then Alerts.withResolved v a else a) l)
  = map (fun a => if Nat.eqb (Alert.id a) i then Alerts.withResolved v a else a)
        (List.filter (fun a => p (Alert.timestamp a)) l).
Proof.
  induction l as [|a l IH]; simpl; [reflexivity|].
  assert (Ht : Alert.timestamp
                 (if Nat.eqb (Alert.id a) i then Alerts.withResolved v a else a)
               = Alert.timestamp a).
  { destruct (Nat.eqb (Alert.id a) i); reflexivity. }
  rewrite Ht. destruct (p (Alert.timestamp a)); simpl; rewrite IH; reflexivity.
Qed.

Lemma resolve_lowers_count sev i (l : list Alert.t) :
  (length (List.filter (unresolvedOf sev)
     (map (fun a => if Nat.eqb (Alert.id a) i then Alerts.withResolved true a else a) l))
   <= length (List.filter (unresolvedOf sev) l))%nat.
Proof.
  unfold unresolvedOf. induction l as [|a l IH]; simpl; [lia|].
  destruct (Nat.eqb (Alert.id a) i); simpl;
    destruct (String.eqb (Alert.severity a) sev), (Alert.resolved a); simpl; lia.
Qed.

Lemma reopen_raises_count sev i (l : list Alert.t) :
  (length (List.filter (unresolvedOf sev) l)
   <= length (List.filter (unresolvedOf sev)
        (map (fun a => if Nat.eqb (Alert.id a) i then Alerts.withResolved false a else a) l)))%nat.
Proof.
  unfold unresolvedOf. induction l as [|a l IH]; simpl; [lia|].
  destruct (Nat.eqb (Alert.id a) i); simpl;
    destruct (String.eqb (Alert.severity a) sev), (Alert.resolved a); simpl; lia.
Qed.

(** X23: resolving an alert never lowers a security score and reopening
    one never raises it; a request that does not answer 200 leaves the
    store, and with it both scores, as they were. *)
Theorem resolving_never_lowers_score (now : time) (hours : Z) (i : rowid)
    (inPeriod : time -> bool) (st : store) :
  let reported (s : store) :=
    List.filter (fun a => inPeriod (Alert.timestamp a)) (alerts s) in
  let resolved := (Alerts.PATCH (Some i) (Some "resolve") st).1 in
  let reopened := (Alerts.PATCH (Some i) (Some "reopen") st).1 in
  (Dashboard.securityScore now hours st <= Dashboard.securityScore now hours resolved)%Z /\
  (Report.securityScore (reported st) <= Report.securityScore (reported resolved))%Z /\
  (Dashboard.securityScore now hours reopened <= Dashboard.securityScore now hours st)%Z /\
  (Report.securityScore (reported reopened) <= Report.securityScore (reported st))%Z /\
  (forall alertId action,
     (Alerts.PATCH alertId action st).2 <> 200%Z ->
     (Alerts.PATCH alertId action st).1 = st /\
     Dashboard.securityScore now hours (Alerts.PATCH alertId action st).1
     = Dashboard.securityScore now hours st /\
     Report.securityScore (reported (Alerts.PATCH alertId action st).1)
     = Report.securityScore (reported st)).
Proof.
  cbv zeta.
  assert (Hfail : forall alertId action,
            (Alerts.PATCH alertId action st).2 <> 200%Z ->
            (Alerts.PATCH alertId action st).1 = st).
  { intros alertId action. unfold Alerts.PATCH.
    destruct alertId as [j|], action as [act|]; try reflexivity.
    destruct (Js.isEmpty act); [reflexivity|].
    destruct (String.eqb act "resolve").
    - destruct (Alerts.update j true st); [intros H; contradiction H|]; reflexivity.
    - destruct (String.eqb act "reopen"); [|reflexivity].
      destruct (Alerts.update j false st); [intros H; contradiction H|]; reflexivity. }
  assert (Hlast : forall alertId action,
     (Alerts.PATCH alertId action st).2 <> 200%Z ->
     (Alerts.PATCH alertId action st).1 = st /\
     Dashboard.securityScore now hours (Alerts.PATCH alertId action st).1
     = Dashboard.securityScore now hours st /\
     Report.securityScore
       (List.filter (fun a => inPeriod (Alert.timestamp a))
                    (alerts (Alerts.PATCH alertId action st).1))
     = Report.securityScore
         (List.filter (fun a => inPeriod (Alert.timestamp a)) (alerts st))).
  { intros alertId action H. rewrite (Hfail alertId action H). auto. }
  clear Hfail.
  enough (Hfour :
    (Dashboard.securityScore now hours st
     <= Dashboard.securityScore now hours (Alerts.PATCH (Some i) (Some "resolve") st).1)%Z /\
    (Report.securityScore (List.filter (fun a => inPeriod (Alert.timestamp a)) (alerts st))
     <= Report.securityScore
          (List.filter (fun a => inPeriod (Alert.timestamp a))
             (alerts (Alerts.PATCH (Some i) (Some "resolve") st).1)))%Z /\
    (Dashboard.securityScore now hours (Alerts.PATCH (Some i) (Some "reopen") st).1
     <= Dashboard.securityScore now hours st)%Z /\
    (Report.securityScore
       (List.filter (fun a => inPeriod (Alert.timestamp a))
          (alerts (Alerts.PATCH (Some i) (Some "reopen") st).1))
     <= Report.securityScore
          (List.filter (fun a => inPeriod (Alert.timestamp a)) (alerts st)))%Z).
  { destruct Hfour as (H1 & H2 & H3 & H4).
    split_and!; [exact H1 | exact H2 | exact H3 | exact H4 | exact Hlast]. }
  clear Hlast.
  destruct (PATCH_cases i "resolve" st) as [-> | (v & Hv & Hu)];
  destruct (PATCH_cases i "reopen" st) as [-> | (w & Hw & Hu')].
  - split_and!; lia.
  - destruct Hw as [[Hw _] | [_ ->]]; [discriminate Hw|].
    destruct (update_alerts _ _ _ _ Hu') as (Ha & _ & _ & Hs & _).
    unfold Dashboard.securityScore, Report.securityScore, count, clamp100.
    rewrite Ha, Hs, !filter_update_commute.
    pose proof (reopen_raises_count "CRITICAL" i (alerts st)).
    pose proof (fun l => reopen_raises_count "CRITICAL" i l) as Hc.
    pose proof (fun l => reopen_raises_count "HIGH" i l) as Hh.
    specialize (Hc (List.filter (fun a => inPeriod (Alert.timestamp a)) (alerts st))).
    specialize (Hh (List.filter (fun a => inPeriod (Alert.timestamp a)) (alerts st))).
    split_and!; lia.
  - destruct Hv as [[_ ->] | [Hv _]]; [|discriminate Hv].
    destruct (update_alerts _ _ _ _ Hu) as (Ha & _ & _ & Hs & _).
    unfold Dashboard.securityScore, Report.securityScore, count, clamp100.
    rewrite Ha, Hs, !filter_update_commute.
    pose proof (resolve_lowers_count "CRITICAL" i (alerts st)).
    pose proof (fun l => resolve_lowers_count "CRITICAL" i l) as Hc.
    pose proof (fun l => resolve_lowers_count "HIGH" i l) as Hh.
    specialize (Hc (List.filter (fun a => inPeriod (Alert.timestamp a)) (alerts st))).
    specialize (Hh (List.filter (fun a => inPeriod (Alert.timestamp a)) (alerts st))).
    split_and!; lia.
  - destruct Hv as [[_ ->] | [Hv _]]; [|discriminate Hv].
    destruct Hw as [[Hw _] | [_ ->]]; [discriminate Hw|].
    destruct (update_alerts _ _ _ _ Hu) as (Ha & _ & _ & Hs & _).
    destruct (update_alerts _ _ _ _ Hu') as (Ha' & _ & _ & Hs' & _).
    unfold Dashboard.securityScore, Report.securityScore, count, clamp100.
    rewrite Ha, Hs, Ha', Hs', !filter_update_commute.
    pose proof (resolve_lowers_count "CRITICAL" i (alerts st)).
    pose proof (reopen_raises_count "CRITICAL" i (alerts st)).
    pose proof (fun l => resolve_lowers_count "CRITICAL" i l) as Hc.
    pose proof (fun l => resolve_lowers_count "HIGH" i l) as Hh.
    pose proof (fun l => reopen_raises_count "CRITICAL" i l) as Hc'.
    pose proof (fun l => reopen_raises_count "HIGH" i l) as Hh'.
    specialize (Hc (List.filter (fun a => inPeriod (Alert.timestamp a)) (alerts st))).
    specialize (Hh (List.filter (fun a => inPeriod (Alert.timestamp a)) (alerts st))).
    specialize (Hc' (List.filter (fun a => inPeriod (Alert.timestamp a)) (alerts st))).
    specialize (Hh' (List.filter (fun a => inPeriod (Alert.timestamp a)) (alerts st))).
    split_and!; lia.
Qed.

(** ** Compliance *)

Lemma passed_is_recent ss :
  Compliance.scanPassed ss = true -> Compliance.hasRecentScan ss = true.
Proof. destruct ss; [discriminate | reflexivity]. Qed.

Lemma classify_cases from to st acc c :
  Compliance.classify from to st acc c
  = if compliant from to st c
    then (acc.1, acc.2 ++ [Container.name c])%list
    else ((acc.1 ++ [Compliance.mkIssue (Container.name c)
             ((if Compliance.hasCriticalAlerts (Compliance.alertsOf from to st c)
               then ["Has unresolved critical alerts"] else [])
              ++ (if negb (Compliance.hasRecentScan (Compliance.scansOf from to st c))
                  then ["No recent security scans"] else [])
              ++ (if negb (Compliance.scanPassed (Compliance.scansOf from to st c))
                  then ["Recent scans failed"] else []))])%list, acc.2).
Proof.
  unfold Compliance.classify, compliant.
  destruct (Compliance.hasCriticalAlerts _); [reflexivity|].
  destruct (Compliance.scanPassed _) eqn:Hp.
  - rewrite (passed_is_recent _ Hp). reflexivity.
  - rewrite orb_true_r. reflexivity.
Qed.

Lemma new_issue_ok (critical recent passed : bool) name :
  (passed = true -> recent = true) ->
  negb critical && passed = false ->
  issueOk (Compliance.mkIssue name
             ((if critical then ["Has unresolved critical alerts"] else [])
              ++ (if negb recent then ["No recent security scans"] else [])
              ++ (if negb passed then ["Recent scans failed"] else []))).
Proof.
  intros Hpr Hc. unfold issueOk. simpl.
  destruct critical, recent, passed; simpl in *;
    try discriminate Hc; try (specialize (Hpr eq_refl); discriminate Hpr);
    (split; [discriminate|]); intros H;
    repeat (destruct H as [H | H]; [try discriminate H|]); try contradiction;
    auto 6.
Qed.

Lemma report_fold from to st cs acc :
  Forall issueOk acc.1 ->
  let r := fold_left (Compliance.classify from to st) cs acc in
  map Compliance.container r.1
  = (map Compliance.container acc.1
     ++ map Container.name (List.filter (fun c => negb (compliant from to st c)) cs))%list /\
  r.2 = (acc.2 ++ map Container.name (List.filter (compliant from to st) cs))%list /\
  Forall issueOk r.1.
Proof.
  revert acc. induction cs as [|c cs IH]; intros acc Hacc; simpl.
  - rewrite !app_nil_r. split_and!; [reflexivity | reflexivity | exact Hacc].
  - rewrite classify_cases. destruct (compliant from to st c) eqn:Hc.
    + destruct (IH (acc.1, (acc.2 ++ [Container.name c])%list) Hacc) as (H1 & H2 & H3).
      simpl in *. split_and!; [exact H1 | | exact H3].
      rewrite H2, <- app_assoc. reflexivity.
    + match goal with |- context [fold_left _ cs ?a] =>
        destruct (IH a) as (H1 & H2 & H3) end.
      * simpl. apply Forall_app. split; [exact Hacc|].
        apply Forall_cons. split; [|apply Forall_nil; exact I].
        apply new_issue_ok; [apply passed_is_recent | exact Hc].
      * simpl in *. split_and!; [ | exact H2 | exact H3].
        rewrite H1, map_app, <- app_assoc. reflexivity.
Qed.

(** X24: the compliance report puts every container in exactly one of
    its two lists, in the order of the inventory.  The compliant ones are
    those with no unresolved critical alert and with a completed scan in
    the period, so the test for a recent scan decides nothing.  Every
    entry of the issues list names at least one issue, and whenever it
    names the missing scan it names the failed scan as well.  The rate is
    NaN exactly when the inventory is empty. *)
Theorem compliance_partition (from to : time) (st : store) :
  let r := Compliance.report from to st in
  r.2 = map Container.name (List.filter (compliant from to st) (containers st)) /\
  map Compliance.container r.1
  = map Container.name
      (List.filter (fun c => negb (compliant from to st c)) (containers st)) /\
  (length r.1 + length r.2 = length (containers st))%nat /\
  Forall (fun i => Compliance.issues i <> [] /\
                   (In "No recent security scans" (Compliance.issues i) ->
                    In "Recent scans failed" (Compliance.issues i))) r.1 /\
  (Compliance.complianceRate from to st = NaN <-> containers st = []).
Proof.
  cbv zeta.
  destruct (report_fold from to st (containers st) ([], []) (Forall_nil_2 _))
    as (H1 & H2 & H3).
  fold (Compliance.report from to st) in H1, H2, H3. simpl in H1, H2.
  assert (Hlen : (length (Compliance.report from to st).1
                  + length (Compliance.report from to st).2
                  = length (containers st))%nat).
  { rewrite <- (length_map Compliance.container), H1, H2, !length_map.
    pose proof (count_filter_negb (compliant from to st) (containers st)) as Hc.
    unfold count in Hc. lia. }
  split_and!; [exact H2 | exact H1 | exact Hlen | exact H3 |].
  unfold Compliance.complianceRate.
  destruct (containers st) as [|c cs] eqn:Hcs.
  - simpl in Hlen.
    assert (Hz : length (Compliance.report from to st).2 = 0%nat) by lia.
    rewrite Hz. split; [reflexivity | reflexivity].
  - split; [|discriminate]. intros H. exfalso.
    unfold Num.ofZ, Num.div in H.
    assert (Hnz : Num.isZero (inject_Z (Z.of_nat (length (c :: cs)))) = false).
    { apply isZero_false. unfold Qeq. simpl. lia. }
    rewrite Hnz in H. discriminate H.
Qed.

(** ** Performance *)

Lemma metricsNamed_snoc st n metrics m :
  metricsNamed st n (metrics ++ [m])
  = (metricsNamed st n metrics
     ++ (if String.eqb (Performance.containerName st m) n then [m] else []))%list.
Proof.
  unfold metricsNamed. rewrite List.filter_app. simpl.
  destruct (String.eqb (Performance.containerName st m) n); reflexivity.
Qed.

Lemma holds_push st metrics m p :
  holds st metrics p -> Performance.containerName st m = Performance.name p ->
  holds st (metrics ++ [m]) (Performance.push m p).
Proof.
  intros (Hne & Hc & Hm & Hi & Ho) Hn. unfold holds. simpl.
  rewrite metricsNamed_snoc, Hn, String.eqb_refl, !map_app. simpl.
  rewrite Hc, Hm, Hi, Ho. split_and!; try reflexivity.
  destruct (metricsNamed st (Performance.name p) metrics); discriminate.
Qed.

Lemma holds_other st metrics m p :
  holds st metrics p -> Performance.containerName st m <> Performance.name p ->
  holds st (metrics ++ [m]) p.
Proof.
  intros H Hn. unfold holds. rewrite metricsNamed_snoc.
  destruct (String.eqb_spec (Performance.containerName st m) (Performance.name p));
    [contradiction|].
  rewrite app_nil_r. exact H.
Qed.

Lemma holds_new st metrics m :
  metricsNamed st (Performance.containerName st m) metrics = [] ->
  holds st (metrics ++ [m])
    (Performance.push m (Performance.mkPerf (Performance.containerName st m) [] [] [] [])).
Proof.
  intros He. unfold holds. simpl.
  rewrite metricsNamed_snoc, String.eqb_refl, He. simpl.
  split_and!; [discriminate | reflexivity..].
Qed.

Lemma record_names n m groups :
  map Performance.name (Performance.record n m groups)
  = if existsb (fun p => String.eqb (Performance.name p) n) groups
    then map Performance.name groups
    else (map Performance.name groups ++ [n])%list.
Proof.
  induction groups as [|p groups IH]; simpl; [reflexivity|].
  destruct (String.eqb (Performance.name p) n); simpl; [reflexivity|].
  rewrite IH. destruct (existsb _ groups); reflexivity.
Qed.

Lemma named_iff n groups :
  existsb (fun p => String.eqb (Performance.name p) n) groups = true
  <-> In n (map Performance.name groups).
Proof.
  rewrite existsb_exists, in_map_iff. split.
  - intros (p & Hin & Hp). apply String.eqb_eq in Hp. eauto.
  - intros (p & Hp & Hin). exists p. split; [exact Hin | apply String.eqb_eq, Hp].
Qed.

Lemma record_points n m groups :
  totalPoints (Performance.record n m groups) = S (totalPoints groups).
Proof.
  unfold totalPoints.
  induction groups as [|p groups IH]; simpl; [reflexivity|].
  destruct (String.eqb (Performance.name p) n); simpl.
  - unfold Performance.dataPoints at 1. simpl. rewrite length_app. simpl.
    unfold Performance.dataPoints at 2. lia.
  - rewrite IH. lia.
Qed.

Lemma record_holds st metrics m groups :
  Forall (holds st metrics) groups ->
  List.NoDup (map Performance.name groups) ->
  In (Performance.containerName st m) (map Performance.name groups) \/
  metricsNamed st (Performance.containerName st m) metrics = [] ->
  Forall (holds st (metrics ++ [m]))
         (Performance.record (Performance.containerName st m) m groups).
Proof.
  intros Hall. induction Hall as [|p groups Hp Hall IH]; intros Hnd Hcase; simpl.
  - destruct Hcase as [[] | He].
    apply Forall_cons. split; [|apply Forall_nil; exact I].
    apply holds_new, He.
  - apply List.NoDup_cons_iff in Hnd as [Hnotin Hnd].
    destruct (String.eqb_spec (Performance.name p) (Performance.containerName st m))
      as [E | E].
    + apply Forall_cons. split.
      * apply holds_push; [exact Hp | symmetry; exact E].
      * rewrite Forall_forall in Hall. apply Forall_forall. intros q Hq.
        apply holds_other; [apply Hall, Hq|].
        intros Eq. apply Hnotin. rewrite E, Eq.
        apply in_map, list_elem_of_In, Hq.
    + apply Forall_cons. split.
      * apply holds_other; [exact Hp | congruence].
      * apply IH; [exact Hnd|].
        destruct Hcase as [[Hh | Ht] | He]; [contradiction | left; exact Ht | right; exact He].
Qed.

Lemma grouped_record st metrics m groups :
  grouped st metrics groups ->
  grouped st (metrics ++ [m])
    (Performance.record (Performance.containerName st m) m groups).
Proof.
  intros (Hnd & Hall & Hcover & Hpts).
  set (n := Performance.containerName st m).
  assert (Hcase : In n (map Performance.name groups) \/ metricsNamed st n metrics = []).
  { destruct (existsb (fun p => String.eqb (Performance.name p) n) groups) eqn:He.
    - left. apply named_iff, He.
    - right. unfold metricsNamed. apply filter_none. intros x Hx.
      destruct (String.eqb_spec (Performance.containerName st x) n) as [E|];
        [|reflexivity].
      exfalso. specialize (Hcover x Hx). rewrite E in Hcover.
      apply named_iff in Hcover. congruence. }
  unfold grouped. split_and!.
  - rewrite record_names.
    destruct (existsb (fun p => String.eqb (Performance.name p) n) groups) eqn:He;
      [exact Hnd|].
    apply NoDup_snoc_In; [exact Hnd|].
    intros Hin. apply named_iff in Hin. congruence.
  - apply record_holds; assumption.
  - intros x Hx. rewrite record_names.
    assert (Hin : forall y, In y (map Performance.name groups) ->
              In y (if existsb (fun p => String.eqb (Performance.name p) n) groups
                    then map Performance.name groups
                    else (map Performance.name groups ++ [n])%list)).
    { intros y Hy. destruct (existsb _ groups); [exact Hy|].
      apply in_or_app. left. exact Hy. }
    apply in_app_or in Hx as [Hx | [<- | []]].
    + apply Hin, Hcover, Hx.
    + fold n. destruct (existsb (fun p => String.eqb (Performance.name p) n) groups) eqn:He.
      * apply named_iff, He.
      * apply in_or_app. right. left. reflexivity.
  - rewrite record_points, Hpts, length_app. simpl. lia.
Qed.

Lemma grouped_fold st rest done groups :
  grouped st done groups ->
  grouped st (done ++ rest)
    (fold_left (fun g m => Performance.record (Performance.containerName st m) m g)
               rest groups).
Proof.
  revert done groups. induction rest as [|m rest IH]; intros done groups H; simpl.
  - rewrite app_nil_r. exact H.
  - replace (done ++ m :: rest)%list with ((done ++ [m]) ++ rest)%list
      by (rewrite <- app_assoc; reflexivity).
    apply IH, grouped_record, H.
Qed.

(** X25: the loop of the performance report makes one entry per
    container name, holding the values of the metrics of that name in the
    order of the query: the names are distinct, every metric is counted in
    the entry of its name, the data points of the entries add up to the
    number of metrics, and no entry is empty. *)
Theorem performance_groups (st : store) (metrics : list ContainerMetric.t) :
  let groups := Performance.containerPerformance st metrics in
  List.NoDup (map Performance.name groups) /\
  Forall (holds st metrics) groups /\
  (forall m, In m metrics ->
     In (Performance.containerName st m) (map Performance.name groups)) /\
  totalPoints groups = length metrics /\
  Forall (fun p => (1 <= Performance.dataPoints p)%nat) groups.
Proof.
  cbv zeta.
  assert (H0 : grouped st [] []).
  { unfold grouped. split_and!; [constructor | apply Forall_nil; exact I | | reflexivity].
    intros x []. }
  destruct (grouped_fold st metrics [] [] H0) as (Hnd & Hall & Hcover & Hpts).
  fold (Performance.containerPerformance st metrics) in Hnd, Hall, Hcover, Hpts.
  simpl in Hall, Hcover, Hpts.
  split_and!; try assumption.
  eapply Forall_impl; [exact Hall|].
  intros p (Hne & Hc & _). unfold Performance.dataPoints. rewrite Hc, length_map.
  destruct (metricsNamed st (Performance.name p) metrics); [congruence | simpl; lia].
Qed.

(** ** Container logs *)

Lemma substring_all s : String.substring 0 (String.length s) s = s.
Proof. induction s as [|c s IH]; simpl; [reflexivity | rewrite IH; reflexivity]. Qed.

Lemma indexOf_split c s i :
  Logs.indexOf c s = Some i ->
  s = String.substring 0 i s
      ++ String c (String.substring (i + 1) (String.length s - (i + 1)) s) /\
  allChars (fun d => negb (Ascii.eqb d c)) (String.substring 0 i s) = true.
Proof.
  revert i. induction s as [|d r IH]; intros i H; [discriminate|].
  simpl in H. destruct (Ascii.eqb d c) eqn:Hd.
  - injection H as <-. apply Ascii.eqb_eq in Hd. subst d. simpl.
    rewrite Nat.sub_0_r.
    destruct r; simpl; [split; reflexivity|].
    rewrite substring_all. split; reflexivity.
  - destruct (Logs.indexOf c r) as [j|] eqn:Hj; [|discriminate].
    simpl in H. injection H as <-.
    destruct (IH j eq_refl) as [Hs Hp].
    change (String.substring 0 (S j) (String d r)) with (String d (String.substring 0 j r)).
    change (String.substring (S j + 1) (String.length (String d r) - (S j + 1)) (String d r))
      with (String.substring (j + 1) (String.length r - (j + 1)) r).
    split.
    + change (String d (String.substring 0 j r) ++ ?x)
        with (String d (String.substring 0 j r ++ x)).
      f_equal. exact Hs.
    + simpl. rewrite Hd. exact Hp.
Qed.

(** X26: a line that is parsed is not blank.  Its message is the whole
    line, stamped with the current time, or the part behind the first
    space when the part in front of it reads as a date; in that case this
    part, a space and the message make up the line.  The level is the one
    read from the message and the source is stdout. *)
Theorem log_line_is_kept (dateOf : string -> option time) (now : time)
    (line : string) (e : Logs.entry)
    (He : Logs.parseDockerLog dateOf now line = Some e) :
  Js.trim line <> "" /\
  Logs.logLevel e = Logs.levelOf (Logs.message e) /\
  Logs.source e = "stdout" /\
  ((Logs.message e = line /\ Logs.timestamp e = now) \/
   (exists stamp, line = stamp ++ " " ++ Logs.message e /\
                  dateOf stamp = Some (Logs.timestamp e) /\
                  allChars (fun c => negb (Ascii.eqb c " ")) stamp = true)).
Proof.
  unfold Logs.parseDockerLog in He.
  destruct (Js.trim line) eqn:Ht; [discriminate|]. simpl in He.
  split; [discriminate|].
  destruct (Logs.indexOf " " line) as [i|] eqn:Hi.
  - destruct (indexOf_split " " line i Hi) as [Hs Hp].
    destruct (dateOf (String.substring 0 i line)) as [d|] eqn:Hd.
    + injection He as <-. simpl. split_and!; [reflexivity | reflexivity|].
      right. exists (String.substring 0 i line). split_and!; [exact Hs | exact Hd | exact Hp].
    + injection He as <-. simpl. split_and!; [reflexivity | reflexivity|].
      left. split; reflexivity.
  - injection He as <-. simpl. split_and!; [reflexivity | reflexivity|].
    left. split; reflexivity.
Qed.

Lemma log_line_is_kept_witness :
  Logs.parseDockerLog stampOf 7 sampleLogLine = Some sampleEntry /\
  Js.trim sampleLogLine <> "" /\
  Logs.logLevel sampleEntry = Logs.levelOf (Logs.message sampleEntry).
Proof.
  split; [reflexivity|].
  pose proof (log_line_is_kept stampOf 7 sampleLogLine sampleEntry eq_refl) as H.
  split; [exact (proj1 H) | exact (proj1 (proj2 H))].
Defined.

Lemma startsWith_app x b : Js.startsWith x (x ++ b) = true.
Proof.
  induction x as [|c x IH]; [reflexivity|].
  change (String c x ++ b) with (String c (x ++ b)). simpl.
  rewrite Ascii.eqb_refl, IH. reflexivity.
Qed.

Lemma includes_cons x c s : Js.includes x s = true -> Js.includes x (String c s) = true.
Proof.
  intros H. change (Js.includes x (String c s))
    with (Js.startsWith x (String c s) || Js.includes x s).
  rewrite H, orb_true_r. reflexivity.
Qed.

Lemma includes_app x a b : Js.includes x (a ++ x ++ b) = true.
Proof.
  induction a as [|c a IH].
  - change ("" ++ x ++ b) with (x ++ b).
    destruct (x ++ b) eqn:E.
    + destruct x; [reflexivity | discriminate E].
    + change (Js.includes x (String a s))
        with (Js.startsWith x (String a s) || Js.includes x s).
      rewrite <- E, startsWith_app. reflexivity.
  - change (String c a ++ x ++ b) with (String c (a ++ x ++ b)).
    apply includes_cons, IH.
Qed.

Lemma toLowerCase_app a b : Js.toLowerCase (a ++ b) = Js.toLowerCase a ++ Js.toLowerCase b.
Proof.
  induction a as [|c a IH]; [reflexivity|].
  change (String c a ++ b) with (String c (a ++ b)). simpl. rewrite IH. reflexivity.
Qed.

Lemma lower_upper_char c : Js.lowerChar (Js.upperChar c) = Js.lowerChar c.
Proof. destruct c as [[] [] [] [] [] [] [] []]; reflexivity. Qed.

Lemma lower_upper s : Js.toLowerCase (Js.toUpperCase s) = Js.toLowerCase s.
Proof.
  induction s as [|c s IH]; simpl; [reflexivity|].
  rewrite lower_upper_char, IH. reflexivity.
Qed.

(** X27: a message that holds the word "error", in whatever letter case,
    is an ERROR, whatever else it holds; and the level does not depend
    on the letter case of the message. *)
Theorem error_keyword_wins (a w b m : string)
    (Hw : Js.toLowerCase w = "error") :
  Logs.levelOf (a ++ w ++ b) = "ERROR" /\
  Logs.levelOf (Js.toUpperCase m) = Logs.levelOf m /\
  In (Logs.levelOf m) ["ERROR"; "WARN"; "DEBUG"; "INFO"].
Proof.
  split_and!.
  - unfold Logs.levelOf. rewrite !toLowerCase_app, Hw, includes_app. reflexivity.
  - unfold Logs.levelOf. rewrite lower_upper. reflexivity.
  - unfold Logs.levelOf.
    repeat match goal with |- context [if ?c then _ else _] => destruct c end;
      simpl; tauto.
Qed.

Lemma error_keyword_wins_witness :
  Logs.levelOf ("debug: no warnings, 1 " ++ "ERROR" ++ " found") = "ERROR".
Proof.
  refine (proj1 (error_keyword_wins "debug: no warnings, 1 " "ERROR" " found" "" _)).
  reflexivity.
Defined.
